(** * litmapper: the resource cache of [litmapper.kv.util], the schemas it stores, and the tasks that fill it

    A shallow embedding of the parts of the backend that derive, cache and
    look up resources (filter sets, clusterings, article groups):

    - [litmapper/errors.py]: the three resource exceptions;
    - [litmapper/schemas.py]: the hashable parameter models, the result
      models and their validators, and the job models;
    - [litmapper/kv/util.py]: the registry tables, [find_resource],
      [reserve_resource], [make_resource] and the creation functions;
    - [litmapper/kv/info.py]: [find_job] and [save_job];
    - [litmapper/tasks.py]: [worker_context], the three tasks and
      [start_task];
    - [litmapper/routers]: the lookups of jobs and of resources by hash.

    Redis is a finite map from (hash name, field) to byte strings, threaded
    explicitly.  Python exceptions are values of [exn]; a computation either
    returns or raises ([outcome]).  Library code the repository calls (the
    interpreter's [hash] and [str], pydantic's JSON codec, SQL queries, UMAP,
    HDBSCAN, scikit-learn, pandas' float means, the sentence encoder) is
    taken as the fields of interface classes: the properties hold for every
    implementation of them, and a small stand-in world runs the code. *)

From Stdlib Require Import ZArith Bool Lia.
From Stdlib Require Import Floats.SpecFloat.
From stdpp Require Import gmap strings pretty list.

Local Open Scope Z_scope.
Local Open Scope string_scope.

(** ** Exceptions and outcomes *)

(** The exceptions that cross the functions modelled here.  The first three
    are [litmapper.errors]; [ValidationError] is pydantic's (a subclass of
    [ValueError]); [Shutdown] is [dramatiq.middleware.Shutdown], which derives
    from [BaseException] and not from [Exception]. *)
Inductive exn : Type :=
  | ResourceCreationInProgress (msg : string)
  | ResourceDoesNotExist (msg : string)
  | ResourceExists (msg : string)
  | TypeError (msg : string)
  | ValueError (msg : string)
  | ValidationError (msg : string)
  | OtherException (name : string)
  | Shutdown
  | OtherBaseException (name : string).

(** [isinstance(e, Exception)]. *)
Definition is_Exception (e : exn) : bool :=
  match e with
  | Shutdown | OtherBaseException _ => false
  | _ => true
  end.

(** [isinstance(e, ValueError)]. *)
Definition is_ValueError (e : exn) : bool :=
  match e with
  | ValueError _ | ValidationError _ => true
  | _ => false
  end.

Definition is_Shutdown (e : exn) : bool :=
  match e with
  | Shutdown => true
  | _ => false
  end.

Inductive outcome (A : Type) : Type :=
  | Return (a : A)
  | Raise (e : exn).
Arguments Return {A} a.
Arguments Raise {A} e.

(** Sequencing: an exception raised by the first computation propagates. *)
Global Instance outcome_ret : MRet outcome := @Return.
Global Instance outcome_bind : MBind outcome := fun A B k o =>
  match o with
  | Return a => k a
  | Raise e => Raise e
  end.

(** ** Python values used by the schemas *)

(** A Python [float]: an IEEE 754 binary64 value. *)
Abbreviation float := spec_float.

(** [a == b] on floats: [nan] equals nothing, the two zeros are equal. *)
Definition float_eq (a b : float) : bool := SFeqb a b.

(** [a < b] on floats, the comparison [sorted] uses. *)
Definition float_lt (a b : float) : bool := SFltb a b.

Definition option_eq {A : Type} (eq : A -> A -> bool) (a b : option A) : bool :=
  match a, b with
  | None, None => true
  | Some x, Some y => eq x y
  | _, _ => false
  end.

Fixpoint tuple_eq {A : Type} (eq : A -> A -> bool) (a b : list A) : bool :=
  match a, b with
  | [], [] => true
  | x :: a', y :: b' => eq x y && tuple_eq eq a' b'
  | _, _ => false
  end.

(** The interpreter's built-in [hash], per type of value.  [hash_str] depends
    on PYTHONHASHSEED; within one process it is one function.  A tuple's hash
    is computed from the hashes of its items, in order. *)
Class PyHash : Type := {
  hash_str : string -> Z;
  hash_int : Z -> Z;
  hash_float : float -> Z;
  hash_None : Z;
  hash_tuple : list Z -> Z
}.

Section Hashing.
Context `{PyHash}.

(** [bool] is a subclass of [int]: [hash(True) == hash(1)]. *)
Definition hash_bool (b : bool) : Z := hash_int (Z.b2z b).

Definition hash_Optional {A : Type} (h : A -> Z) (v : option A) : Z :=
  match v with
  | None => hash_None
  | Some a => h a
  end.

(** [HashableBaseModel.__hash__]:
    [hash((type(self).__name__,) + tuple(self.__dict__.values()))].
    [dict_values] holds the hashes of the field values, in field order. *)
Definition HashableBaseModel_hash (type_name : string) (dict_values : list Z) : Z :=
  hash_tuple (hash_str type_name :: dict_values).
End Hashing.

(** ** schemas.py: resource parameters *)

Record FilterSetParams : Type := {
  full_text_search_query : option string;
  temp_article_ids : option (list Z);
  limit : option Z
}.

Record ClusteringParams : Type := {
  filter_set : FilterSetParams;
  umap_seed : Z;
  umap_n_neighbors : Z;
  umap_metric : string;
  umap_min_dist : float;
  hdbscan_min_cluster_size : Z;
  hdbscan_min_samples : Z;
  hdbscan_cluster_selection_epsilon : float;
  hdbscan_do_flat_clustering : bool;
  hdbscan_cluster_flattening_epsilon : float
}.

(** A [str]-valued enum: a member is its value as far as [==] and [hash] go. *)
Inductive ArticleGroupSummaryTerms : Type :=
  | NAMED_ENTITIES
  | MESH_TERMS.

Definition ArticleGroupSummaryTerms_value (t : ArticleGroupSummaryTerms) : string :=
  match t with
  | NAMED_ENTITIES => "named entities"
  | MESH_TERMS => "mesh terms"
  end.

Record ArticleGroupParams : Type := {
  clustering : ClusteringParams;
  num_terms : Z;
  summary_terms : ArticleGroupSummaryTerms
}.

(** A [schemas.HashableBaseModel] instance: one of its three subclasses. *)
Inductive HashableBaseModel : Type :=
  | OfFilterSetParams (p : FilterSetParams)
  | OfClusteringParams (p : ClusteringParams)
  | OfArticleGroupParams (p : ArticleGroupParams).

(** [params.__class__]. *)
Inductive resource_cls : Type :=
  | FilterSetParams_cls
  | ClusteringParams_cls
  | ArticleGroupParams_cls.

Global Instance resource_cls_eq_dec : EqDecision resource_cls.
Proof. solve_decision. Defined.

Definition class_of (params : HashableBaseModel) : resource_cls :=
  match params with
  | OfFilterSetParams _ => FilterSetParams_cls
  | OfClusteringParams _ => ClusteringParams_cls
  | OfArticleGroupParams _ => ArticleGroupParams_cls
  end.

(** [cls.__name__]. *)
Definition type_name (cls : resource_cls) : string :=
  match cls with
  | FilterSetParams_cls => "FilterSetParams"
  | ClusteringParams_cls => "ClusteringParams"
  | ArticleGroupParams_cls => "ArticleGroupParams"
  end.

(** [str(cls)], as the f-strings of kv/util.py print a class. *)
Definition str_cls (cls : resource_cls) : string :=
  "<class 'litmapper.schemas." +:+ type_name cls +:+ "'>".

Section ParamsHash.
Context `{PyHash}.

(** [hash(p)] for each parameter class: the class name, then every value of
    [p.__dict__] in field order; a nested model is hashed by its own
    [__hash__]. *)
Definition FilterSetParams_hash (p : FilterSetParams) : Z :=
  HashableBaseModel_hash (type_name FilterSetParams_cls)
    [ hash_Optional hash_str (full_text_search_query p);
      hash_Optional (fun t => hash_tuple (map hash_int t)) (temp_article_ids p);
      hash_Optional hash_int (limit p) ].

Definition ClusteringParams_hash (p : ClusteringParams) : Z :=
  HashableBaseModel_hash (type_name ClusteringParams_cls)
    [ FilterSetParams_hash (filter_set p);
      hash_int (umap_seed p);
      hash_int (umap_n_neighbors p);
      hash_str (umap_metric p);
      hash_float (umap_min_dist p);
      hash_int (hdbscan_min_cluster_size p);
      hash_int (hdbscan_min_samples p);
      hash_float (hdbscan_cluster_selection_epsilon p);
      hash_bool (hdbscan_do_flat_clustering p);
      hash_float (hdbscan_cluster_flattening_epsilon p) ].

Definition ArticleGroupParams_hash (p : ArticleGroupParams) : Z :=
  HashableBaseModel_hash (type_name ArticleGroupParams_cls)
    [ ClusteringParams_hash (clustering p);
      hash_int (num_terms p);
      hash_str (ArticleGroupSummaryTerms_value (summary_terms p)) ].

(** [hash(params)]. *)
Definition hash (params : HashableBaseModel) : Z :=
  match params with
  | OfFilterSetParams p => FilterSetParams_hash p
  | OfClusteringParams p => ClusteringParams_hash p
  | OfArticleGroupParams p => ArticleGroupParams_hash p
  end.
End ParamsHash.

(** [p1 == p2]: pydantic compares [p1.dict()] with [p2.dict()], that is the
    same field names with pairwise [==] values, nested models as dicts. *)
Definition FilterSetParams_eq (p q : FilterSetParams) : bool :=
  option_eq String.eqb (full_text_search_query p) (full_text_search_query q)
  && option_eq (tuple_eq Z.eqb) (temp_article_ids p) (temp_article_ids q)
  && option_eq Z.eqb (limit p) (limit q).

Definition ClusteringParams_eq (p q : ClusteringParams) : bool :=
  FilterSetParams_eq (filter_set p) (filter_set q)
  && Z.eqb (umap_seed p) (umap_seed q)
  && Z.eqb (umap_n_neighbors p) (umap_n_neighbors q)
  && String.eqb (umap_metric p) (umap_metric q)
  && float_eq (umap_min_dist p) (umap_min_dist q)
  && Z.eqb (hdbscan_min_cluster_size p) (hdbscan_min_cluster_size q)
  && Z.eqb (hdbscan_min_samples p) (hdbscan_min_samples q)
  && float_eq (hdbscan_cluster_selection_epsilon p) (hdbscan_cluster_selection_epsilon q)
  && Bool.eqb (hdbscan_do_flat_clustering p) (hdbscan_do_flat_clustering q)
  && float_eq (hdbscan_cluster_flattening_epsilon p) (hdbscan_cluster_flattening_epsilon q).

Definition ArticleGroupParams_eq (p q : ArticleGroupParams) : bool :=
  ClusteringParams_eq (clustering p) (clustering q)
  && Z.eqb (num_terms p) (num_terms q)
  && String.eqb (ArticleGroupSummaryTerms_value (summary_terms p))
                (ArticleGroupSummaryTerms_value (summary_terms q)).

(** The three classes have different field names, so the dicts of two
    parameter objects of different classes are never equal. *)
Definition params_eq (p q : HashableBaseModel) : bool :=
  match p, q with
  | OfFilterSetParams a, OfFilterSetParams b => FilterSetParams_eq a b
  | OfClusteringParams a, OfClusteringParams b => ClusteringParams_eq a b
  | OfArticleGroupParams a, OfArticleGroupParams b => ArticleGroupParams_eq a b
  | _, _ => false
  end.


(** ** Python list helpers *)

(** [sorted(l)] under the strict order [lt]: stable, as Python's sort is. *)
Fixpoint insert_sorted {A : Type} (lt : A -> A -> bool) (a : A) (l : list A) : list A :=
  match l with
  | [] => [a]
  | b :: l' => if lt b a then b :: insert_sorted lt a l' else a :: l
  end.

Definition sorted {A : Type} (lt : A -> A -> bool) (l : list A) : list A :=
  foldr (insert_sorted lt) [] l.

(** The distinct items of [l] in order of first appearance (the key order of
    a [dict] or [Counter] filled from [l]). *)
Fixpoint unique_in_order {A : Type} (eq : A -> A -> bool) (l : list A) : list A :=
  match l with
  | [] => []
  | a :: l' => a :: filter (fun b => negb (eq a b) = true) (unique_in_order eq l')
  end.

(** [l.count(a)]. *)
Definition count_of {A : Type} (eq : A -> A -> bool) (a : A) (l : list A) : Z :=
  Z.of_nat (length (filter (fun b => eq a b = true) l)).

(** The rows of a query transposed and unpacked into two names ([a, b = zip( *rows)]):
    fails on no rows. *)
Definition unzip2 {A B : Type} (rows : list (A * B)) : outcome (list A * list B) :=
  match rows with
  | [] => Raise (ValueError "not enough values to unpack (expected 2, got 0)")
  | _ => Return (map fst rows, map snd rows)
  end.

(** ** schemas.py: results *)

(** The values held by the [Dict[Any, Any]] fields of the plot models: each
    is a list (or tuple) of ints, of floats or of strings. *)
Inductive Any : Type :=
  | AnyInts (items : list Z)
  | AnyFloats (items : list float)
  | AnyStrs (items : list string).

Record PlotlyScatter : Type := {
  scatter_x : list float;
  scatter_y : list float;
  scatter_mode : string;
  scatter_extra : list (string * Any);
  scatter_marker : list (string * Any)
}.

(** [PlotlyScatter(x=..., y=..., extra=..., marker=...)] with the defaults
    [mode="markers"], [extra={}], [marker={}]. *)
Definition PlotlyScatter_init (x y : list float) (extra marker : list (string * Any)) : PlotlyScatter :=
  {| scatter_x := x; scatter_y := y; scatter_mode := "markers";
     scatter_extra := extra; scatter_marker := marker |}.

Record PlotlyHeatmap : Type := {
  heatmap_type : string;
  heatmap_x : list string;
  heatmap_y : list string;
  heatmap_z : list (list (option float));
  heatmap_labels : option (list (string * string));
  heatmap_hoverongaps : bool;
  heatmap_extra : list (string * Any)
}.

Record FilterSetResult : Type := {
  filter_set_article_ids : list Z
}.

(** The field is declared [silhoutte_coefficient] in the source. *)
Record ClusteringOverallMetrics : Type := {
  dbcv : option float;
  silhoutte_coefficient : option float;
  davies_bouldin_index : option float;
  dunn_index : option float
}.

(** The value a keyword argument list gives to the field [name]; a field
    nobody names is missing. *)
Fixpoint kwarg {A : Type} (kwargs : list (string * A)) (name : string) : option A :=
  match kwargs with
  | [] => None
  | (k, v) :: rest => if String.eqb k name then Some v else kwarg rest name
  end.

(** [ClusteringOverallMetrics(...)] on its keyword arguments.  Every field is [Optional[float]]
    with no default, so a field no keyword names is [None]; the model keeps
    pydantic's default [Config.extra = ignore], so a keyword that names no
    field is dropped. *)
Definition ClusteringOverallMetrics_init (kwargs : list (string * option float)) : ClusteringOverallMetrics :=
  {| dbcv := default None (kwarg kwargs "dbcv");
     silhoutte_coefficient := default None (kwarg kwargs "silhoutte_coefficient");
     davies_bouldin_index := default None (kwarg kwargs "davies_bouldin_index");
     dunn_index := default None (kwarg kwargs "dunn_index") |}.

Record ClusteringLabelInfo : Type := {
  n_per_cluster : list Z;
  cluster_validity_indices : list float;
  cluster_center_coords : list (float * float);
  label_info_plotly_data : option PlotlyScatter
}.

(** [ClusteringLabelInfo.list_lengths_match], the validator of
    [cluster_center_coords]. *)
Definition ClusteringLabelInfo_list_lengths_match
    (v : list (float * float)) (values_n_per_cluster : list Z)
    (values_cluster_validity_indices : list float) : outcome (list (float * float)) :=
  let num_clusters := length values_n_per_cluster in
  let num_indices := length values_cluster_validity_indices in
  let num_coords := length v in
  if negb (Nat.eqb num_clusters num_indices && Nat.eqb num_indices num_coords)
  then Raise (ValidationError "must have same number of clusters, index values, and coords")
  else Return v.

(** [ClusteringLabelInfo.to_plotly], the validator that fills [plotly_data]. *)
Definition ClusteringLabelInfo_to_plotly
    (values_n_per_cluster : list Z) (values_cluster_validity_indices : list float)
    (values_cluster_center_coords : list (float * float)) : PlotlyScatter :=
  if Nat.eqb (length values_cluster_center_coords) 0 then PlotlyScatter_init [] [] [] []
  else
    let extra :=
      [ ("n_per_cluster", AnyInts values_n_per_cluster);
        ("cluster_validity_indices", AnyFloats values_cluster_validity_indices) ] in
    PlotlyScatter_init (map fst values_cluster_center_coords)
                       (map snd values_cluster_center_coords) extra [].

(** [ClusteringLabelInfo(n_per_cluster=..., cluster_center_coords=...,
    cluster_validity_indices=...)]: the fields are validated in the order the
    class declares them. *)
Definition ClusteringLabelInfo_init
    (n : list Z) (centers : list (float * float)) (indices : list float)
    : outcome ClusteringLabelInfo :=
  v ← ClusteringLabelInfo_list_lengths_match centers n indices;
  Return {| n_per_cluster := n;
            cluster_validity_indices := indices;
            cluster_center_coords := v;
            label_info_plotly_data := Some (ClusteringLabelInfo_to_plotly n indices v) |}.

(** [colorcet.glasbey_dark], the palette the scatter plot indexes. *)
Class Colorcet : Type := {
  glasbey_dark : list string
}.

Record ClusteringResult : Type := {
  article_ids : list Z;
  labels : list (option Z);
  coords : list (float * float);
  num_clusters : Z;
  metrics : ClusteringOverallMetrics;
  label_info : ClusteringLabelInfo;
  plotly_data : option PlotlyScatter
}.

(** [ClusteringResult.list_lengths_match], the validator of [coords]. *)
Definition ClusteringResult_list_lengths_match
    (v : list (float * float)) (values_article_ids : list Z)
    (values_labels : list (option Z)) : outcome (list (float * float)) :=
  let num_article_ids := length values_article_ids in
  let num_labels := length values_labels in
  let num_coords := length v in
  if negb (Nat.eqb num_article_ids num_labels && Nat.eqb num_labels num_coords)
  then Raise (ValidationError "must have same number of article IDs, labels, and coords")
  else Return v.

(** 10 and 0.8, the marker size and opacity. *)
Definition marker_size : Z := 10.
Definition marker_opacity : float := S754_finite false 7205759403792794 (-53).

(** The points that have a cluster, as [(cluster_id, coords, article_id)]. *)
Fixpoint points_with_cluster
    (point_properties : list (option Z * (float * float) * Z)) : list (Z * (float * float) * Z) :=
  match point_properties with
  | [] => []
  | (Some cluster_id, c, article_id) :: rest => (cluster_id, c, article_id) :: points_with_cluster rest
  | (None, _, _) :: rest => points_with_cluster rest
  end.

(** [zip(a, b, c)]: stops at the shortest. *)
Fixpoint zip3 {A B C : Type} (a : list A) (b : list B) (c : list C) : list (A * B * C) :=
  match a, b, c with
  | x :: a', y :: b', z :: c' => (x, y, z) :: zip3 a' b' c'
  | _, _, _ => []
  end.

(** [ClusteringResult.to_plotly].  Unpacking the transposed [points_with_cluster]
    into three names raises [ValueError] when no point has a cluster, which
    pydantic reports as a validation error. *)
Definition ClusteringResult_to_plotly `{Colorcet}
    (values_labels : list (option Z)) (values_coords : list (float * float))
    (values_article_ids : list Z) : outcome PlotlyScatter :=
  if Nat.eqb (length values_coords) 0 then Return (PlotlyScatter_init [] [] [] [])
  else
    let points := points_with_cluster (zip3 values_labels values_coords values_article_ids) in
    match points with
    | [] => Raise (ValidationError "not enough values to unpack (expected 3, got 0)")
    | _ =>
      let labels := map (fun p => fst (fst p)) points in
      let coords := map (fun p => snd (fst p)) points in
      let article_ids := map snd points in
      colors ← mapM (fun cluster =>
                  match glasbey_dark !! Z.to_nat (cluster `mod` Z.of_nat (length glasbey_dark)) with
                  | Some c => Return c
                  | None => Raise (OtherException "ZeroDivisionError")
                  end) labels;
      let marker :=
        [ ("size", AnyInts (map (fun _ => marker_size) article_ids));
          ("opacity", AnyFloats (map (fun _ => marker_opacity) article_ids));
          ("color", AnyStrs colors) ] in
      let extra :=
        [ ("article_ids", AnyInts article_ids);
          ("labels", AnyInts labels) ] in
      Return (PlotlyScatter_init (map fst coords) (map snd coords) extra marker)
    end.

(** [ClusteringResult(article_ids=..., labels=..., coords=..., num_clusters=...,
    metrics=..., label_info=...)]. *)
Definition ClusteringResult_init `{Colorcet}
    (ids : list Z) (lbls : list (option Z)) (cs : list (float * float))
    (n : Z) (m : ClusteringOverallMetrics) (info : ClusteringLabelInfo)
    : outcome ClusteringResult :=
  v ← ClusteringResult_list_lengths_match cs ids lbls;
  plot ← ClusteringResult_to_plotly lbls v ids;
  Return {| article_ids := ids; labels := lbls; coords := v; num_clusters := n;
            metrics := m; label_info := info; plotly_data := Some plot |}.

Record ArticleGroup : Type := {
  group_id : Z;
  num_articles : Z;
  group_article_ids : list Z;
  top_terms : list string
}.

Record ArticleGroupResult : Type := {
  result : list ArticleGroup;
  heatmap_data : option PlotlyHeatmap
}.

(** 1.0, the value of a heat-map cell whose term is present. *)
Definition present : float := S754_finite false 4503599627370496 (-52).

(** [ArticleGroupResult.to_plotly].  [x] is declared [List[str]], so the
    cluster ids are stored as their decimal strings. *)
Definition ArticleGroupResult_to_plotly (values_result : list ArticleGroup) : outcome PlotlyHeatmap :=
  let cluster_ids := sorted Z.ltb (map group_id values_result) in
  let terms := sorted String.ltb (unique_in_order String.eqb (concat (map top_terms values_result))) in
  z ← mapM (fun cluster =>
         match List.find (fun c => Z.eqb (group_id c) cluster) values_result with
         | Some article_group =>
           Return (map (fun term =>
                     if existsb (String.eqb term) (top_terms article_group)
                     then Some present else None) terms)
         | None => Raise (OtherException "StopIteration")
         end) cluster_ids;
  Return {| heatmap_type := "heatmap";
            heatmap_x := map pretty cluster_ids;
            heatmap_y := terms;
            heatmap_z := z;
            heatmap_labels := Some [("x", "Cluster"); ("y", "Term"); ("z", "Present")];
            heatmap_hoverongaps := false;
            heatmap_extra := [] |}.

(** [ArticleGroupResult(result=...)]. *)
Definition ArticleGroupResult_init (groups : list ArticleGroup) : outcome ArticleGroupResult :=
  plot ← ArticleGroupResult_to_plotly groups;
  Return {| result := groups; heatmap_data := Some plot |}.

(** A result object: an instance of one of the three result classes. *)
Inductive BaseModel : Type :=
  | OfFilterSetResult (r : FilterSetResult)
  | OfClusteringResult (r : ClusteringResult)
  | OfArticleGroupResult (r : ArticleGroupResult).

Inductive result_cls : Type :=
  | FilterSetResult_cls
  | ClusteringResult_cls
  | ArticleGroupResult_cls.

(** What pydantic supplies to kv/util.py: [result.json()],
    [result_cls.parse_raw(val)] (which raises on bytes that do not validate),
    and the [repr] and [str] of a parameter object used in messages. *)
Class Pydantic : Type := {
  json : BaseModel -> string;
  FilterSetResult_parse_raw : string -> outcome FilterSetResult;
  ClusteringResult_parse_raw : string -> outcome ClusteringResult;
  ArticleGroupResult_parse_raw : string -> outcome ArticleGroupResult;
  repr : HashableBaseModel -> string;
  str : HashableBaseModel -> string
}.

Global Instance outcome_fmap : FMap outcome := fun A B f o =>
  match o with
  | Return a => Return (f a)
  | Raise e => Raise e
  end.

(** [result_cls.parse_raw(val)]. *)
Definition parse_raw `{Pydantic} (rc : result_cls) (val : string) : outcome BaseModel :=
  match rc with
  | FilterSetResult_cls => OfFilterSetResult <$> FilterSetResult_parse_raw val
  | ClusteringResult_cls => OfClusteringResult <$> ClusteringResult_parse_raw val
  | ArticleGroupResult_cls => OfArticleGroupResult <$> ArticleGroupResult_parse_raw val
  end.

(** ** The key-value store *)

(** The Redis hashes: the value stored under field [key] of hash [name]. *)
Abbreviation Redis := (gmap (string * string) string).

Definition hget (kv : Redis) (name key : string) : option string := kv !! (name, key).

Definition hset (kv : Redis) (name key value : string) : Redis := <[(name, key) := value]> kv.

(** [HSETNX]: sets the field only if it does not exist. *)
Definition hsetnx (kv : Redis) (name key value : string) : Redis :=
  match kv !! (name, key) with
  | Some _ => kv
  | None => <[(name, key) := value]> kv
  end.

Definition hdel (kv : Redis) (name key : string) : Redis := delete (name, key) kv.

(** ** kv/util.py: the registry and the lookup *)

(** [d.get(k)] on a table keyed by parameter class. *)
Fixpoint dict_get {V : Type} (d : list (resource_cls * V)) (k : resource_cls) : option V :=
  match d with
  | [] => None
  | (k', v) :: rest => if decide (k' = k) then Some v else dict_get rest k
  end.

Definition RESOURCE_HASH_KEYS : list (resource_cls * string) :=
  [ (FilterSetParams_cls, "filter_sets");
    (ClusteringParams_cls, "clusterings");
    (ArticleGroupParams_cls, "article_groups") ].

Definition RESOURCE_RESULT_CLASSES : list (resource_cls * result_cls) :=
  [ (FilterSetParams_cls, FilterSetResult_cls);
    (ClusteringParams_cls, ClusteringResult_cls);
    (ArticleGroupParams_cls, ArticleGroupResult_cls) ].

Definition get_resource_hash_key (cls : resource_cls) : outcome string :=
  match dict_get RESOURCE_HASH_KEYS cls with
  | None => Raise (TypeError ("unsupported resource class: " +:+ str_cls cls))
  | Some hash_key => Return hash_key
  end.

Definition get_resource_result_cls (cls : resource_cls) : outcome result_cls :=
  match dict_get RESOURCE_RESULT_CLASSES cls with
  | None => Raise (TypeError ("unsupported resource class: " +:+ str_cls cls))
  | Some rc => Return rc
  end.

Definition IN_PROGRESS_VAL : string := "".

(** [resource_val is not None and len(resource_val) == 0]. *)
Definition is_in_progress (resource_val : option string) : bool :=
  match resource_val with
  | None => false
  | Some v => Nat.eqb (String.length v) 0
  end.

Section Lookup.
Context `{PyHash} `{Pydantic}.

(** [str(hash(params))], the field a resource is stored under. *)
Definition params_hash_of (params : HashableBaseModel) : string := pretty (hash params).

Definition find_resource_hash (kv : Redis) (cls : resource_cls) (params_hash : string)
    : outcome BaseModel :=
  hash_key ← get_resource_hash_key cls;
  rc ← get_resource_result_cls cls;
  let val := hget kv hash_key params_hash in
  match val with
  | None => Raise (ResourceDoesNotExist (str_cls cls +:+ " with hash " +:+ params_hash))
  | Some bytes =>
    if is_in_progress val
    then Raise (ResourceCreationInProgress (str_cls cls +:+ " with hash " +:+ params_hash))
    else parse_raw rc bytes
  end.

Definition find_resource (kv : Redis) (params : HashableBaseModel) : outcome BaseModel :=
  let cls := class_of params in
  let params_hash := params_hash_of params in
  let params_repr := repr params in
  match find_resource_hash kv cls params_hash with
  | Raise (ResourceDoesNotExist _) => Raise (ResourceDoesNotExist params_repr)
  | Raise (ResourceCreationInProgress _) => Raise (ResourceCreationInProgress params_repr)
  | r => r
  end.
End Lookup.

(** ** kv/util.py: the creation functions *)

(** An embedding vector ([ArticleEmbedding.use_embedding], a row of the
    sentence encoder's output). *)
Abbreviation embedding := (list float).

(** The SQL queries of the creation functions, by the rows they return:
    - [query_filter_articles db q limit]: the ids [filter_articles] selects
      for the full-text query [q], capped by [limit] when there is one;
    - [query_article_embeddings db ids]: [(article_id, use_embedding)] of the
      articles of [ids] that have an embedding;
    - [query_article_data db ids]: [(article_id, all_text, use_embedding)];
    - [query_article_mesh_data db ids]: the same rows with the array of the
      article's MeSH term names, empty when it has none. *)
Class Database : Type := {
  Session : Type;
  query_filter_articles : Session -> option string -> option Z -> list Z;
  query_article_embeddings : Session -> list Z -> list (Z * embedding);
  query_article_data : Session -> list Z -> list (Z * string * embedding);
  query_article_mesh_data : Session -> list Z -> list (Z * string * embedding * list string)
}.

(** The numeric libraries of [_make_clustering]: UMAP's [fit_transform]
    (seed, neighbours, metric, minimum distance), HDBSCAN's [fit] (minimum
    cluster size, minimum samples, selection epsilon), its [labels_] and
    [single_linkage_tree_.get_clusters], hdbscan's [validity_index] with
    per-cluster scores, the three scikit-learn and jqmcvi scores, and the
    mean of a column of floats.  Each call may raise. *)
Class Numeric : Type := {
  clusterer : Type;
  UMAP_fit_transform : Z -> Z -> string -> float -> list embedding -> outcome (list (float * float));
  HDBSCAN_fit : Z -> Z -> float -> list (float * float) -> outcome clusterer;
  labels_ : clusterer -> list Z;
  get_clusters : clusterer -> float -> Z -> outcome (list Z);
  validity_index : list (float * float) -> list Z -> outcome (float * list float);
  silhouette_score : list (float * float) -> list Z -> outcome float;
  davies_bouldin_score : list (float * float) -> list Z -> outcome float;
  dunn_index_score : list (float * float) -> list Z -> outcome float;
  mean : list float -> float
}.

(** The text models of [_make_article_groups]: the sentence encoder applied
    to a list of terms (one embedding per term), the texts of the entities
    spaCy finds in an article, [str.lower], the mean of a stack of embeddings
    ([np.average(..., axis=0)]) and scipy's cosine distance. *)
Class TextModels : Type := {
  embed : list string -> list embedding;
  ents : string -> list string;
  lower : string -> string;
  np_average : list embedding -> embedding;
  cosine_distance : embedding -> embedding -> float
}.

Section Creation.
Context `{PyHash} `{Pydantic} `{Colorcet} `{Database} `{Numeric} `{TextModels}.

(** The polling loop both dependent creation functions open with:
    [while True: try: find_resource(...); break; except
    ResourceCreationInProgress: ...; time.sleep(1)].  The store handed to a
    creation function is the one value [kv], so every round reads the same
    entry; [None] means the loop is still polling after [fuel] rounds. *)
Fixpoint poll_resource (fuel : nat) (kv : Redis) (params : HashableBaseModel)
    : option (outcome BaseModel) :=
  match fuel with
  | O => None
  | S fuel' =>
    match find_resource kv params with
    | Raise (ResourceCreationInProgress _) => poll_resource fuel' kv params
    | r => Some r
    end
  end.

Definition _make_filter_set (db : Session) (kv : Redis) (params : FilterSetParams)
    : outcome FilterSetResult :=
  let article_ids := query_filter_articles db (full_text_search_query params) (limit params) in
  Return {| filter_set_article_ids := article_ids |}.

Definition _make_blank_clustering_result : outcome ClusteringResult :=
  info ← ClusteringLabelInfo_init [] [] [];
  ClusteringResult_init [] [] [] 0
    (ClusteringOverallMetrics_init
       [ ("dbcv", None); ("silhouette_coefficient", None);
         ("davies_bouldin_index", None); ("dunn_index", None) ])
    info.

(** [raw_labels.max()]: raises on an empty array. *)
Definition np_max (a : list Z) : outcome Z :=
  match a with
  | [] => Raise (ValueError "zero-size array to reduction operation maximum which has no identity")
  | x :: rest => Return (foldr Z.max x rest)
  end.

(** [np.unique(a)]: the distinct values, ascending. *)
Definition np_unique (a : list Z) : list Z := sorted Z.ltb (unique_in_order Z.eqb a).

(** [np.unique(a, return_counts=True)[1].tolist()]. *)
Definition np_unique_counts (a : list Z) : list Z :=
  map (fun v => count_of Z.eqb v a) (np_unique a).

(** The data frame of [np.hstack((umap_data, raw_labels.reshape(-1, 1)))]
    grouped by its label column, the two coordinate columns averaged: one
    row per distinct label, ascending.  [hstack] raises when the row counts
    differ. *)
Definition groupby_label_mean (umap_data : list (float * float)) (raw_labels : list Z)
    : outcome (list (float * float)) :=
  if negb (Nat.eqb (length umap_data) (length raw_labels))
  then Raise (ValueError "all the input array dimensions except for the concatenation axis must match exactly")
  else
    let rows := zip umap_data raw_labels in
    Return (map (fun label =>
                   let members := filter (fun row => Z.eqb (snd row) label = true) rows in
                   (mean (map (fun row => fst (fst row)) members),
                    mean (map (fun row => snd (fst row)) members)))
                (np_unique raw_labels)).

(** 0.0, the validity score given to the outlier pseudo-cluster. *)
Definition zero_score : float := S754_zero false.

(** [_make_clustering] once the filter set has been found. *)
Definition cluster_filtered_articles (db : Session) (params : ClusteringParams)
    (found_article_ids : list Z) : outcome ClusteringResult :=
  let filtered_article_ids :=
    match temp_article_ids (filter_set params) with
    | Some (t :: ts) =>
      let temp := t :: ts in
      match full_text_search_query (filter_set params) with
      | None => temp
      | Some _ => (found_article_ids ++ temp)%list
      end
    | _ => found_article_ids
    end in
  if Nat.eqb (length filtered_article_ids) 0 then _make_blank_clustering_result
  else
    let filtered_article_data := query_article_embeddings db filtered_article_ids in
    '(article_ids, article_embeddings) ← unzip2 filtered_article_data;
    umap_data ← UMAP_fit_transform (umap_seed params) (umap_n_neighbors params)
                  (umap_metric params) (umap_min_dist params) article_embeddings;
    raw_labels ←
      match
        (fitted ← HDBSCAN_fit (hdbscan_min_cluster_size params) (hdbscan_min_samples params)
                    (hdbscan_cluster_selection_epsilon params) umap_data;
         if hdbscan_do_flat_clustering params
         then get_clusters fitted (hdbscan_cluster_flattening_epsilon params)
                (hdbscan_min_cluster_size params)
         else Return (labels_ fitted))
      with
      | Raise e =>
        if is_ValueError e
        then Raise (ValueError "Clustering Failed. Likely due to too few articles. Try again with additional articles.")
        else Raise e
      | Return l => Return l
      end;
    m ← np_max raw_labels;
    let num_clusters := m + 1 in
    let labels := map (fun cluster_id => if Z.eqb cluster_id (-1) then None else Some cluster_id)
                      raw_labels in
    '(dbcv, cluster_validity_indices) ←
      (if Z.leb (hdbscan_min_cluster_size params) 2 || Z.leb (hdbscan_min_samples params) 2
       then Return (None, [])
       else
         '(dbcv, scores) ← validity_index umap_data raw_labels;
         let outliers := existsb (Z.eqb (-1)) raw_labels in
         Return (Some dbcv, if outliers then zero_score :: scores else scores));
    silhouette ← silhouette_score umap_data raw_labels;
    davies_bouldin ← davies_bouldin_score umap_data raw_labels;
    dunn ← dunn_index_score umap_data raw_labels;
    let n_per_cluster := np_unique_counts raw_labels in
    cluster_center_coords ← groupby_label_mean umap_data raw_labels;
    let metrics :=
      ClusteringOverallMetrics_init
        [ ("dbcv", dbcv); ("silhouette_coefficient", Some silhouette);
          ("davies_bouldin_index", Some davies_bouldin); ("dunn_index", Some dunn) ] in
    info ← ClusteringLabelInfo_init n_per_cluster cluster_center_coords cluster_validity_indices;
    ClusteringResult_init article_ids labels umap_data num_clusters metrics info.

(** [_make_clustering]: poll for the filter set, then cluster. *)
Definition _make_clustering (fuel : nat) (db : Session) (kv : Redis) (params : ClusteringParams)
    : option (outcome ClusteringResult) :=
  match poll_resource fuel kv (OfFilterSetParams (filter_set params)) with
  | None => None
  | Some (Raise e) => Some (Raise e)
  | Some (Return (OfFilterSetResult found)) =>
    Some (cluster_filtered_articles db params (filter_set_article_ids found))
  | Some (Return _) => Some (Raise (OtherException "AttributeError"))
  end.

Definition _make_blank_article_group_result : outcome ArticleGroupResult :=
  ArticleGroupResult_init
    [ {| group_id := 0; num_articles := 0; group_article_ids := []; top_terms := [] |} ].

(** A row of [article_df]: the article id (the index), its cluster label, and
    the columns joined in from the query ([text], [embedding],
    [summary_terms]), missing when the query returned no row for the id. *)
Definition article_row : Type := Z * option Z * option (string * embedding * list string).

(** The first row of [right] indexed by [article_id]. *)
Fixpoint row_of {V : Type} (right : list (Z * V)) (article_id : Z) : option V :=
  match right with
  | [] => None
  | (i, v) :: rest => if Z.eqb i article_id then Some v else row_of rest article_id
  end.

(** [pd.DataFrame({cluster: labels}, index=filtered_article_ids)]: the frame
    cannot be built when the two lists differ in length. *)
Definition make_article_cluster_df (filtered_article_ids : list Z)
    (cluster_labels : list (option Z)) : outcome (list (Z * option Z)) :=
  if negb (Nat.eqb (length cluster_labels) (length filtered_article_ids))
  then Raise (ValueError "Length of values does not match length of index")
  else Return (zip filtered_article_ids cluster_labels).

(** [article_cluster_df.join(right)]: a left join on the index (article ids
    are a primary key, so an id indexes at most one row of [right]). *)
Definition join_article_df (article_cluster_df : list (Z * option Z))
    (right : list (Z * (string * embedding * list string))) : list article_row :=
  map (fun '(article_id, cluster) => (article_id, cluster, row_of right article_id))
      article_cluster_df.

(** [chain.from_iterable(cluster_articles[summary_terms])]: a row the join
    left without data holds NaN there, which cannot be iterated. *)
Fixpoint chain_summary_terms (cluster_articles : list article_row) : outcome (list string) :=
  match cluster_articles with
  | [] => Return []
  | (_, _, Some (_, _, terms)) :: rest =>
    more ← chain_summary_terms rest;
    Return (terms ++ more)%list
  | (_, _, None) :: _ => Raise (TypeError "'float' object is not iterable")
  end.

(** The loop that fills [top_terms] from the sorted terms, [i] being the
    index [enumerate] gives the term at the head:
    [top_terms.append(term); if i >= (params.num_terms - 1): break]. *)
Fixpoint take_top_terms (num_terms : Z) (i : Z) (sorted_terms : list string) : list string :=
  match sorted_terms with
  | [] => []
  | term :: rest =>
    term :: (if Z.geb i (num_terms - 1) then [] else take_top_terms num_terms (i + 1) rest)
  end.

(** The body of the loop over [article_df.groupby(cluster, sort=False)]. *)
Definition summarize_group (params : ArticleGroupParams) (cluster : Z)
    (cluster_articles : list article_row) : outcome ArticleGroup :=
  all_terms ← chain_summary_terms cluster_articles;
  (* Counter keeps its keys in order of first insertion. *)
  let summary_term_counts := map (fun c => (c, count_of String.eqb c all_terms))
                                 (unique_in_order String.eqb all_terms) in
  let candidates := map fst (filter (fun cn => Z.ltb 1 (snd cn) = true) summary_term_counts) in
  let top_terms :=
    match candidates with
    | [] => []
    | _ =>
      let unmapped_candidate_embeddings := embed candidates in
      let candidate_embeddings := zip candidates unmapped_candidate_embeddings in
      let cluster_embeddings :=
        omap (fun row : article_row => (fun d => snd (fst d)) <$> snd row) cluster_articles in
      let cluster_centroid_embedding := np_average cluster_embeddings in
      let summary_term_distances :=
        map (fun '(term, e) => (term, cosine_distance e cluster_centroid_embedding))
            candidate_embeddings in
      take_top_terms (num_terms params) 0
        (map fst (sorted (fun a b => float_lt (snd a) (snd b)) summary_term_distances))
    end in
  Return {| group_id := cluster;
            num_articles := Z.of_nat (length cluster_articles);
            group_article_ids := map (fun row : article_row => fst (fst row)) cluster_articles;
            top_terms := top_terms |}.

(** [article_df.groupby(cluster, sort=False)]: one group per label, in order
    of first appearance; rows whose label is null belong to no group. *)
Definition groupby_cluster (article_df : list article_row) : list (Z * list article_row) :=
  map (fun cluster =>
         (cluster, filter (fun row : article_row => snd (fst row) = Some cluster) article_df))
      (unique_in_order Z.eqb (omap (fun row : article_row => snd (fst row)) article_df)).

(** [_make_article_groups] once the clustering result has been found. *)
Definition group_clustered_articles (db : Session) (params : ArticleGroupParams)
    (clustering_result : ClusteringResult) : outcome ArticleGroupResult :=
  let filtered_article_ids := article_ids clustering_result in
  if Nat.eqb (length filtered_article_ids) 0 then _make_blank_article_group_result
  else
    article_cluster_df ← make_article_cluster_df filtered_article_ids (labels clustering_result);
    (* [summary_terms] is one of the two members of the enum, so the final
       [else: raise ValueError] of the source has no case here. *)
    right ←
      match summary_terms params with
      | MESH_TERMS =>
        let rows := query_article_mesh_data db filtered_article_ids in
        match rows with
        | [] => Raise (ValueError "not enough values to unpack (expected 4, got 0)")
        | _ => Return (map (fun '(article_id, text, e, mesh_term_array) =>
                              (article_id, (text, e, mesh_term_array))) rows)
        end
      | NAMED_ENTITIES =>
        let rows := query_article_data db filtered_article_ids in
        match rows with
        | [] => Raise (ValueError "not enough values to unpack (expected 3, got 0)")
        | _ =>
          (* [list(set(...))] of the lower-cased entity texts; the order a set
             iterates in is not specified, first appearance is taken here. *)
          Return (map (fun '(article_id, text, e) =>
                         (article_id, (text, e, unique_in_order String.eqb (map lower (ents text)))))
                      rows)
        end
      end;
    let article_df := join_article_df article_cluster_df right in
    groups ← mapM (fun '(cluster, cluster_articles) => summarize_group params cluster cluster_articles)
                  (groupby_cluster article_df);
    ArticleGroupResult_init groups.

(** [_make_article_groups]: poll for the clustering result, then group. *)
Definition _make_article_groups (fuel : nat) (db : Session) (kv : Redis)
    (params : ArticleGroupParams) : option (outcome ArticleGroupResult) :=
  match poll_resource fuel kv (OfClusteringParams (clustering params)) with
  | None => None
  | Some (Raise e) => Some (Raise e)
  | Some (Return (OfClusteringResult clustering_result)) =>
    Some (group_clustered_articles db params clustering_result)
  | Some (Return _) => Some (Raise (OtherException "AttributeError"))
  end.
End Creation.

(** ** kv/util.py: reservations and creation *)

(** Code that uses the store: from a store, either still running after the
    fuel given to it ([None]), or a new store with a returned value or a
    raised exception. *)
Definition kvM (A : Type) : Type := Redis -> option (Redis * outcome A).

Global Instance kvM_ret : MRet kvM := fun A a kv => Some (kv, Return a).
Global Instance kvM_bind : MBind kvM := fun A B k m kv =>
  match m kv with
  | None => None
  | Some (kv', Raise e) => Some (kv', Raise e)
  | Some (kv', Return a) => k a kv'
  end.

Definition raise {A : Type} (e : exn) : kvM A := fun kv => Some (kv, Raise e).

Definition lift_outcome {A : Type} (o : outcome A) : kvM A := fun kv => Some (kv, o).

Definition kv_hset (name key value : string) : kvM unit :=
  fun kv => Some (hset kv name key value, Return tt).

Definition kv_hdel (name key : string) : kvM unit :=
  fun kv => Some (hdel kv name key, Return tt).

(** [kv.pipeline().hget(name, key).hsetnx(name, key, value).execute()[0]]:
    both commands run as one transaction; the value read is the one before
    the write. *)
Definition pipeline_hget_hsetnx (name key value : string) : kvM (option string) :=
  fun kv => Some (hsetnx kv name key value, Return (hget kv name key)).

(** [try: body; except <classes>: handler], [catches] telling which
    exceptions the except clause names. *)
Definition try_except {A : Type} (body : kvM A) (catches : exn -> bool) (handler : exn -> kvM A)
    : kvM A :=
  fun kv =>
    match body kv with
    | Some (kv', Raise e) => if catches e then handler e kv' else Some (kv', Raise e)
    | r => r
    end.

(** [except (Exception, Shutdown)]. *)
Definition Exception_or_Shutdown (e : exn) : bool := is_Exception e || is_Shutdown e.

(** The block around the [yield] of [reserve_resource]:
    [try: yield; except (Exception, Shutdown): kv.hdel(hash_key, params_hash); raise]. *)
Definition yield_with_cleanup {A : Type} (hash_key params_hash : string) (scope : kvM A) : kvM A :=
  try_except scope Exception_or_Shutdown
    (fun e => _ ← kv_hdel hash_key params_hash; raise e).

(** The signature of a creation function; it reads the store and leaves it
    as it is. *)
Definition creation_func `{Database} : Type :=
  nat -> Session -> Redis -> HashableBaseModel -> option (outcome BaseModel).

Section Reservation.
Context `{PyHash} `{Pydantic} `{Colorcet} `{Database} `{Numeric} `{TextModels}.

(** The table looks a function up by [params.__class__], so each function is
    handed parameters of its own class. *)
Definition call_make_filter_set : creation_func :=
  fun _ db kv params =>
    match params return option (outcome BaseModel) with
    | OfFilterSetParams p => Some (OfFilterSetResult <$> _make_filter_set db kv p)
    | _ => Some (Raise (OtherException "AttributeError"))
    end.

Definition call_make_clustering : creation_func :=
  fun fuel db kv params =>
    match params return option (outcome BaseModel) with
    | OfClusteringParams p => fmap (M:=outcome) OfClusteringResult <$> _make_clustering fuel db kv p
    | _ => Some (Raise (OtherException "AttributeError"))
    end.

Definition call_make_article_groups : creation_func :=
  fun fuel db kv params =>
    match params return option (outcome BaseModel) with
    | OfArticleGroupParams p => fmap (M:=outcome) OfArticleGroupResult <$> _make_article_groups fuel db kv p
    | _ => Some (Raise (OtherException "AttributeError"))
    end.

Definition RESOURCE_CREATION_FUNCS : list (resource_cls * creation_func) :=
  [ (FilterSetParams_cls, call_make_filter_set);
    (ClusteringParams_cls, call_make_clustering);
    (ArticleGroupParams_cls, call_make_article_groups) ].

Definition get_resource_creation_func (cls : resource_cls) : outcome creation_func :=
  match dict_get RESOURCE_CREATION_FUNCS cls with
  | None => Raise (TypeError ("unsupported resource class: " +:+ str_cls cls))
  | Some func => Return func
  end.


(** [with reserve_resource(kv, params, force): scope].  The context manager
    runs up to its [yield], then [scope], and resumes in the [except] clause
    when [scope] raised. *)
Definition reserve_resource {A : Type} (params : HashableBaseModel) (force : bool)
    (scope : kvM A) : kvM A :=
  hash_key ← lift_outcome (get_resource_hash_key (class_of params));
  let params_hash := params_hash_of params in
  prev_val ← pipeline_hget_hsetnx hash_key params_hash IN_PROGRESS_VAL;
  if bool_decide (prev_val = None) || force then
    _ ← (if force then kv_hset hash_key params_hash IN_PROGRESS_VAL else mret tt);
    yield_with_cleanup hash_key params_hash scope
  else if is_in_progress prev_val then
    raise (ResourceCreationInProgress ("resource creation in-progress for params " +:+ str params))
  else
    raise (ResourceExists ("resource already created for params " +:+ str params)).

(** The block [make_resource] runs inside the reservation. *)
Definition create_and_store (fuel : nat) (db : Session) (params : HashableBaseModel) : kvM unit :=
  let resource_cls := class_of params in
  let param_hash := params_hash_of params in
  hash_key ← lift_outcome (get_resource_hash_key resource_cls);
  resource_creation_func ← lift_outcome (get_resource_creation_func resource_cls);
  result ← (fun kv => match resource_creation_func fuel db kv params with
                      | None => None
                      | Some o => Some (kv, o)
                      end);
  kv_hset hash_key param_hash (json result).

Definition make_resource (fuel : nat) (db : Session) (params : HashableBaseModel) (force : bool)
    : kvM unit :=
  let resource_cls := class_of params in
  _ ← lift_outcome (get_resource_result_cls resource_cls);
  try_except (reserve_resource params force (create_and_store fuel db params))
    (fun e => match e with
              | ResourceCreationInProgress _ | ResourceExists _ => true
              | _ => false
              end)
    (fun _ => mret tt).
End Reservation.

(** ** schemas.py: jobs *)

Inductive JobStatus : Type :=
  | FAILED
  | IN_PROGRESS
  | SUCCESS.

(** The value of a member: [JobStatus] inherits from [str]. *)
Definition JobStatus_value (s : JobStatus) : string :=
  match s with
  | FAILED => "failed"
  | IN_PROGRESS => "in progress"
  | SUCCESS => "success"
  end.

(** The fields [JobCreate] and [Job] inherit from [JobBase]. *)
Record JobBase : Type := {
  status : JobStatus;
  status_detail : option string;
  result_url : option string
}.

(** [class JobCreate(JobBase): pass]. *)
Abbreviation JobCreate := JobBase.

(** [class Job(JobBase)], which adds [job_id]. *)
Record Job : Type := {
  job_base : JobBase;
  job_id : string
}.

(** [JobBase.successful_job_has_url], the validator of [result_url];
    [values_status] is [values.get(status)], missing when [status] did not
    validate. *)
Definition successful_job_has_url (v : option string) (values_status : option JobStatus)
    : outcome (option string) :=
  match default IN_PROGRESS values_status with
  | SUCCESS =>
    match v with
    | None => Raise (ValidationError "successful jobs must have a result_url")
    | Some _ => Return v
    end
  | _ => Return v
  end.

(** [Job] built from the fields of [job.dict()] and a [job_id]: every field
    is given, so the validator of [result_url] runs. *)
Definition Job_init (fields : JobBase) (id : string) : outcome Job :=
  v ← successful_job_has_url (result_url fields) (Some (status fields));
  Return {| job_base := {| status := status fields;
                           status_detail := status_detail fields;
                           result_url := v |};
            job_id := id |}.

(** pydantic's codec for jobs: [job.json()] and [Job.parse_raw(val)]. *)
Class JobCodec : Type := {
  Job_json : Job -> string;
  Job_parse_raw : string -> outcome Job
}.

(** The interpreter's [str(e)] on an exception. *)
Class PyStr : Type := {
  str_exn : exn -> string
}.

(** ** kv/info.py *)

Definition JOBS_HASH_KEY : string := "jobs".

(** The job [save_job] is given: a [JobCreate], with the id [make_uuid()]
    draws for it in this call, or a [Job]. *)
Inductive job_arg : Type :=
  | OfJobCreate (job : JobCreate) (uuid : string)
  | OfJob (job : Job).

Section Jobs.
Context `{JobCodec}.

Definition find_job (kv : Redis) (id : string) : outcome Job :=
  match hget kv JOBS_HASH_KEY id with
  | None => Raise (ResourceDoesNotExist "")
  | Some result_str => Job_parse_raw result_str
  end.

Definition save_job (job : job_arg) : kvM Job :=
  match job with
  | OfJobCreate fields uuid =>
    saved ← lift_outcome (Job_init fields uuid);
    _ ← kv_hset JOBS_HASH_KEY uuid (Job_json saved);
    mret saved
  | OfJob j =>
    _ ← kv_hset JOBS_HASH_KEY (job_id j) (Job_json j);
    mret j
  end.
End Jobs.

(** ** tasks.py *)

(** A task body: it runs with the job object it may assign to and with the
    store; it ends with the job as it then is, the store, and a value or an
    exception. *)
Definition taskM (A : Type) : Type := Job -> Redis -> option (Job * Redis * outcome A).

Global Instance taskM_ret : MRet taskM := fun A a job kv => Some (job, kv, Return a).
Global Instance taskM_bind : MBind taskM := fun A B k m job kv =>
  match m job kv with
  | None => None
  | Some (job', kv', Raise e) => Some (job', kv', Raise e)
  | Some (job', kv', Return a) => k a job' kv'
  end.

(** An assignment to attributes of [job] (pydantic does not validate on
    assignment unless the model asks for it, and [Job] does not). *)
Definition assign (f : JobBase -> JobBase) : taskM unit :=
  fun job kv => Some ({| job_base := f (job_base job); job_id := job_id job |}, kv, Return tt).

Definition set_status (s : JobStatus) (b : JobBase) : JobBase :=
  {| status := s; status_detail := status_detail b; result_url := result_url b |}.

Definition set_status_detail (d : option string) (b : JobBase) : JobBase :=
  {| status := status b; status_detail := d; result_url := result_url b |}.

Definition set_result_url (u : option string) (b : JobBase) : JobBase :=
  {| status := status b; status_detail := status_detail b; result_url := u |}.

(** Code that uses only the store, run inside a task. *)
Definition with_kv {A : Type} (m : kvM A) : taskM A :=
  fun job kv =>
    match m kv with
    | None => None
    | Some (kv', o) => Some (job, kv', o)
    end.

Section Tasks.
Context `{PyHash} `{Pydantic} `{Colorcet} `{Database} `{Numeric} `{TextModels}
        `{JobCodec} `{PyStr}.

(** [save_job(kv, job)] on the task's job. *)
Definition save_this_job : taskM unit :=
  fun job kv =>
    match save_job (OfJob job) kv with
    | None => None
    | Some (kv', Return _) => Some (job, kv', Return tt)
    | Some (kv', Raise e) => Some (job, kv', Raise e)
    end.

(** [with worker_context(job) as (kv, db): body]: on an [Exception] or a
    [Shutdown] the job is marked failed with the exception's text, saved, and
    the exception raised again. *)
Definition worker_context {A : Type} (body : taskM A) : taskM A :=
  fun job kv =>
    match body job kv with
    | Some (job', kv', Raise e) =>
      if Exception_or_Shutdown e
      then
        match (_ ← assign (set_status FAILED);
               _ ← assign (set_status_detail (Some (str_exn e)));
               save_this_job) job' kv' with
        | Some (job'', kv'', Return _) => Some (job'', kv'', Raise e)
        | Some (job'', kv'', Raise e') => Some (job'', kv'', Raise e')
        | None => None
        end
      else Some (job', kv', Raise e)
    | r => r
    end.

(** The last four statements of every task. *)
Definition finish (url : string) : taskM unit :=
  _ ← assign (set_status SUCCESS);
  _ ← assign (set_status_detail None);
  _ ← assign (set_result_url (Some url));
  save_this_job.

(** One stage of a task: record what is being made, then make it. *)
Definition stage (fuel : nat) (db : Session) (detail : string) (params : HashableBaseModel)
    (force : bool) : taskM unit :=
  _ ← assign (set_status_detail (Some detail));
  _ ← save_this_job;
  with_kv (make_resource fuel db params force).

Definition make_filter_set (fuel : nat) (db : Session) (params : FilterSetParams)
    (force : bool) : taskM unit :=
  worker_context
    (_ ← stage fuel db "Creating filter set" (OfFilterSetParams params) force;
     finish ("/literature/filter_set/" +:+ pretty (hash (OfFilterSetParams params)))).

Definition make_clustering (fuel : nat) (db : Session) (params : ClusteringParams)
    (force : bool) : taskM unit :=
  worker_context
    (_ ← stage fuel db "Creating filter set" (OfFilterSetParams (filter_set params)) force;
     _ ← stage fuel db "Clustering" (OfClusteringParams params) force;
     finish ("/literature/clustering/" +:+ pretty (hash (OfClusteringParams params)))).

Definition make_article_group (fuel : nat) (db : Session) (params : ArticleGroupParams)
    (force : bool) : taskM unit :=
  worker_context
    (_ ← stage fuel db "Creating filter set"
           (OfFilterSetParams (filter_set (clustering params))) force;
     _ ← stage fuel db "Clustering" (OfClusteringParams (clustering params)) force;
     _ ← stage fuel db "Generating article group summaries" (OfArticleGroupParams params) force;
     finish ("/literature/article_group/" +:+ pretty (hash (OfArticleGroupParams params)))).

(** [start_task] up to [task.send]: the job it saves and returns.  The
    [JobCreate] is built without a [result_url], which is then [None]. *)
Definition start_task (uuid : string) : kvM Job :=
  save_job (OfJobCreate {| status := IN_PROGRESS; status_detail := Some "Starting";
                           result_url := None |} uuid).
End Tasks.

(** ** routers: the lookups of jobs and resources *)

(** How an endpoint ends: with a body (200), with the [HTTPException] it
    raised, or with an exception it did not handle. *)
Inductive response (A : Type) : Type :=
  | Body (a : A)
  | HTTPException (status_code : Z) (detail : string)
  | Unhandled (e : exn).
Arguments Body {A} a.
Arguments HTTPException {A} status_code detail.
Arguments Unhandled {A} e.

Section Routers.
Context `{PyHash} `{Pydantic} `{JobCodec}.

(** [GET /info/job/{job_id}]. *)
Definition get_job (id : string) (kv : Redis) : response Job :=
  match find_job kv id with
  | Return job => Body job
  | Raise (ResourceDoesNotExist _) => HTTPException 404 ("No job found for ID: " +:+ id)
  | Raise e => Unhandled e
  end.

(** [_get_filter_set], the lookup behind the two filter-set endpoints. *)
Definition _get_filter_set (params_hash : string) (kv : Redis) : response BaseModel :=
  match find_resource_hash kv FilterSetParams_cls params_hash with
  | Return r => Body r
  | Raise (ResourceDoesNotExist _) =>
    HTTPException 404 ("Filter set does not exist with hash " +:+ params_hash)
  | Raise (ResourceCreationInProgress _) =>
    HTTPException 409 "Filter set creation is in progress"
  | Raise e => Unhandled e
  end.

(** [GET /literature/filter_set/{params_hash}]. *)
Definition get_filter_set (params_hash : string) (kv : Redis) : response BaseModel :=
  _get_filter_set params_hash kv.

(** [GET /literature/clustering/{params_hash}]. *)
Definition get_clustering (params_hash : string) (kv : Redis) : response BaseModel :=
  match find_resource_hash kv ClusteringParams_cls params_hash with
  | Return r => Body r
  | Raise (ResourceDoesNotExist _) =>
    HTTPException 404 ("Clustering does not exist with hash " +:+ params_hash)
  | Raise (ResourceCreationInProgress _) =>
    HTTPException 409 "Clustering creation is in progress"
  | Raise e => Unhandled e
  end.

(** [GET /literature/article_group/{params_hash}]. *)
Definition get_article_group (params_hash : string) (kv : Redis) : response BaseModel :=
  match find_resource_hash kv ArticleGroupParams_cls params_hash with
  | Return r => Body r
  | Raise (ResourceDoesNotExist _) =>
    HTTPException 404 ("Article group does not exist with hash " +:+ params_hash)
  | Raise (ResourceCreationInProgress _) =>
    HTTPException 409 "Article group creation is in progress"
  | Raise e => Unhandled e
  end.
End Routers.


(** ** Notions the statements about results use *)

(** The label a raw cluster id becomes in the result: [None] for -1. *)
Definition public_label (cluster_id : Z) : option Z :=
  if Z.eqb cluster_id (-1) then None else Some cluster_id.

(** The non-null labels of a clustering result. *)
Definition non_null_labels (labels : list (option Z)) : list Z := omap id labels.

(** The number of distinct non-null labels. *)
Definition distinct_non_null_labels (labels : list (option Z)) : nat :=
  length (unique_in_order Z.eqb (non_null_labels labels)).

(** Whether some point has no cluster. *)
Definition has_outliers (labels : list (option Z)) : bool :=
  existsb (fun l => match l with None => true | Some _ => false end) labels.

(** The largest non-null label, when there is one. *)
Definition max_non_null_label (labels : list (option Z)) : option Z :=
  match non_null_labels labels with
  | [] => None
  | l :: rest => Some (foldr Z.max l rest)
  end.

(** ** Notions the statements about creation use *)

(** The two exceptions [make_resource] absorbs. *)
Definition absorbed (e : exn) : bool :=
  match e with
  | ResourceCreationInProgress _ | ResourceExists _ => true
  | _ => false
  end.

(** The ids [_make_clustering] clusters: the filter set's, or the temporary
    PubMed ids alone when there is no full-text query, or both. *)
Definition ids_to_cluster (params : ClusteringParams) (found_article_ids : list Z) : list Z :=
  match temp_article_ids (filter_set params) with
  | Some (t :: ts) =>
    match full_text_search_query (filter_set params) with
    | None => t :: ts
    | Some _ => (found_article_ids ++ t :: ts)%list
    end
  | _ => found_article_ids
  end.

(** The blank clustering result, as a record. *)
Definition blank_clustering_result : ClusteringResult :=
  {| article_ids := []; labels := []; coords := []; num_clusters := 0;
     metrics := {| dbcv := None; silhoutte_coefficient := None;
                   davies_bouldin_index := None; dunn_index := None |};
     label_info := {| n_per_cluster := []; cluster_validity_indices := [];
                      cluster_center_coords := [];
                      label_info_plotly_data := Some (PlotlyScatter_init [] [] [] []) |};
     plotly_data := Some (PlotlyScatter_init [] [] [] []) |}.

(** The message of the error a failed clustering is reported with. *)
Definition clustering_failed : string :=
  "Clustering Failed. Likely due to too few articles. Try again with additional articles.".

(** The sum of a list of counts. *)
Definition total (counts : list Z) : Z := foldr Z.add 0 counts.

(** The articles of a clustering result whose label is [cluster], in order. *)
Definition labelled_with (cluster : Z) (ids : list Z) (cluster_labels : list (option Z)) : list Z :=
  map fst (filter (fun p : Z * option Z => snd p = Some cluster) (zip ids cluster_labels)).

(** The blank group result, as a record. *)
Definition blank_article_group_result : ArticleGroupResult :=
  {| result := [ {| group_id := 0; num_articles := 0; group_article_ids := []; top_terms := [] |} ];
     heatmap_data :=
       Some {| heatmap_type := "heatmap";
               heatmap_x := ["0"];
               heatmap_y := [];
               heatmap_z := [[]];
               heatmap_labels := Some [("x", "Cluster"); ("y", "Term"); ("z", "Present")];
               heatmap_hoverongaps := false;
               heatmap_extra := [] |} |}.

(** The terms of [all_terms] that occur more than once, in order of first
    appearance: the candidates of a group. *)
Definition recurring_terms (all_terms : list string) : list string :=
  map fst (filter (fun cn : string * Z => Z.ltb 1 (snd cn) = true)
                  (map (fun c => (c, count_of String.eqb c all_terms))
                       (unique_in_order String.eqb all_terms))).

(** ** Notions the statements about jobs and tasks use *)

Section TaskNotions.
Context `{PyHash} `{Pydantic} `{Database} `{JobCodec} `{PyStr}.

(** The job a task ends with when it succeeds. *)
Definition succeeded (job : Job) (url : string) : Job :=
  {| job_base := {| status := SUCCESS; status_detail := None; result_url := Some url |};
     job_id := job_id job |}.

(** The job a task ends with when [e] stops it. *)
Definition failed (job : Job) (e : exn) : Job :=
  {| job_base := {| status := FAILED; status_detail := Some (str_exn e);
                    result_url := result_url (job_base job) |};
     job_id := job_id job |}.

(** The job while a stage described by [detail] runs. *)
Definition working (job : Job) (detail : string) : Job :=
  {| job_base := set_status_detail (Some detail) (job_base job); job_id := job_id job |}.

(** The filter set [_make_filter_set] returns. *)
Definition filter_set_of (db : Session) (params : FilterSetParams) : FilterSetResult :=
  {| filter_set_article_ids :=
       query_filter_articles db (full_text_search_query params) (limit params) |}.

(** The store after the first stage of the tasks that start from a filter
    set. *)
Definition filter_set_made (db : Session) (params : FilterSetParams) (job : Job) (kv : Redis)
    : Redis :=
  hset (hset (hset kv JOBS_HASH_KEY (job_id job) (Job_json (working job "Creating filter set")))
             "filter_sets" (pretty (hash (OfFilterSetParams params))) IN_PROGRESS_VAL)
       "filter_sets" (pretty (hash (OfFilterSetParams params)))
       (json (OfFilterSetResult (filter_set_of db params))).

(** The store when the second stage runs its creation function. *)
Definition clustering_planted (db : Session) (params : ClusteringParams) (job : Job)
    (kv : Redis) : Redis :=
  hset (hset (filter_set_made db (filter_set params) job kv)
             JOBS_HASH_KEY (job_id job) (Job_json (working job "Clustering")))
       "clusterings" (pretty (hash (OfClusteringParams params))) IN_PROGRESS_VAL.

(** The store when the third stage of the article-group task runs its
    creation function, the clustering having returned [r]. *)
Definition groups_planted (db : Session) (params : ArticleGroupParams) (job : Job)
    (kv : Redis) (r : ClusteringResult) : Redis :=
  hset (hset (hset (clustering_planted db (clustering params) job kv) "clusterings"
                   (pretty (hash (OfClusteringParams (clustering params))))
                   (json (OfClusteringResult r)))
             JOBS_HASH_KEY (job_id job)
             (Job_json (working job "Generating article group summaries")))
       "article_groups" (pretty (hash (OfArticleGroupParams params))) IN_PROGRESS_VAL.
End TaskNotions.

(** ** A small world to run the code in

    Stand-ins for the libraries, and the data of a few scenarios: seven
    articles that cluster into two groups and an outlier, and two articles
    that share a MeSH term. *)

(** The binary64 value of a small integer. *)
Definition float_of_Z (n : Z) : float :=
  match n with
  | Z0 => S754_zero false
  | Zpos p =>
    let d := Zpos (digits2_pos p) in
    S754_finite false (shift_pos (Z.to_pos (53 - d)) p) (d - 53)
  | Zneg p =>
    let d := Zpos (digits2_pos p) in
    S754_finite true (shift_pos (Z.to_pos (53 - d)) p) (d - 53)
  end.

(** A numeric hash in the manner of CPython's: the value modulo [2^61 - 1],
    signed; both zeros hash to 0. *)
Definition test_hash_float (x : float) : Z :=
  match x with
  | S754_zero _ => 0
  | S754_infinity s => if s then -314159 else 314159
  | S754_nan => 0
  | S754_finite s m e =>
    let h := (Zpos m * 2 ^ (e `mod` 61)) `mod` (2 ^ 61 - 1) in
    if s then - h else h
  end.

Definition test_PyHash : PyHash := {|
  hash_str := fun s => foldl (fun acc c => (acc * 31 + Z.of_nat (Ascii.nat_of_ascii c)) `mod` (2 ^ 61 - 1))
                             7 (String.list_ascii_of_string s);
  hash_int := fun n => n `rem` (2 ^ 61 - 1);
  hash_float := test_hash_float;
  hash_None := 4238894112;
  hash_tuple := foldl (fun acc h => (acc * 1000003 + h) `mod` 2 ^ 61) 3430008
|}.

Definition seven_articles : FilterSetResult := {| filter_set_article_ids := [1; 2; 3; 4; 5; 6; 7] |}.

Definition test_metrics : ClusteringOverallMetrics :=
  {| dbcv := None; silhoutte_coefficient := None;
     davies_bouldin_index := None; dunn_index := None |}.

(** A stored clustering of articles 1 and 2, both in cluster 0. *)
Definition two_clustered : ClusteringResult :=
  {| article_ids := [1; 2];
     labels := [Some 0; Some 0];
     coords := [(float_of_Z 0, float_of_Z 0); (float_of_Z 0, float_of_Z 0)];
     num_clusters := 1;
     metrics := test_metrics;
     label_info :=
       {| n_per_cluster := [2];
          cluster_validity_indices := [float_of_Z 0];
          cluster_center_coords := [(float_of_Z 0, float_of_Z 0)];
          label_info_plotly_data := None |};
     plotly_data := None |}.

(** A codec that knows the texts of the scenarios' results. *)
Definition test_Pydantic : Pydantic := {|
  json := fun r =>
    match r with
    | OfFilterSetResult f =>
      "{article_ids: [" +:+ String.concat ", " (map pretty (filter_set_article_ids f)) +:+ "]}"
    | OfClusteringResult c =>
      "{article_ids: [" +:+ String.concat ", " (map pretty (article_ids c)) +:+ "], ...}"
    | OfArticleGroupResult g =>
      "{result: [" +:+ String.concat ", " (map (fun a => pretty (group_id a)) (result g)) +:+ "], ...}"
    end;
  FilterSetResult_parse_raw := fun val =>
    if String.eqb val "{article_ids: [1, 2, 3, 4, 5, 6, 7]}" then Return seven_articles
    else Raise (ValidationError "1 validation error for FilterSetResult");
  ClusteringResult_parse_raw := fun val =>
    if String.eqb val "{article_ids: [1, 2], ...}" then Return two_clustered
    else Raise (ValidationError "1 validation error for ClusteringResult");
  ArticleGroupResult_parse_raw := fun val =>
    Raise (ValidationError "1 validation error for ArticleGroupResult");
  repr := fun params => type_name (class_of params) +:+ "(...)";
  str := fun params => "..."
|}.

Definition test_Colorcet : Colorcet := {|
  glasbey_dark := ["#d60000"; "#8c3bff"; "#018700"; "#00acc6"]
|}.

(** Every article has the embedding [[id, id mod 3]]; articles 1 and 2 carry
    the MeSH terms [Humans, Mice] and [Humans]. *)
Definition test_embedding (article_id : Z) : embedding :=
  [float_of_Z article_id; float_of_Z (article_id `mod` 3)].

Definition test_Database : Database := {|
  Session := unit;
  query_filter_articles := fun _ _ _ => [1; 2; 3; 4; 5; 6; 7];
  query_article_embeddings := fun _ ids => map (fun i => (i, test_embedding i)) ids;
  query_article_data := fun _ ids => map (fun i => (i, "text", test_embedding i)) ids;
  query_article_mesh_data := fun _ ids =>
    map (fun i => (i, "text", test_embedding i, if Z.eqb i 1 then ["Humans"; "Mice"] else ["Humans"])) ids
|}.

Definition test_mean (column : list float) : float :=
  SFdiv 53 1024 (foldl (SFadd 53 1024) (S754_zero false) column)
        (float_of_Z (Z.of_nat (length column))).

(** UMAP keeps the first two components; HDBSCAN labels seven points
    [0, 0, 0, 1, 1, 1, -1] and refuses any other number of points. *)
Definition test_Numeric : Numeric := {|
  clusterer := list Z;
  UMAP_fit_transform := fun _ _ _ _ embeddings =>
    Return (map (fun e => (default (S754_zero false) (e !! 0%nat),
                           default (S754_zero false) (e !! 1%nat))) embeddings);
  HDBSCAN_fit := fun _ _ _ data =>
    if Nat.eqb (length data) 7 then Return [0; 0; 0; 1; 1; 1; -1]
    else Raise (ValueError "k must be less than or equal to the number of training points");
  labels_ := fun fitted => fitted;
  get_clusters := fun fitted _ _ => Return fitted;
  validity_index := fun _ _ => Return (float_of_Z 1, [float_of_Z 1; float_of_Z 1]);
  silhouette_score := fun _ _ => Return (float_of_Z 1);
  davies_bouldin_score := fun _ _ => Return (float_of_Z 0);
  dunn_index_score := fun _ _ => Return (float_of_Z 2);
  mean := test_mean
|}.

Definition test_TextModels : TextModels := {|
  embed := map (fun term => [float_of_Z (Z.of_nat (String.length term))]);
  ents := fun text => [text];
  lower := fun s => s;
  np_average := fun stack => default [] (head stack);
  cosine_distance := fun a b => default (S754_zero false) (head a)
|}.

Definition all_articles : FilterSetParams :=
  {| full_text_search_query := None; temp_article_ids := None; limit := None |}.

(** [ClusteringParams(filter_set=...)] with the defaults of the class. *)
Definition default_clustering (fs : FilterSetParams) : ClusteringParams :=
  {| filter_set := fs;
     umap_seed := 1;
     umap_n_neighbors := 30;
     umap_metric := "cosine";
     umap_min_dist := S754_zero false;
     hdbscan_min_cluster_size := 3;
     hdbscan_min_samples := 3;
     hdbscan_cluster_selection_epsilon := S754_zero false;
     hdbscan_do_flat_clustering := false;
     hdbscan_cluster_flattening_epsilon := S754_finite false 7205759403792794 (-57) |}.

(** The same clustering parameters with [umap_min_dist=-0.0]. *)
Definition negative_zero_min_dist : ClusteringParams :=
  {| filter_set := all_articles;
     umap_seed := 1;
     umap_n_neighbors := 30;
     umap_metric := "cosine";
     umap_min_dist := S754_zero true;
     hdbscan_min_cluster_size := 3;
     hdbscan_min_samples := 3;
     hdbscan_cluster_selection_epsilon := S754_zero false;
     hdbscan_do_flat_clustering := false;
     hdbscan_cluster_flattening_epsilon := S754_finite false 7205759403792794 (-57) |}.

(** [ArticleGroupParams(clustering=..., num_terms=0, summary_terms=MESH_TERMS)]. *)
Definition zero_terms : ArticleGroupParams :=
  {| clustering := default_clustering all_articles; num_terms := 0; summary_terms := MESH_TERMS |}.

(** A store that holds the filter set of [all_articles]. *)
Definition kv_with_filter_set : Redis :=
  hset ∅ "filter_sets" (pretty (@hash test_PyHash (OfFilterSetParams all_articles)))
       (@json test_Pydantic (OfFilterSetResult seven_articles)).

(** A store that holds the clustering [two_clustered] of [all_articles]. *)
Definition kv_with_clustering : Redis :=
  hset ∅ "clusterings"
       (pretty (@hash test_PyHash (OfClusteringParams (default_clustering all_articles))))
       (@json test_Pydantic (OfClusteringResult two_clustered)).

(** A codec that knows the texts of the empty results. *)
Definition blank_Pydantic : Pydantic := {|
  json := @json test_Pydantic;
  FilterSetResult_parse_raw := fun val =>
    if String.eqb val "{article_ids: []}" then Return {| filter_set_article_ids := [] |}
    else Raise (ValidationError "1 validation error for FilterSetResult");
  ClusteringResult_parse_raw := fun val =>
    if String.eqb val "{article_ids: [], ...}" then Return blank_clustering_result
    else Raise (ValidationError "1 validation error for ClusteringResult");
  ArticleGroupResult_parse_raw := fun val =>
    Raise (ValidationError "1 validation error for ArticleGroupResult");
  repr := @repr test_Pydantic;
  str := @str test_Pydantic
|}.

(** A store that holds an empty filter set for [all_articles]. *)
Definition kv_with_empty_filter_set : Redis :=
  hset ∅ "filter_sets" (pretty (@hash test_PyHash (OfFilterSetParams all_articles)))
       "{article_ids: []}".

(** A store that holds the blank clustering of [all_articles]. *)
Definition kv_with_blank_clustering : Redis :=
  hset ∅ "clusterings"
       (pretty (@hash test_PyHash (OfClusteringParams (default_clustering all_articles))))
       "{article_ids: [], ...}".

(** Two temporary PubMed ids and no query. *)
Definition two_temporary : FilterSetParams :=
  {| full_text_search_query := None; temp_article_ids := Some [8; 9]; limit := None |}.

(** The default clustering parameters with [hdbscan_min_cluster_size=2]. *)
Definition small_clusters : ClusteringParams :=
  {| filter_set := all_articles;
     umap_seed := 1;
     umap_n_neighbors := 30;
     umap_metric := "cosine";
     umap_min_dist := S754_zero false;
     hdbscan_min_cluster_size := 2;
     hdbscan_min_samples := 3;
     hdbscan_cluster_selection_epsilon := S754_zero false;
     hdbscan_do_flat_clustering := false;
     hdbscan_cluster_flattening_epsilon := S754_finite false 7205759403792794 (-57) |}.

(** The joined rows of articles 1 and 2, both in cluster 0. *)
Definition two_mesh_rows : list article_row :=
  [ (1, Some 0, Some ("text", test_embedding 1, ["Humans"; "Mice"]));
    (2, Some 0, Some ("text", test_embedding 2, ["Humans"])) ].

(** [str(e)]: the message the exception was raised with. *)
Definition test_PyStr : PyStr := {|
  str_exn := fun e =>
    match e with
    | ResourceCreationInProgress msg | ResourceDoesNotExist msg | ResourceExists msg
    | TypeError msg | ValueError msg | ValidationError msg => msg
    | OtherException _ | Shutdown | OtherBaseException _ => ""
    end
|}.

(** The clustering of the seven articles, and its groups by MeSH terms. *)
Definition seven_clustered : ClusteringResult :=
  match @cluster_filtered_articles test_Colorcet test_Database test_Numeric tt
          (default_clustering all_articles) [1; 2; 3; 4; 5; 6; 7] with
  | Return r => r
  | Raise _ => blank_clustering_result
  end.

(** [ArticleGroupParams(clustering=..., num_terms=5, summary_terms=MESH_TERMS)]. *)
Definition five_terms : ArticleGroupParams :=
  {| clustering := default_clustering all_articles; num_terms := 5; summary_terms := MESH_TERMS |}.

Definition seven_grouped : ArticleGroupResult :=
  match @group_clustered_articles test_Database test_TextModels tt five_terms seven_clustered with
  | Return g => g
  | Raise _ => blank_article_group_result
  end.

(** A codec that knows the texts of the results made from the seven
    articles. *)
Definition pipeline_Pydantic : Pydantic := {|
  json := @json test_Pydantic;
  FilterSetResult_parse_raw := @FilterSetResult_parse_raw test_Pydantic;
  ClusteringResult_parse_raw := fun val =>
    if String.eqb val "{article_ids: [1, 2, 3, 4, 5, 6, 7], ...}" then Return seven_clustered
    else Raise (ValidationError "1 validation error for ClusteringResult");
  ArticleGroupResult_parse_raw := fun val =>
    if String.eqb val "{result: [0, 1], ...}" then Return seven_grouped
    else Raise (ValidationError "1 validation error for ArticleGroupResult");
  repr := @repr test_Pydantic;
  str := @str test_Pydantic
|}.

(** The text of a job. *)
Definition test_Job_json (job : Job) : string :=
  "{status: " +:+ JobStatus_value (status (job_base job))
  +:+ ", status_detail: " +:+ default "null" (status_detail (job_base job))
  +:+ ", result_url: " +:+ default "null" (result_url (job_base job))
  +:+ ", job_id: " +:+ job_id job +:+ "}".

(** The job [start_task] makes when the id drawn is 7f3a. *)
Definition started : Job :=
  {| job_base := {| status := IN_PROGRESS; status_detail := Some "Starting";
                    result_url := None |};
     job_id := "7f3a" |}.

(** The jobs of the scenarios. *)
Definition known_jobs : list Job :=
  [ started;
    succeeded started
      ("/literature/filter_set/" +:+ pretty (@hash test_PyHash (OfFilterSetParams all_articles)));
    succeeded started
      ("/literature/clustering/"
         +:+ pretty (@hash test_PyHash (OfClusteringParams (default_clustering all_articles))));
    succeeded started
      ("/literature/article_group/"
         +:+ pretty (@hash test_PyHash (OfArticleGroupParams five_terms)));
    @failed test_PyStr started (ValueError clustering_failed);
    @failed test_PyStr started (ValueError "bad input") ].

(** A codec that knows the texts of the scenarios' jobs. *)
Definition test_JobCodec : JobCodec := {|
  Job_json := test_Job_json;
  Job_parse_raw := fun val =>
    match find (fun job => String.eqb (test_Job_json job) val) known_jobs with
    | Some job => Return job
    | None => Raise (ValidationError "1 validation error for Job")
    end
|}.

(** * Properties *)

Section StoreProperties.
Context `{PyHash} `{Pydantic} `{Colorcet} `{Database} `{Numeric} `{TextModels}.

Lemma hget_hset (kv : Redis) (name key value : string) :
  hget (hset kv name key value) name key = Some value.
Proof. unfold hget, hset. apply lookup_insert_eq. Qed.

Lemma hget_hdel (kv : Redis) (name key : string) :
  hget (hdel kv name key) name key = None.
Proof. unfold hget, hdel. apply lookup_delete_eq. Qed.

Lemma hsetnx_absent (kv : Redis) (name key value : string) :
  hget kv name key = None -> hsetnx kv name key value = hset kv name key value.
Proof. unfold hget, hsetnx, hset. intros ->. reflexivity. Qed.

Lemma hsetnx_present (kv : Redis) (name key value prev : string) :
  hget kv name key = Some prev -> hsetnx kv name key value = kv.
Proof. unfold hget, hsetnx. intros ->. reflexivity. Qed.

Lemma hset_hset (kv : Redis) (name key v w : string) :
  hset (hset kv name key v) name key w = hset kv name key w.
Proof. unfold hset. apply insert_insert_eq. Qed.

(** Every parameter class is registered in the three tables. *)
Lemma hash_key_registered (cls : resource_cls) :
  exists hash_key, get_resource_hash_key cls = Return hash_key.
Proof. destruct cls; eexists; reflexivity. Qed.

Lemma result_cls_registered (cls : resource_cls) :
  exists rc, get_resource_result_cls cls = Return rc.
Proof. destruct cls; eexists; reflexivity. Qed.

Lemma creation_func_registered (cls : resource_cls) :
  exists func, get_resource_creation_func cls = Return func.
Proof. destruct cls; eexists; reflexivity. Qed.

(** The sentinel is the empty string, and only the empty string has length 0. *)
Lemma is_in_progress_spec (val : option string) :
  is_in_progress val = true <-> val = Some IN_PROGRESS_VAL.
Proof.
  destruct val as [v|]; simpl; [|split; discriminate].
  destruct v; simpl; split; intros E; try reflexivity; try discriminate.
Qed.

Lemma pipeline_hget_hsetnx_eq (kv : Redis) (name key value : string) :
  pipeline_hget_hsetnx name key value kv
    = Some (match hget kv name key with
            | None => hset kv name key value
            | Some _ => kv
            end, Return (hget kv name key)).
Proof.
  unfold pipeline_hget_hsetnx.
  destruct (hget kv name key) as [v|] eqn:E.
  - erewrite hsetnx_present; eauto.
  - rewrite hsetnx_absent; auto.
Qed.

Lemma reserve_resource_eq {A : Type} (params : HashableBaseModel) (force : bool)
    (scope : kvM A) (kv : Redis) (hash_key : string) :
  get_resource_hash_key (class_of params) = Return hash_key ->
  reserve_resource params force scope kv =
    if force
    then yield_with_cleanup hash_key (params_hash_of params) scope
           (hset kv hash_key (params_hash_of params) IN_PROGRESS_VAL)
    else match hget kv hash_key (params_hash_of params) with
         | None => yield_with_cleanup hash_key (params_hash_of params) scope
                     (hset kv hash_key (params_hash_of params) IN_PROGRESS_VAL)
         | Some val =>
           if Nat.eqb (String.length val) 0
           then Some (kv, Raise (ResourceCreationInProgress
                                   ("resource creation in-progress for params " +:+ str params)))
           else Some (kv, Raise (ResourceExists
                                   ("resource already created for params " +:+ str params)))
         end.
Proof.
  intros Hk. unfold reserve_resource. rewrite Hk.
  unfold mbind, kvM_bind, lift_outcome. rewrite pipeline_hget_hsetnx_eq.
  destruct (hget kv hash_key (params_hash_of params)) as [v|] eqn:E; simpl.
  - destruct force; simpl; [reflexivity|].
    destruct (Nat.eqb (String.length v) 0); reflexivity.
  - destruct force; simpl; [rewrite hset_hset|]; reflexivity.
Qed.


Lemma yield_with_cleanup_raise {A : Type} (hash_key params_hash : string) (scope : kvM A)
    (kv kv2 : Redis) (e : exn) :
  scope kv = Some (kv2, Raise e) ->
  is_Exception e = true \/ e = Shutdown ->
  yield_with_cleanup hash_key params_hash scope kv = Some (hdel kv2 hash_key params_hash, Raise e).
Proof.
  intros Hs He. unfold yield_with_cleanup, try_except. rewrite Hs.
  assert (Exception_or_Shutdown e = true) as ->.
  { unfold Exception_or_Shutdown. destruct He as [->| ->]; [reflexivity|]. apply orb_true_r. }
  reflexivity.
Qed.

Lemma yield_with_cleanup_return {A : Type} (hash_key params_hash : string) (scope : kvM A)
    (kv kv2 : Redis) (a : A) :
  scope kv = Some (kv2, Return a) ->
  yield_with_cleanup hash_key params_hash scope kv = Some (kv2, Return a).
Proof. intros Hs. unfold yield_with_cleanup, try_except. rewrite Hs. reflexivity. Qed.

(** A reservation that is granted runs the scope on the store with the
    sentinel planted. *)
Lemma reserve_resource_granted {A : Type} (params : HashableBaseModel) (force : bool)
    (scope : kvM A) (kv : Redis) (hash_key : string) :
  get_resource_hash_key (class_of params) = Return hash_key ->
  hget kv hash_key (params_hash_of params) = None \/ force = true ->
  reserve_resource params force scope kv =
    yield_with_cleanup hash_key (params_hash_of params) scope
      (hset kv hash_key (params_hash_of params) IN_PROGRESS_VAL).
Proof.
  intros Hk Hg. rewrite (reserve_resource_eq params force scope kv hash_key Hk).
  destruct force; [reflexivity|].
  destruct Hg as [-> | ?]; [reflexivity | discriminate].
Qed.


Lemma find_resource_cases (kv : Redis) (params : HashableBaseModel) (hash_key : string)
    (rc : result_cls) :
  get_resource_hash_key (class_of params) = Return hash_key ->
  get_resource_result_cls (class_of params) = Return rc ->
  find_resource kv params =
    match hget kv hash_key (params_hash_of params) with
    | None => Raise (ResourceDoesNotExist (repr params))
    | Some val =>
      if Nat.eqb (String.length val) 0
      then Raise (ResourceCreationInProgress (repr params))
      else match parse_raw rc val with
           | Raise (ResourceDoesNotExist _) => Raise (ResourceDoesNotExist (repr params))
           | Raise (ResourceCreationInProgress _) => Raise (ResourceCreationInProgress (repr params))
           | r => r
           end
    end.
Proof.
  intros Hk Hrc. unfold find_resource, find_resource_hash. rewrite Hk, Hrc. simpl.
  destruct (hget kv hash_key (params_hash_of params)) as [val|]; [|reflexivity].
  simpl. destruct (Nat.eqb (String.length val) 0); reflexivity.
Qed.


(** C10. Forcing a reservation over a completed result replaces the result
    by the sentinel before the scope runs: the lookup that returned the
    stored result now raises [ResourceCreationInProgress], and when the
    scope then fails the entry is deleted, not restored. *)
Theorem forced_reservation_overwrites_result {A : Type} (params : HashableBaseModel)
    (scope : kvM A) (kv : Redis) (hash_key : string) (rc : result_cls)
    (val : string) (stored : BaseModel) :
  get_resource_hash_key (class_of params) = Return hash_key ->
  get_resource_result_cls (class_of params) = Return rc ->
  hget kv hash_key (params_hash_of params) = Some val ->
  String.length val <> 0%nat ->
  parse_raw rc val = Return stored ->
  let params_hash := params_hash_of params in
  let planted := hset kv hash_key params_hash IN_PROGRESS_VAL in
  find_resource kv params = Return stored /\
  reserve_resource params true scope kv = yield_with_cleanup hash_key params_hash scope planted /\
  hget planted hash_key params_hash = Some IN_PROGRESS_VAL /\
  find_resource planted params = Raise (ResourceCreationInProgress (repr params)) /\
  (forall kv2 e,
      scope planted = Some (kv2, Raise e) ->
      is_Exception e = true \/ e = Shutdown ->
      exists kv3,
        reserve_resource params true scope kv = Some (kv3, Raise e) /\
        hget kv3 hash_key params_hash = None).
Proof.
  intros Hk Hrc Hval Hlen Hparse params_hash planted.
  assert (Hg : reserve_resource params true scope kv
               = yield_with_cleanup hash_key params_hash scope planted).
  { apply reserve_resource_granted; [exact Hk | right; reflexivity]. }
  split; [|split; [exact Hg|split; [apply hget_hset|split]]].
  - rewrite (find_resource_cases kv params hash_key rc Hk Hrc), Hval.
    apply Nat.eqb_neq in Hlen. rewrite Hlen, Hparse. reflexivity.
  - rewrite (find_resource_cases planted params hash_key rc Hk Hrc).
    unfold planted, params_hash. rewrite hget_hset. reflexivity.
  - intros kv2 e Hs He. exists (hdel kv2 hash_key params_hash).
    split; [|apply hget_hdel].
    rewrite Hg. apply yield_with_cleanup_raise; assumption.
Qed.
Lemma create_and_store_return (fuel : nat) (db : Session) (params : HashableBaseModel)
    (kv : Redis) (hash_key : string) (func : creation_func) (r : BaseModel) :
  get_resource_hash_key (class_of params) = Return hash_key ->
  get_resource_creation_func (class_of params) = Return func ->
  func fuel db kv params = Some (Return r) ->
  create_and_store fuel db params kv
    = Some (hset kv hash_key (params_hash_of params) (json r), Return tt).
Proof.
  intros Hk Hf Hr. unfold create_and_store. rewrite Hk, Hf.
  unfold mbind, kvM_bind, lift_outcome. rewrite Hr. reflexivity.
Qed.

(** C4. When [make_resource] is granted the reservation and the creation
    function of the parameters' class returns [r], the store afterwards holds
    [r.json()] under the parameters' hash and [find_resource] returns what
    the result class parses from it: [r] itself, given that the codec reads
    back what it wrote and writes no empty text. *)
Theorem find_resource_after_make_resource (fuel : nat) (db : Session)
    (params : HashableBaseModel) (force : bool) (kv : Redis) (hash_key : string)
    (rc : result_cls) (func : creation_func) (r : BaseModel) :
  get_resource_hash_key (class_of params) = Return hash_key ->
  get_resource_result_cls (class_of params) = Return rc ->
  get_resource_creation_func (class_of params) = Return func ->
  hget kv hash_key (params_hash_of params) = None \/ force = true ->
  func fuel db (hset kv hash_key (params_hash_of params) IN_PROGRESS_VAL) params
    = Some (Return r) ->
  String.length (json r) <> 0%nat ->
  parse_raw rc (json r) = Return r ->
  exists kv',
    make_resource fuel db params force kv = Some (kv', Return tt) /\
    hget kv' hash_key (params_hash_of params) = Some (json r) /\
    find_resource kv' params = Return r.
Proof.
  intros Hk Hrc Hf Hg Hr Hlen Hparse.
  set (planted := hset kv hash_key (params_hash_of params) IN_PROGRESS_VAL) in *.
  exists (hset planted hash_key (params_hash_of params) (json r)).
  split; [|split].
  - unfold make_resource. rewrite Hrc.
    unfold mbind at 1. unfold kvM_bind, lift_outcome, try_except.
    rewrite (reserve_resource_granted params force _ kv hash_key Hk Hg).
    rewrite (yield_with_cleanup_return _ _ _ _ _ tt
               (create_and_store_return fuel db params planted hash_key func r Hk Hf Hr)).
    reflexivity.
  - apply hget_hset.
  - rewrite (find_resource_cases _ params hash_key rc Hk Hrc), hget_hset.
    apply Nat.eqb_neq in Hlen. rewrite Hlen, Hparse. reflexivity.
Qed.
End StoreProperties.

Section HashProperties.
Context `{PyHash}.

(** What Python asks of [hash] on floats: values that compare equal hash
    alike. *)
Hypothesis hash_float_eq : forall x y : float, float_eq x y = true -> hash_float x = hash_float y.

Lemma option_eq_true {A : Type} (eq : A -> A -> bool) (a b : option A) :
  (forall x y, eq x y = true -> x = y) -> option_eq eq a b = true -> a = b.
Proof.
  intros Heq. destruct a, b; simpl; intros E; try discriminate; [|reflexivity].
  f_equal. apply Heq, E.
Qed.

Lemma tuple_eq_true {A : Type} (eq : A -> A -> bool) (a b : list A) :
  (forall x y, eq x y = true -> x = y) -> tuple_eq eq a b = true -> a = b.
Proof.
  intros Heq. revert b. induction a as [|x a IH]; intros [|y b]; simpl; intros E;
    try discriminate; [reflexivity|].
  apply andb_true_iff in E as [E1 E2]. f_equal; [apply Heq, E1 | apply IH, E2].
Qed.

Lemma Z_eqb_true (x y : Z) : Z.eqb x y = true -> x = y.
Proof. apply Z.eqb_eq. Qed.

Lemma String_eqb_true (x y : string) : String.eqb x y = true -> x = y.
Proof. apply String.eqb_eq. Qed.

Lemma FilterSetParams_eq_hash (p q : FilterSetParams) :
  FilterSetParams_eq p q = true -> FilterSetParams_hash p = FilterSetParams_hash q.
Proof.
  unfold FilterSetParams_eq, FilterSetParams_hash. intros E.
  apply andb_true_iff in E as [E E3]. apply andb_true_iff in E as [E1 E2].
  apply (option_eq_true _ _ _ String_eqb_true) in E1.
  apply (option_eq_true _ _ _ (fun a b => tuple_eq_true _ a b Z_eqb_true)) in E2.
  apply (option_eq_true _ _ _ Z_eqb_true) in E3.
  rewrite E1, E2, E3. reflexivity.
Qed.

Lemma ClusteringParams_eq_hash (p q : ClusteringParams) :
  ClusteringParams_eq p q = true -> ClusteringParams_hash p = ClusteringParams_hash q.
Proof.
  unfold ClusteringParams_eq, ClusteringParams_hash. intros E.
  do 9 (apply andb_true_iff in E as [E ?]).
  repeat match goal with
         | E : Z.eqb _ _ = true |- _ => apply Z.eqb_eq in E; rewrite E; clear E
         | E : String.eqb _ _ = true |- _ => apply String.eqb_eq in E; rewrite E; clear E
         | E : Bool.eqb _ _ = true |- _ => apply Bool.eqb_prop in E; rewrite E; clear E
         | E : float_eq _ _ = true |- _ => apply hash_float_eq in E; rewrite E; clear E
         | E : FilterSetParams_eq _ _ = true |- _ =>
           apply FilterSetParams_eq_hash in E; rewrite E; clear E
         end.
  reflexivity.
Qed.

Lemma ArticleGroupParams_eq_hash (p q : ArticleGroupParams) :
  ArticleGroupParams_eq p q = true -> ArticleGroupParams_hash p = ArticleGroupParams_hash q.
Proof.
  unfold ArticleGroupParams_eq, ArticleGroupParams_hash. intros E.
  apply andb_true_iff in E as [E E3]. apply andb_true_iff in E as [E1 E2].
  apply ClusteringParams_eq_hash in E1. apply Z.eqb_eq in E2. apply String.eqb_eq in E3.
  rewrite E1, E2, E3. reflexivity.
Qed.

End HashProperties.

Section ClusteringProperties.
Context `{PyHash} `{Pydantic} `{Colorcet} `{Database} `{Numeric}.

Lemma bind_Return {A B : Type} (m : outcome A) (k : A -> outcome B) (b : B) :
  m ≫= k = Return b -> exists a, m = Return a /\ k a = Return b.
Proof. destruct m as [a|e]; simpl; intros E; [eauto | discriminate]. Qed.

Lemma poll_resource_Some (fuel : nat) (kv : Redis) (params : HashableBaseModel)
    (o : outcome BaseModel) :
  poll_resource fuel kv params = Some o -> find_resource kv params = o.
Proof.
  induction fuel as [|fuel IH]; simpl; [discriminate|].
  destruct (find_resource kv params) as [r|e] eqn:E.
  - intros [= <-]. reflexivity.
  - destruct e; try (intros [= <-]; reflexivity).
    intros Hp. apply IH, Hp.
Qed.

Lemma ClusteringLabelInfo_init_Return (n : list Z) (centers : list (float * float))
    (indices : list float) (info : ClusteringLabelInfo) :
  ClusteringLabelInfo_init n centers indices = Return info ->
  n_per_cluster info = n /\ cluster_center_coords info = centers /\
  cluster_validity_indices info = indices /\
  length n = length indices /\ length indices = length centers.
Proof.
  unfold ClusteringLabelInfo_init, ClusteringLabelInfo_list_lengths_match.
  destruct (Nat.eqb (length n) (length indices) && Nat.eqb (length indices) (length centers))
    eqn:E; simpl; [|discriminate].
  intros [= <-]. simpl. apply andb_true_iff in E as [E1 E2].
  apply Nat.eqb_eq in E1, E2. auto.
Qed.

Lemma ClusteringResult_init_Return (ids : list Z) (lbls : list (option Z))
    (cs : list (float * float)) (n : Z) (m : ClusteringOverallMetrics)
    (info : ClusteringLabelInfo) (r : ClusteringResult) :
  ClusteringResult_init ids lbls cs n m info = Return r ->
  article_ids r = ids /\ labels r = lbls /\ coords r = cs /\ num_clusters r = n /\
  metrics r = m /\ label_info r = info /\
  length ids = length lbls /\ length lbls = length cs.
Proof.
  unfold ClusteringResult_init, ClusteringResult_list_lengths_match.
  destruct (Nat.eqb (length ids) (length lbls) && Nat.eqb (length lbls) (length cs))
    eqn:E; simpl; [|discriminate].
  intros Hr. apply bind_Return in Hr as (plot & _ & Hr). injection Hr as <-. simpl.
  apply andb_true_iff in E as [E1 E2]. apply Nat.eqb_eq in E1, E2. auto 10.
Qed.

(** What a successful run of the clustering leaves in its result, in terms
    of the raw labels it got from HDBSCAN (none for the blank result). *)
Lemma cluster_filtered_articles_Return (db : Session) (params : ClusteringParams)
    (found : list Z) (r : ClusteringResult) :
  cluster_filtered_articles db params found = Return r ->
  exists raw_labels : list Z,
    labels r = map public_label raw_labels /\
    length (article_ids r) = length (labels r) /\
    length (labels r) = length (coords r) /\
    n_per_cluster (label_info r) = np_unique_counts raw_labels /\
    length (n_per_cluster (label_info r)) = length (cluster_validity_indices (label_info r)) /\
    length (cluster_validity_indices (label_info r)) = length (cluster_center_coords (label_info r)) /\
    silhoutte_coefficient (metrics r) = None /\
    ((raw_labels = [] /\ num_clusters r = 0) \/
     (exists m umap_data fitted silhouette,
        np_max raw_labels = Return m /\ num_clusters r = m + 1 /\
        coords r = umap_data /\
        silhouette_score umap_data raw_labels = Return silhouette /\
        HDBSCAN_fit (hdbscan_min_cluster_size params) (hdbscan_min_samples params)
          (hdbscan_cluster_selection_epsilon params) umap_data = Return fitted /\
        (raw_labels = labels_ fitted \/
         get_clusters fitted (hdbscan_cluster_flattening_epsilon params)
           (hdbscan_min_cluster_size params) = Return raw_labels))).
Proof.
  unfold cluster_filtered_articles.
  match goal with |- context [Nat.eqb (length ?l) 0] => generalize l end.
  intros filtered. destruct (Nat.eqb (length filtered) 0).
  - (* the blank result *)
    unfold _make_blank_clustering_result. intros Hr.
    apply bind_Return in Hr as (info & Hinfo & Hr).
    apply ClusteringLabelInfo_init_Return in Hinfo as (Hn & Hc & Hi & _ & _).
    apply ClusteringResult_init_Return in Hr as (Hids & Hl & Hcs & Hnum & Hm & Hinf & _ & _).
    exists []. rewrite Hl, Hids, Hcs, Hinf, Hn, Hc, Hi, Hm, Hnum. simpl.
    repeat split; auto.
  - intros Hr.
    apply bind_Return in Hr as ([ids embeddings] & _ & Hr).
    apply bind_Return in Hr as (umap_data & _ & Hr).
    apply bind_Return in Hr as (raw_labels & Hraw & Hr).
    apply bind_Return in Hr as (m & Hmax & Hr).
    apply bind_Return in Hr as ([d indices] & _ & Hr).
    apply bind_Return in Hr as (silhouette & Hsil & Hr).
    apply bind_Return in Hr as (davies_bouldin & _ & Hr).
    apply bind_Return in Hr as (dunn & _ & Hr).
    apply bind_Return in Hr as (centers & _ & Hr).
    apply bind_Return in Hr as (info & Hinfo & Hr).
    apply ClusteringLabelInfo_init_Return in Hinfo as (Hn & Hc & Hi & Hni & Hic).
    apply ClusteringResult_init_Return in Hr as (Hids & Hl & Hcs & Hnum & Hm & Hinf & Hil & Hlc).
    exists raw_labels. rewrite Hl, Hids, Hcs, Hinf, Hn, Hc, Hi, Hm, Hnum.
    repeat (split; [solve [auto]|]). right.
    match type of Hraw with
    | match ?fit ≫= _ with _ => _ end = _ => destruct fit as [fitted|e] eqn:Hfit
    end; simpl in Hraw.
    + exists m, umap_data, fitted, silhouette. repeat (split; [solve [auto]|]).
      destruct (hdbscan_do_flat_clustering params).
      * right. destruct (get_clusters _ _ _) as [l|e]; [congruence|].
        destruct (is_ValueError e); discriminate.
      * left. congruence.
    + destruct (is_ValueError e); discriminate.
Qed.
Lemma _make_clustering_Return (fuel : nat) (db : Session) (kv : Redis)
    (params : ClusteringParams) (r : ClusteringResult) :
  _make_clustering fuel db kv params = Some (Return r) ->
  exists found, cluster_filtered_articles db params found = Return r.
Proof.
  unfold _make_clustering.
  destruct (poll_resource fuel kv _) as [[[f|c|g]|e]|]; try discriminate.
  intros [= E]. eauto.
Qed.

Lemma non_null_public_labels (raw_labels : list Z) :
  non_null_labels (map public_label raw_labels) = filter (fun c => c <> -1) raw_labels.
Proof.
  unfold non_null_labels. induction raw_labels as [|c raw IH]; [reflexivity|].
  simpl. unfold public_label at 1. rewrite filter_cons.
  destruct (Z.eqb_spec c (-1)) as [->|Hc]; case_decide; simpl; try congruence.
  all: try (f_equal; exact IH).
Qed.

Lemma has_outliers_public_labels (raw_labels : list Z) :
  has_outliers (map public_label raw_labels) = bool_decide (-1 ∈ raw_labels).
Proof.
  unfold has_outliers. induction raw_labels as [|c raw IH]; [reflexivity|].
  rewrite (bool_decide_ext _ _ (elem_of_cons raw (-1) c)), bool_decide_or, <- IH.
  cbn [map existsb]. f_equal. unfold public_label.
  destruct (Z.eqb_spec c (-1)) as [->|Hc];
    [rewrite bool_decide_eq_true_2 by reflexivity
    | rewrite bool_decide_eq_false_2 by congruence]; reflexivity.
Qed.

Lemma foldr_max_ge (x : Z) (rest : list Z) (y : Z) :
  y ∈ x :: rest -> y <= foldr Z.max x rest.
Proof.
  induction rest as [|z rest IH]; simpl.
  - intros ->%list_elem_of_singleton. lia.
  - intros [->|[->|Hy]%elem_of_cons]%elem_of_cons.
    + assert (x <= foldr Z.max x rest) by (apply IH; left). lia.
    + lia.
    + assert (y <= foldr Z.max x rest) by (apply IH; right; exact Hy). lia.
Qed.

Lemma foldr_max_in (x : Z) (rest : list Z) : foldr Z.max x rest ∈ x :: rest.
Proof.
  induction rest as [|z rest IH]; simpl; [left|].
  destruct (Z.max_spec z (foldr Z.max x rest)) as [[_ ->]|[_ ->]].
  - apply elem_of_cons in IH as [->|IH]; [left | right; right; exact IH].
  - right; left.
Qed.

(** C6. In every clustering result the three per-article lists have one
    length, and the cluster count is the largest non-null label plus one, or
    zero when no label is non-null; HDBSCAN is taken at its word that a label
    is -1 or a cluster index. *)
Theorem clustering_result_invariant (fuel : nat) (db : Session) (kv : Redis)
    (params : ClusteringParams) (r : ClusteringResult) :
  (forall a b c data fitted,
      HDBSCAN_fit a b c data = Return fitted ->
      Forall (Z.le (-1)) (labels_ fitted) /\
      forall eps n l, get_clusters fitted eps n = Return l -> Forall (Z.le (-1)) l) ->
  _make_clustering fuel db kv params = Some (Return r) ->
  length (article_ids r) = length (labels r) /\
  length (labels r) = length (coords r) /\
  num_clusters r = match max_non_null_label (labels r) with
                   | Some m => m + 1
                   | None => 0
                   end.
Proof.
  intros Hcontract Hr.
  apply _make_clustering_Return in Hr as (found & Hr).
  apply cluster_filtered_articles_Return in Hr
    as (raw & Hl & Hlen1 & Hlen2 & _ & _ & _ & _ & Hcase).
  split; [exact Hlen1|]. split; [exact Hlen2|].
  rewrite Hl. unfold max_non_null_label. rewrite non_null_public_labels.
  destruct Hcase as [[-> ->] | (m & umap_data & fitted & s & Hmax & -> & _ & _ & Hfit & Hraw)];
    [reflexivity|].
  assert (Hge : Forall (Z.le (-1)) raw).
  { destruct (Hcontract _ _ _ _ _ Hfit) as [Hlab Hflat].
    destruct Hraw as [-> | Hraw]; [exact Hlab | exact (Hflat _ _ _ Hraw)]. }
  destruct raw as [|x rest]; [discriminate|]. injection Hmax as <-.
  rewrite Forall_forall in Hge.
  pose proof (foldr_max_in x rest) as Hin.
  pose proof (foldr_max_ge x rest) as Hub.
  set (m := foldr Z.max x rest) in *.
  destruct (filter (fun c => c <> -1) (x :: rest)) as [|l nn] eqn:Hnn.
  - (* every label is -1 *)
    destruct (decide (m = -1)) as [->|Hm]; [reflexivity|].
    assert (m ∈ filter (fun c => c <> -1) (x :: rest)) as Hm'
      by (apply list_elem_of_filter; split; assumption).
    rewrite Hnn in Hm'. inversion Hm'.
  - f_equal.
    pose proof (foldr_max_in l nn) as Hin'. pose proof (foldr_max_ge l nn) as Hub'.
    rewrite <- Hnn in Hin', Hub'.
    set (m' := foldr Z.max l nn) in *.
    apply list_elem_of_filter in Hin' as [Hm'ne Hm'in].
    assert (m' <= m) by (apply Hub, Hm'in).
    destruct (decide (m = -1)) as [Hm|Hm].
    + specialize (Hge _ Hm'in). lia.
    + assert (m <= m') by (apply Hub', list_elem_of_filter; split; assumption). lia.
Qed.
Lemma length_insert_sorted {A : Type} (lt : A -> A -> bool) (a : A) (l : list A) :
  length (insert_sorted lt a l) = S (length l).
Proof.
  induction l as [|b l IH]; simpl; [reflexivity|].
  destruct (lt b a); simpl; [rewrite IH|]; reflexivity.
Qed.

Lemma length_sorted {A : Type} (lt : A -> A -> bool) (l : list A) :
  length (sorted lt l) = length l.
Proof.
  induction l as [|a l IH]; simpl; [reflexivity|].
  rewrite length_insert_sorted. f_equal. exact IH.
Qed.

Lemma elem_of_unique_in_order (l : list Z) (x : Z) :
  x ∈ unique_in_order Z.eqb l <-> x ∈ l.
Proof.
  induction l as [|a l IH]; simpl; [reflexivity|].
  rewrite !elem_of_cons, list_elem_of_filter, IH.
  destruct (Z.eqb_spec a x) as [->|Hne]; simpl; intuition congruence.
Qed.

Lemma NoDup_unique_in_order (l : list Z) : NoDup (unique_in_order Z.eqb l).
Proof.
  induction l as [|a l IH]; simpl; constructor.
  - rewrite list_elem_of_filter. intros [Hne _]. rewrite Z.eqb_refl in Hne. discriminate.
  - apply NoDup_filter, IH.
Qed.

Lemma length_unique_in_order (l : list Z) :
  length (unique_in_order Z.eqb l) = size (list_to_set l : gset Z).
Proof.
  rewrite <- (size_list_to_set (C:=gset Z) (unique_in_order Z.eqb l))
    by apply NoDup_unique_in_order.
  f_equal. apply set_eq. intros x.
  rewrite !elem_of_list_to_set. apply elem_of_unique_in_order.
Qed.

Lemma length_np_unique_counts (a : list Z) :
  length (np_unique_counts a) = size (list_to_set a : gset Z).
Proof.
  unfold np_unique_counts, np_unique.
  rewrite length_map, length_sorted. apply length_unique_in_order.
Qed.

(** The distinct raw labels are the distinct cluster indices, and -1 when
    some point is an outlier. *)
Lemma distinct_raw_labels (raw_labels : list Z) :
  size (list_to_set raw_labels : gset Z) =
    (distinct_non_null_labels (map public_label raw_labels)
     + (if has_outliers (map public_label raw_labels) then 1 else 0))%nat.
Proof.
  unfold distinct_non_null_labels.
  rewrite non_null_public_labels, has_outliers_public_labels, length_unique_in_order.
  set (clusters := list_to_set (filter (fun c => c <> -1) raw_labels) : gset Z).
  assert (Hnot : -1 ∉ clusters).
  { unfold clusters. rewrite elem_of_list_to_set, list_elem_of_filter. intros [Hne _].
    apply Hne. reflexivity. }
  case_bool_decide as Hout.
  - assert (list_to_set raw_labels = {[ -1 ]} ∪ clusters :> gset Z) as ->.
    { apply set_eq. intros x. unfold clusters.
      rewrite elem_of_union, elem_of_singleton, !elem_of_list_to_set, list_elem_of_filter.
      destruct (decide (x = -1)) as [->|Hx]; intuition. }
    rewrite size_union by set_solver. rewrite size_singleton. lia.
  - assert (list_to_set raw_labels = clusters :> gset Z) as ->; [|lia].
    apply set_eq. intros x. unfold clusters.
    rewrite !elem_of_list_to_set, list_elem_of_filter.
    split; [|intros [_ Hx]; exact Hx].
    intros Hx. split; [|exact Hx]. intros ->. contradiction.
Qed.

(** C7, as the code has it.  In every clustering result the three
    cluster-level lists have one length: the number of distinct non-null
    labels, and one more when some point is an outlier (the outliers make
    a row of their own). *)
Theorem cluster_arrays_lengths (fuel : nat) (db : Session) (kv : Redis)
    (params : ClusteringParams) (r : ClusteringResult) :
  _make_clustering fuel db kv params = Some (Return r) ->
  let k := (distinct_non_null_labels (labels r)
            + (if has_outliers (labels r) then 1 else 0))%nat in
  length (n_per_cluster (label_info r)) = k /\
  length (cluster_center_coords (label_info r)) = k /\
  length (cluster_validity_indices (label_info r)) = k.
Proof.
  intros Hr k. apply _make_clustering_Return in Hr as (found & Hr).
  apply cluster_filtered_articles_Return in Hr
    as (raw & Hl & _ & _ & Hn & Hni & Hic & _ & _).
  assert (Hk : length (n_per_cluster (label_info r)) = k).
  { unfold k. rewrite Hn, Hl, length_np_unique_counts. apply distinct_raw_labels. }
  split; [exact Hk|]. split; congruence.
Qed.

(** C9, as the code has it.  The metrics of a clustering result never carry
    the silhouette coefficient: the score is computed over the reduced
    coordinates and the raw labels, outliers included, and then passed under
    a keyword that names no field of [ClusteringOverallMetrics], so the
    field stays [None]. *)
Theorem silhouette_is_never_reported (fuel : nat) (db : Session) (kv : Redis)
    (params : ClusteringParams) (r : ClusteringResult) :
  _make_clustering fuel db kv params = Some (Return r) ->
  silhoutte_coefficient (metrics r) = None /\
  (article_ids r <> [] ->
   exists raw_labels silhouette,
     labels r = map public_label raw_labels /\
     silhouette_score (coords r) raw_labels = Return silhouette).
Proof.
  intros Hr. apply _make_clustering_Return in Hr as (found & Hr).
  apply cluster_filtered_articles_Return in Hr
    as (raw & Hl & Hlen & _ & _ & _ & _ & Hs & Hcase).
  split; [exact Hs|]. intros Hne.
  destruct Hcase as [[-> _] | (m & umap_data & fitted & s & _ & _ & Hc & Hsil & _)].
  - rewrite Hl in Hlen. destruct (article_ids r); [contradiction | discriminate].
  - exists raw, s. rewrite Hc. auto.
Qed.
End ClusteringProperties.

Section GroupingProperties.
Context `{PyHash} `{Pydantic} `{Database} `{TextModels}.

Lemma take_top_terms_one (num_terms : Z) (term : string) (rest : list string) :
  num_terms <= 1 -> take_top_terms num_terms 0 (term :: rest) = [term].
Proof.
  intros Hn. simpl. destruct (Z.geb_spec 0 (num_terms - 1)); [reflexivity | lia].
Qed.
End GroupingProperties.

Section CreationProperties.
Context `{PyHash} `{Pydantic} `{Colorcet} `{Database} `{Numeric} `{TextModels}.

(** [make_resource] in one equation: what it does to the store and how it
    ends, by the prior entry and by how the creation function ends. *)
Lemma make_resource_eq (fuel : nat) (db : Session) (params : HashableBaseModel)
    (force : bool) (kv : Redis) (hash_key : string) (func : creation_func) :
  get_resource_hash_key (class_of params) = Return hash_key ->
  get_resource_creation_func (class_of params) = Return func ->
  let params_hash := params_hash_of params in
  let planted := hset kv hash_key params_hash IN_PROGRESS_VAL in
  make_resource fuel db params force kv =
    if force || bool_decide (hget kv hash_key params_hash = None) then
      match func fuel db planted params with
      | None => None
      | Some (Return r) => Some (hset planted hash_key params_hash (json r), Return tt)
      | Some (Raise e) =>
        if Exception_or_Shutdown e
        then Some (hdel planted hash_key params_hash,
                   if absorbed e then Return tt else Raise e)
        else Some (planted, Raise e)
      end
    else Some (kv, Return tt).
Proof.
  intros Hk Hf params_hash planted.
  destruct (result_cls_registered (class_of params)) as [rc Hrc].
  unfold make_resource. rewrite Hrc.
  unfold mbind at 1. unfold kvM_bind, lift_outcome, try_except.
  rewrite (reserve_resource_eq params force _ kv hash_key Hk).
  fold params_hash. fold planted.
  assert (Hscope : yield_with_cleanup hash_key params_hash (create_and_store fuel db params) planted
    = match func fuel db planted params with
      | None => None
      | Some (Return r) => Some (hset planted hash_key params_hash (json r), Return tt)
      | Some (Raise e) =>
        if Exception_or_Shutdown e
        then Some (hdel planted hash_key params_hash, Raise e)
        else Some (planted, Raise e)
      end).
  { unfold yield_with_cleanup, try_except, create_and_store. rewrite Hk, Hf.
    unfold mbind, kvM_bind, lift_outcome.
    destruct (func fuel db planted params) as [[r|e]|]; reflexivity. }
  assert (Hrun : match yield_with_cleanup hash_key params_hash (create_and_store fuel db params) planted with
    | Some (kv', Raise e) =>
        if match e with
           | ResourceCreationInProgress _ | ResourceExists _ => true
           | _ => false
           end
        then mret (M:=kvM) tt kv' else Some (kv', Raise e)
    | r => r end =
      match func fuel db planted params with
      | None => None
      | Some (Return r) => Some (hset planted hash_key params_hash (json r), Return tt)
      | Some (Raise e) =>
        if Exception_or_Shutdown e
        then Some (hdel planted hash_key params_hash,
                   if absorbed e then Return tt else Raise e)
        else Some (planted, Raise e)
      end).
  { rewrite Hscope. destruct (func fuel db planted params) as [[r|e]|]; try reflexivity.
    destruct e; reflexivity. }
  destruct force; simpl; [exact Hrun|].
  destruct (hget kv hash_key params_hash) as [v|] eqn:E.
  - rewrite bool_decide_eq_false_2 by discriminate.
    destruct (Nat.eqb (String.length v) 0); reflexivity.
  - rewrite bool_decide_eq_true_2 by reflexivity. exact Hrun.
Qed.

Lemma hget_hset_ne (kv : Redis) (name key value name' key' : string) :
  (name', key') <> (name, key) -> hget (hset kv name key value) name' key' = hget kv name' key'.
Proof. intros Hne. unfold hget, hset. apply lookup_insert_ne. congruence. Qed.

Lemma hget_hdel_ne (kv : Redis) (name key name' key' : string) :
  (name', key') <> (name, key) -> hget (hdel kv name key) name' key' = hget kv name' key'.
Proof. intros Hne. unfold hget, hdel. apply lookup_delete_ne. congruence. Qed.

(** X1. Without [force], [make_resource] on parameters whose entry already
    holds a value, the sentinel or a result, returns normally and leaves the
    store exactly as it was; the creation function is not run. *)
Theorem make_resource_leaves_present_entry (fuel : nat) (db : Session)
    (params : HashableBaseModel) (kv : Redis) (hash_key val : string) :
  get_resource_hash_key (class_of params) = Return hash_key ->
  hget kv hash_key (params_hash_of params) = Some val ->
  make_resource fuel db params false kv = Some (kv, Return tt).
Proof.
  intros Hk Hval.
  destruct (creation_func_registered (class_of params)) as [func Hf].
  rewrite (make_resource_eq fuel db params false kv hash_key func Hk Hf), Hval.
  rewrite bool_decide_eq_false_2 by discriminate. reflexivity.
Qed.

(** X2. When the creation function raises inside a granted reservation (an
    [Exception] or [Shutdown]), [make_resource] ends with the entry deleted,
    so that a later lookup raises [ResourceDoesNotExist]; the exception
    propagates, except [ResourceCreationInProgress] and [ResourceExists],
    which [make_resource] absorbs even when they come from the creation
    function. *)
Theorem make_resource_failure_cleans_up (fuel : nat) (db : Session)
    (params : HashableBaseModel) (force : bool) (kv : Redis) (hash_key : string)
    (func : creation_func) (e : exn) :
  get_resource_hash_key (class_of params) = Return hash_key ->
  get_resource_creation_func (class_of params) = Return func ->
  hget kv hash_key (params_hash_of params) = None \/ force = true ->
  func fuel db (hset kv hash_key (params_hash_of params) IN_PROGRESS_VAL) params
    = Some (Raise e) ->
  is_Exception e = true \/ e = Shutdown ->
  exists kv',
    make_resource fuel db params force kv
      = Some (kv', if absorbed e then Return tt else Raise e) /\
    hget kv' hash_key (params_hash_of params) = None /\
    find_resource kv' params = Raise (ResourceDoesNotExist (repr params)).
Proof.
  intros Hk Hf Hg Hr He.
  destruct (result_cls_registered (class_of params)) as [rc Hrc].
  eexists. split; [|split].
  - rewrite (make_resource_eq fuel db params force kv hash_key func Hk Hf).
    assert (force || bool_decide (hget kv hash_key (params_hash_of params) = None) = true) as ->.
    { destruct Hg as [-> | ->]; [|reflexivity].
      rewrite bool_decide_eq_true_2 by reflexivity. apply orb_true_r. }
    rewrite Hr.
    assert (Exception_or_Shutdown e = true) as ->.
    { unfold Exception_or_Shutdown. destruct He as [-> | ->]; [reflexivity | apply orb_true_r]. }
    reflexivity.
  - apply hget_hdel.
  - rewrite (find_resource_cases _ params hash_key rc Hk Hrc), hget_hdel. reflexivity.
Qed.

Lemma hash_key_inj (c1 c2 : resource_cls) (k : string) :
  get_resource_hash_key c1 = Return k -> get_resource_hash_key c2 = Return k -> c1 = c2.
Proof.
  destruct c1, c2; try reflexivity; intros E1 E2; vm_compute in E1, E2; congruence.
Qed.

(** What [make_resource] leaves alone: every entry but the one of its
    parameters. *)
Lemma make_resource_frame (fuel : nat) (db : Session) (params : HashableBaseModel)
    (force : bool) (kv kv' : Redis) (o : outcome unit) (hash_key : string) :
  get_resource_hash_key (class_of params) = Return hash_key ->
  make_resource fuel db params force kv = Some (kv', o) ->
  forall name key,
    (name, key) <> (hash_key, params_hash_of params) ->
    hget kv' name key = hget kv name key.
Proof.
  intros Hk Hrun name key Hne.
  destruct (creation_func_registered (class_of params)) as [func Hf].
  rewrite (make_resource_eq fuel db params force kv hash_key func Hk Hf) in Hrun.
  destruct (force || bool_decide _); [|simplify_eq; reflexivity].
  destruct (func _ _ _ _) as [[r|e]|]; [| |discriminate].
  - simplify_eq. rewrite !hget_hset_ne by assumption. reflexivity.
  - destruct (Exception_or_Shutdown e); simplify_eq.
    + rewrite hget_hdel_ne, hget_hset_ne by assumption. reflexivity.
    + rewrite hget_hset_ne by assumption. reflexivity.
Qed.

(** X3. Whatever [make_resource] does, it changes no entry but the one of its
    parameters; so it does not change what [find_resource] answers for
    parameters of another class or with another hash. *)
Theorem make_resource_touches_one_entry (fuel : nat) (db : Session)
    (params : HashableBaseModel) (force : bool) (kv kv' : Redis) (o : outcome unit) :
  make_resource fuel db params force kv = Some (kv', o) ->
  exists hash_key,
    get_resource_hash_key (class_of params) = Return hash_key /\
    (forall name key,
        (name, key) <> (hash_key, params_hash_of params) ->
        hget kv' name key = hget kv name key) /\
    (forall other,
        class_of other <> class_of params \/ hash other <> hash params ->
        find_resource kv' other = find_resource kv other).
Proof.
  intros Hrun.
  destruct (hash_key_registered (class_of params)) as [hash_key Hk].
  exists hash_key. split; [exact Hk|].
  pose proof (make_resource_frame fuel db params force kv kv' o hash_key Hk Hrun) as Hframe.
  split; [exact Hframe|].
  intros other Hother.
  destruct (hash_key_registered (class_of other)) as [hk' Hk'].
  destruct (result_cls_registered (class_of other)) as [rc' Hrc'].
  rewrite !(find_resource_cases _ other hk' rc' Hk' Hrc').
  rewrite Hframe; [reflexivity|].
  intros [= -> Hh]. destruct Hother as [Hc | Hh'].
  - apply Hc. eapply hash_key_inj; eassumption.
  - apply Hh'. unfold params_hash_of in Hh. apply (inj pretty) in Hh. exact Hh.
Qed.
End CreationProperties.

Section ClusteringRuns.
Context `{PyHash} `{Pydantic} `{Colorcet} `{Database} `{Numeric}.

Lemma _make_blank_clustering_result_eq :
  _make_blank_clustering_result = Return blank_clustering_result.
Proof. reflexivity. Qed.

Lemma poll_resource_found (fuel : nat) (kv : Redis) (params : HashableBaseModel)
    (r : BaseModel) :
  find_resource kv params = Return r -> poll_resource (S fuel) kv params = Some (Return r).
Proof. intros E. simpl. rewrite E. reflexivity. Qed.

Lemma cluster_filtered_articles_blank (db : Session) (params : ClusteringParams)
    (found : list Z) :
  ids_to_cluster params found = [] ->
  cluster_filtered_articles db params found = Return blank_clustering_result.
Proof.
  intros E. unfold cluster_filtered_articles. fold (ids_to_cluster params found).
  rewrite E. reflexivity.
Qed.

(** X4. Clustering an empty filter set (no temporary ids either) returns the
    blank result, whatever the other parameters and without a call to the
    database or any numeric library: no article, label or coordinate, zero
    clusters, every metric null, empty cluster-level lists. *)
Theorem empty_filter_set_gives_blank_clustering (fuel : nat) (db : Session) (kv : Redis)
    (params : ClusteringParams) (found : FilterSetResult) :
  find_resource kv (OfFilterSetParams (filter_set params)) = Return (OfFilterSetResult found) ->
  ids_to_cluster params (filter_set_article_ids found) = [] ->
  _make_clustering (S fuel) db kv params = Some (Return blank_clustering_result).
Proof.
  intros Hfound Hempty. unfold _make_clustering.
  rewrite (poll_resource_found fuel kv _ _ Hfound).
  rewrite (cluster_filtered_articles_blank db params _ Hempty). reflexivity.
Qed.

Lemma poll_resource_in_progress (fuel : nat) (kv : Redis) (params : HashableBaseModel)
    (msg : string) :
  find_resource kv params = Raise (ResourceCreationInProgress msg) ->
  poll_resource fuel kv params = None.
Proof. intros E. induction fuel as [|fuel IH]; simpl; [reflexivity|]. rewrite E. exact IH. Qed.

(** X5. While the entry of the filter set holds the sentinel, [_make_clustering]
    does not return: every poll reads the same store, so no number of rounds
    ends the loop.  When the entry is absent, the first poll raises
    [ResourceDoesNotExist]. *)
Theorem clustering_waits_for_filter_set (db : Session) (kv : Redis)
    (params : ClusteringParams) :
  let field := params_hash_of (OfFilterSetParams (filter_set params)) in
  (hget kv "filter_sets" field = Some IN_PROGRESS_VAL ->
   forall fuel, _make_clustering fuel db kv params = None) /\
  (hget kv "filter_sets" field = None ->
   forall fuel,
     _make_clustering (S fuel) db kv params
       = Some (Raise (ResourceDoesNotExist (repr (OfFilterSetParams (filter_set params)))))).
Proof.
  cbv zeta.
  pose proof (find_resource_cases kv (OfFilterSetParams (filter_set params))
                "filter_sets" FilterSetResult_cls eq_refl eq_refl) as Hfind.
  split; intros Hval fuel; rewrite Hval in Hfind; simpl in Hfind; unfold _make_clustering.
  - rewrite (poll_resource_in_progress fuel kv _ _ Hfind). reflexivity.
  - simpl. rewrite Hfind. reflexivity.
Qed.

(** Everything a run of the clustering that returns went through. *)
Lemma cluster_filtered_articles_steps (db : Session) (params : ClusteringParams)
    (found : list Z) (r : ClusteringResult) :
  cluster_filtered_articles db params found = Return r ->
  (ids_to_cluster params found = [] /\ r = blank_clustering_result) \/
  exists rows umap_data raw_labels m indices info,
    ids_to_cluster params found <> [] /\
    rows = query_article_embeddings db (ids_to_cluster params found) /\
    rows <> [] /\
    UMAP_fit_transform (umap_seed params) (umap_n_neighbors params) (umap_metric params)
      (umap_min_dist params) (map snd rows) = Return umap_data /\
    np_max raw_labels = Return m /\
    ((Z.leb (hdbscan_min_cluster_size params) 2 || Z.leb (hdbscan_min_samples params) 2 = true
      /\ indices = []) \/
     (Z.leb (hdbscan_min_cluster_size params) 2 || Z.leb (hdbscan_min_samples params) 2 = false
      /\ exists d scores,
           validity_index umap_data raw_labels = Return (d, scores) /\
           indices = if existsb (Z.eqb (-1)) raw_labels then zero_score :: scores else scores)) /\
    ClusteringLabelInfo_init (np_unique_counts raw_labels) (cluster_center_coords info) indices
      = Return info /\
    groupby_label_mean umap_data raw_labels = Return (cluster_center_coords info) /\
    ClusteringResult_init (map fst rows) (map public_label raw_labels) umap_data (m + 1)
      (metrics r) info = Return r.
Proof.
  unfold cluster_filtered_articles. fold (ids_to_cluster params found).
  destruct (ids_to_cluster params found) as [|i ids] eqn:Hids.
  - simpl. intros [= <-]. left. split; reflexivity.
  - change (Nat.eqb (length (i :: ids)) 0) with false. cbv iota.
    intros Hr. right.
    apply bind_Return in Hr as ([article_ids embeddings] & Hrows & Hr).
    apply bind_Return in Hr as (umap_data & Humap & Hr).
    apply bind_Return in Hr as (raw_labels & Hraw & Hr).
    apply bind_Return in Hr as (m & Hmax & Hr).
    apply bind_Return in Hr as ([d indices] & Hval & Hr).
    apply bind_Return in Hr as (silhouette & Hsil & Hr).
    apply bind_Return in Hr as (davies_bouldin & _ & Hr).
    apply bind_Return in Hr as (dunn & _ & Hr).
    apply bind_Return in Hr as (centers & Hcenters & Hr).
    apply bind_Return in Hr as (info & Hinfo & Hr).
    pose proof (ClusteringLabelInfo_init_Return _ _ _ _ Hinfo) as (_ & Hc & _).
    pose proof (ClusteringResult_init_Return _ _ _ _ _ _ _ Hr) as (_ & _ & _ & _ & Hm & _).
    unfold unzip2 in Hrows.
    destruct (query_article_embeddings db (i :: ids)) as [|row rows] eqn:Hq; [discriminate|].
    injection Hrows as <- <-.
    exists (row :: rows), umap_data, raw_labels, m, indices, info.
    split; [discriminate|]. split; [reflexivity|]. split; [discriminate|].
    split; [exact Humap|]. split; [exact Hmax|].
    split; [|rewrite Hc, Hm; auto].
    destruct (Z.leb (hdbscan_min_cluster_size params) 2 || Z.leb (hdbscan_min_samples params) 2).
    + left. injection Hval as _ <-. auto.
    + right. split; [reflexivity|].
      apply bind_Return in Hval as ([d' scores] & Hv & Hval). injection Hval as _ <-.
      eauto.
Qed.

(** X6. When HDBSCAN's fit (or, in flat mode, the cut of its tree) raises a
    [ValueError], the clustering raises one [ValueError] with the too-few-articles
    message; any other exception raised there propagates as it is. *)
Theorem clustering_failure_is_translated (db : Session) (params : ClusteringParams)
    (found : list Z) (umap_data : list (float * float)) (e : exn) :
  ids_to_cluster params found <> [] ->
  query_article_embeddings db (ids_to_cluster params found) <> [] ->
  UMAP_fit_transform (umap_seed params) (umap_n_neighbors params) (umap_metric params)
    (umap_min_dist params)
    (map snd (query_article_embeddings db (ids_to_cluster params found))) = Return umap_data ->
  (fitted ← HDBSCAN_fit (hdbscan_min_cluster_size params) (hdbscan_min_samples params)
              (hdbscan_cluster_selection_epsilon params) umap_data;
   if hdbscan_do_flat_clustering params
   then get_clusters fitted (hdbscan_cluster_flattening_epsilon params)
          (hdbscan_min_cluster_size params)
   else Return (labels_ fitted)) = Raise e ->
  cluster_filtered_articles db params found
    = Raise (if is_ValueError e then ValueError clustering_failed else e).
Proof.
  intros Hids Hrows Humap Hfit.
  unfold cluster_filtered_articles. fold (ids_to_cluster params found).
  destruct (ids_to_cluster params found) as [|i ids]; [contradiction|].
  change (Nat.eqb (length (i :: ids)) 0) with false. cbv iota.
  destruct (query_article_embeddings db (i :: ids)) as [|row rows]; [contradiction|].
  unfold unzip2. simpl mbind at 1. simpl in Humap. simpl. rewrite Humap. simpl.
  rewrite Hfit. destruct (is_ValueError e); reflexivity.
Qed.

Lemma ClusteringResult_init_has_cluster (ids : list Z) (lbls : list (option Z))
    (cs : list (float * float)) (n : Z) (m : ClusteringOverallMetrics)
    (info : ClusteringLabelInfo) (r : ClusteringResult) :
  ClusteringResult_init ids lbls cs n m info = Return r ->
  ids = [] \/ exists c, Some c ∈ lbls.
Proof.
  intros Hr.
  pose proof (ClusteringResult_init_Return _ _ _ _ _ _ _ Hr)
    as (_ & _ & _ & _ & _ & _ & Hl1 & Hl2).
  unfold ClusteringResult_init, ClusteringResult_list_lengths_match in Hr.
  destruct (negb _); [discriminate|]. simpl in Hr.
  apply bind_Return in Hr as (plot & Hplot & _).
  unfold ClusteringResult_to_plotly in Hplot.
  destruct cs as [|c cs]; [left; destruct ids, lbls; try discriminate; reflexivity|].
  right. simpl in Hplot.
  destruct (points_with_cluster (zip3 lbls (c :: cs) ids)) as [|p ps] eqn:Hp; [discriminate|].
  destruct (decide (Forall (fun l => l = None) lbls)) as [Hall|Hsome].
  - exfalso. clear Hplot.
    revert Hp. generalize (c :: cs). intros cs'. clear Hl1 Hl2. revert cs' ids.
    induction lbls as [|l lbls IH]; intros [|c' cs'] [|i ids]; simpl; try discriminate.
    inversion Hall as [|? ? -> Hall']; subst. apply IH. exact Hall'.
  - apply not_Forall_Exists in Hsome; [|intros l; apply _].
    apply Exists_exists in Hsome as ([c0|] & Hin & Hne); [eauto | exfalso; apply Hne; reflexivity].
Qed.

(** X8. A clustering result that holds articles holds at least one article
    with a cluster: when every point is an outlier the scatter plot cannot be
    built and the result is refused. *)
Theorem nonempty_clustering_has_a_cluster (fuel : nat) (db : Session) (kv : Redis)
    (params : ClusteringParams) (r : ClusteringResult) :
  _make_clustering fuel db kv params = Some (Return r) ->
  article_ids r <> [] ->
  exists c, Some c ∈ labels r /\ c <> -1.
Proof.
  intros Hr Hne. apply _make_clustering_Return in Hr as (found & Hr).
  apply cluster_filtered_articles_steps in Hr
    as [[_ ->] | (rows & umap_data & raw & m & indices & info & _ & _ & _ & _ & _ & _ & _ & _ & Hr)];
    [contradiction|].
  pose proof (ClusteringResult_init_Return _ _ _ _ _ _ _ Hr) as (Hids & Hl & _).
  apply ClusteringResult_init_has_cluster in Hr as [Hr | (c & Hc)].
  - rewrite Hids in Hne. contradiction.
  - exists c. rewrite Hl. split; [exact Hc|].
    apply list_elem_of_fmap in Hc as (raw_c & Hpub & _). unfold public_label in Hpub.
    destruct (Z.eqb_spec raw_c (-1)); [discriminate | congruence].
Qed.

(** X9. With [hdbscan_min_cluster_size <= 2] or [hdbscan_min_samples <= 2] the
    validity scores are skipped and left empty, which the length check of
    [ClusteringLabelInfo] accepts only beside empty counts: the one result
    such parameters can return is the blank one. *)
Theorem skipped_validity_returns_only_blank (fuel : nat) (db : Session) (kv : Redis)
    (params : ClusteringParams) (r : ClusteringResult) :
  hdbscan_min_cluster_size params <= 2 \/ hdbscan_min_samples params <= 2 ->
  _make_clustering fuel db kv params = Some (Return r) ->
  r = blank_clustering_result.
Proof.
  intros Hskip Hr. apply _make_clustering_Return in Hr as (found & Hr).
  apply cluster_filtered_articles_steps in Hr
    as [[_ ->] | (rows & umap_data & raw & m & indices & info & _ & _ & _ & _
                  & Hmax & Hval & Hinfo & _)];
    [reflexivity|].
  exfalso.
  assert (Z.leb (hdbscan_min_cluster_size params) 2 || Z.leb (hdbscan_min_samples params) 2 = true)
    as Hb.
  { apply orb_true_iff. destruct Hskip; [left | right]; apply Z.leb_le; assumption. }
  destruct Hval as [[_ ->] | [Hb' _]]; [|congruence].
  apply ClusteringLabelInfo_init_Return in Hinfo as (_ & _ & _ & Hlen & _).
  rewrite length_np_unique_counts in Hlen. simpl in Hlen.
  apply size_empty_inv in Hlen.
  destruct raw as [|x raw]; [discriminate|].
  assert (x ∈ (list_to_set (x :: raw) : gset Z)) as Hx by (apply elem_of_list_to_set; left).
  rewrite (leibniz_equiv _ _ Hlen) in Hx. set_solver.
Qed.

Lemma insert_sorted_Permutation {A : Type} (lt : A -> A -> bool) (a : A) (l : list A) :
  insert_sorted lt a l ≡ₚ a :: l.
Proof.
  induction l as [|b l IH]; simpl; [reflexivity|].
  destruct (lt b a); [|reflexivity]. rewrite IH. apply Permutation_swap.
Qed.

Lemma sorted_Permutation {A : Type} (lt : A -> A -> bool) (l : list A) :
  sorted lt l ≡ₚ l.
Proof.
  induction l as [|a l IH]; simpl; [reflexivity|].
  rewrite insert_sorted_Permutation, IH. reflexivity.
Qed.

Lemma total_Permutation (l1 l2 : list Z) : l1 ≡ₚ l2 -> total l1 = total l2.
Proof.
  unfold total. induction 1; simpl; lia.
Qed.

Lemma total_indicator (x : Z) (values : list Z) :
  NoDup values -> x ∈ values ->
  total (map (fun v => if Z.eqb v x then 1 else 0) values) = 1.
Proof.
  unfold total. induction 1 as [|v values Hv Hnd IH]; [intros Hx; inversion Hx|].
  intros Hx. simpl. destruct (Z.eqb_spec v x) as [->|Hne].
  - assert (foldr Z.add 0 (map (fun v => if Z.eqb v x then 1 else 0) values) = 0) as ->; [|lia].
    clear IH Hnd Hx. induction values as [|w values IH]; [reflexivity|]. simpl.
    destruct (Z.eqb_spec w x) as [->|_]; [exfalso; apply Hv; left|].
    rewrite IH; [lia|]. intros Hin. apply Hv. right. exact Hin.
  - apply elem_of_cons in Hx as [->|Hx]; [contradiction|]. rewrite IH by assumption. lia.
Qed.

Lemma count_of_cons (v x : Z) (a : list Z) :
  count_of Z.eqb v (x :: a) = (if Z.eqb v x then 1 else 0) + count_of Z.eqb v a.
Proof.
  unfold count_of. rewrite filter_cons.
  destruct (Z.eqb v x) eqn:E; case_decide; try congruence; simpl length; lia.
Qed.

Lemma total_counts (values a : list Z) :
  NoDup values -> (forall x, x ∈ a -> x ∈ values) ->
  total (map (fun v => count_of Z.eqb v a) values) = Z.of_nat (length a).
Proof.
  intros Hnd. induction a as [|x a IH]; intros Hin.
  - unfold total. clear Hnd Hin. induction values as [|v values IH]; [reflexivity|].
    simpl. rewrite IH. reflexivity.
  - assert (total (map (fun v => count_of Z.eqb v (x :: a)) values)
            = total (map (fun v => if Z.eqb v x then 1 else 0) values)
              + total (map (fun v => count_of Z.eqb v a) values)) as ->.
    { unfold total. clear. induction values as [|v values IH]; [reflexivity|].
      simpl. rewrite IH, count_of_cons. lia. }
    rewrite total_indicator; [|exact Hnd|apply Hin; left].
    rewrite IH; [simpl length; lia|]. intros y Hy. apply Hin. right. exact Hy.
Qed.

Lemma total_np_unique_counts (a : list Z) :
  total (np_unique_counts a) = Z.of_nat (length a).
Proof.
  unfold np_unique_counts, np_unique. apply total_counts.
  - rewrite sorted_Permutation. apply NoDup_unique_in_order.
  - intros x Hx. rewrite sorted_Permutation. apply elem_of_unique_in_order. exact Hx.
Qed.

(** X7. In every clustering result the per-cluster counts add up to the
    number of articles: each article is counted in exactly one row, the
    outliers in theirs. *)
Theorem cluster_counts_add_up (fuel : nat) (db : Session) (kv : Redis)
    (params : ClusteringParams) (r : ClusteringResult) :
  _make_clustering fuel db kv params = Some (Return r) ->
  total (n_per_cluster (label_info r)) = Z.of_nat (length (article_ids r)).
Proof.
  intros Hr. apply _make_clustering_Return in Hr as (found & Hr).
  apply cluster_filtered_articles_Return in Hr
    as (raw & Hl & Hlen & _ & Hn & _).
  rewrite Hn, total_np_unique_counts, Hlen, Hl, length_map. reflexivity.
Qed.
End ClusteringRuns.

Section GroupingRuns.
Context `{PyHash} `{Pydantic} `{Database} `{TextModels}.

(** The loop started at index [i] keeps the first [max(1, num_terms - i)]
    terms. *)
Lemma take_top_terms_from (num_terms i : Z) (l : list string) :
  0 <= i ->
  take_top_terms num_terms i l = take (Z.to_nat (Z.max 1 (num_terms - i))) l.
Proof.
  revert i. induction l as [|term rest IH]; intros i Hi; simpl.
  - rewrite take_nil. reflexivity.
  - destruct (Z.geb_spec i (num_terms - 1)) as [Hge|Hlt].
    + replace (Z.to_nat (Z.max 1 (num_terms - i))) with 1%nat by lia. reflexivity.
    + rewrite IH by lia.
      replace (Z.to_nat (Z.max 1 (num_terms - i)))
        with (S (Z.to_nat (Z.max 1 (num_terms - (i + 1))))) by lia.
      reflexivity.
Qed.

(** X10. The loop over the sorted terms keeps the first [max(1, num_terms)]
    of them: [num_terms] terms when it is positive, and one term when it is
    zero or negative. *)
Theorem take_top_terms_is_take (num_terms : Z) (sorted_terms : list string) :
  take_top_terms num_terms 0 sorted_terms
    = take (Z.to_nat (Z.max 1 num_terms)) sorted_terms.
Proof.
  rewrite take_top_terms_from by lia. rewrite Z.sub_0_r. reflexivity.
Qed.

Lemma mapM_Return {A B : Type} (f : A -> outcome B) (l : list A) (l' : list B) :
  mapM f l = Return l' -> Forall2 (fun a b => f a = Return b) l l'.
Proof.
  revert l'. induction l as [|a l IH]; intros l'; simpl.
  - intros [= <-]. constructor.
  - intros E. apply bind_Return in E as (b & Hb & E).
    apply bind_Return in E as (bs & Hbs & E). injection E as <-.
    constructor; [exact Hb | apply IH, Hbs].
Qed.

Lemma summarize_group_Return (params : ArticleGroupParams) (cluster : Z)
    (cluster_articles : list article_row) (g : ArticleGroup) :
  summarize_group params cluster cluster_articles = Return g ->
  group_id g = cluster /\
  num_articles g = Z.of_nat (length cluster_articles) /\
  group_article_ids g = map (fun row : article_row => fst (fst row)) cluster_articles.
Proof.
  unfold summarize_group. intros E. apply bind_Return in E as (all_terms & _ & E).
  injection E as <-. auto.
Qed.

Lemma group_clustered_articles_blank (db : Session) (params : ArticleGroupParams)
    (cr : ClusteringResult) :
  article_ids cr = [] ->
  group_clustered_articles db params cr = Return blank_article_group_result.
Proof. intros E. unfold group_clustered_articles. rewrite E. reflexivity. Qed.

(** X12. Grouping a clustering result that holds no article returns the blank
    group result (one pseudo-group with id 0, no member and no term),
    whatever the term source and without a query. *)
Theorem empty_clustering_gives_blank_groups (fuel : nat) (db : Session) (kv : Redis)
    (params : ArticleGroupParams) (cr : ClusteringResult) :
  find_resource kv (OfClusteringParams (clustering params)) = Return (OfClusteringResult cr) ->
  article_ids cr = [] ->
  _make_article_groups (S fuel) db kv params = Some (Return blank_article_group_result).
Proof.
  intros Hfound Hempty. unfold _make_article_groups.
  rewrite (poll_resource_found fuel kv _ _ Hfound).
  rewrite (group_clustered_articles_blank db params cr Hempty). reflexivity.
Qed.

Lemma _make_article_groups_Return (fuel : nat) (db : Session) (kv : Redis)
    (params : ArticleGroupParams) (res : ArticleGroupResult) :
  _make_article_groups fuel db kv params = Some (Return res) ->
  exists cr,
    find_resource kv (OfClusteringParams (clustering params)) = Return (OfClusteringResult cr) /\
    group_clustered_articles db params cr = Return res.
Proof.
  unfold _make_article_groups.
  destruct (poll_resource fuel kv _) as [o|] eqn:Hp; [|discriminate].
  apply poll_resource_Some in Hp. rewrite Hp.
  destruct o as [[f|c|g]|e]; try discriminate.
  intros [= E]. eauto.
Qed.

Lemma group_clustered_articles_groups (db : Session) (params : ArticleGroupParams)
    (cr : ClusteringResult) (res : ArticleGroupResult) :
  group_clustered_articles db params cr = Return res ->
  article_ids cr <> [] ->
  length (labels cr) = length (article_ids cr) /\
  exists right,
    Forall2 (fun cg g => summarize_group params (fst cg) (snd cg) = Return g)
      (groupby_cluster (join_article_df (zip (article_ids cr) (labels cr)) right))
      (result res).
Proof.
  unfold group_clustered_articles. intros E Hne.
  destruct (article_ids cr) as [|i ids] eqn:Hids; [contradiction|].
  change (Nat.eqb (length (i :: ids)) 0) with false in E. cbv iota in E.
  apply bind_Return in E as (df & Hdf & E).
  apply bind_Return in E as (right & _ & E).
  apply bind_Return in E as (groups & Hgroups & E).
  unfold ArticleGroupResult_init in E. apply bind_Return in E as (plot & _ & E).
  injection E as <-. simpl.
  unfold make_article_cluster_df in Hdf.
  destruct (Nat.eqb (length (labels cr)) (length (i :: ids))) eqn:Hlen; [|discriminate].
  apply Nat.eqb_eq in Hlen. injection Hdf as <-.
  split; [exact Hlen|]. exists right.
  apply mapM_Return in Hgroups.
  eapply Forall2_impl; [exact Hgroups|]. intros [c rows] g Hg. exact Hg.
Qed.

Lemma join_article_df_labels (df : list (Z * option Z))
    (right : list (Z * (string * embedding * list string))) :
  omap (fun row : article_row => snd (fst row)) (join_article_df df right) = omap snd df.
Proof.
  unfold join_article_df. induction df as [|[i c] df IH]; [reflexivity|].
  simpl in *. destruct c; simpl; try f_equal; exact IH.
Qed.

Lemma join_article_df_members (df : list (Z * option Z))
    (right : list (Z * (string * embedding * list string))) (cluster : Z) :
  map (fun row : article_row => fst (fst row))
      (filter (fun row : article_row => snd (fst row) = Some cluster) (join_article_df df right))
  = map fst (filter (fun p : Z * option Z => snd p = Some cluster) df).
Proof.
  unfold join_article_df. induction df as [|[i c] df IH]; [reflexivity|].
  simpl. rewrite !filter_cons. simpl.
  destruct (decide (c = Some cluster)); simpl; rewrite IH; reflexivity.
Qed.

Lemma omap_snd_zip (ids : list Z) (cluster_labels : list (option Z)) :
  length cluster_labels = length ids ->
  omap snd (zip ids cluster_labels) = non_null_labels cluster_labels.
Proof.
  unfold non_null_labels. revert cluster_labels.
  induction ids as [|i ids IH]; intros [|c cs] Hlen; try discriminate; [reflexivity|].
  simpl in Hlen. specialize (IH cs ltac:(lia)). destruct c; simpl; try f_equal; exact IH.
Qed.

(** X11. The groups of a non-empty clustering result are its distinct
    non-null labels, in order of first appearance; each group lists exactly
    the articles with its label, in order, so it is never empty, and
    [num_articles] is their number.  Outliers belong to no group. *)
Theorem article_groups_follow_labels (fuel : nat) (db : Session) (kv : Redis)
    (params : ArticleGroupParams) (res : ArticleGroupResult) :
  _make_article_groups fuel db kv params = Some (Return res) ->
  exists cr,
    find_resource kv (OfClusteringParams (clustering params)) = Return (OfClusteringResult cr) /\
    (article_ids cr <> [] ->
     map group_id (result res) = unique_in_order Z.eqb (non_null_labels (labels cr)) /\
     Forall (fun g =>
               group_article_ids g = labelled_with (group_id g) (article_ids cr) (labels cr) /\
               group_article_ids g <> [] /\
               num_articles g = Z.of_nat (length (group_article_ids g)))
            (result res)).
Proof.
  intros Hrun. apply _make_article_groups_Return in Hrun as (cr & Hfound & Hrun).
  exists cr. split; [exact Hfound|]. intros Hne.
  apply group_clustered_articles_groups in Hrun as (Hlen & right & Hgroups); [|exact Hne].
  unfold groupby_cluster in Hgroups.
  rewrite join_article_df_labels, (omap_snd_zip _ _ Hlen) in Hgroups.
  set (df := zip (article_ids cr) (labels cr)) in *.
  assert (Hin : forall c, c ∈ unique_in_order Z.eqb (non_null_labels (labels cr)) ->
                          exists i, (i, Some c) ∈ df).
  { intros c Hc. apply (proj1 (elem_of_unique_in_order _ _)) in Hc.
    rewrite <- (omap_snd_zip _ _ Hlen) in Hc. fold df in Hc.
    apply list_elem_of_omap in Hc as ([i c'] & Hp & Hc). simpl in Hc. subst c'. eauto. }
  revert Hgroups Hin. generalize (unique_in_order Z.eqb (non_null_labels (labels cr))).
  generalize (result res). clear res.
  intros gs clusters. revert gs.
  induction clusters as [|c clusters IH]; intros gs Hgroups Hin; simpl in Hgroups.
  - inversion Hgroups; subst. split; [reflexivity | constructor].
  - inversion Hgroups as [|cg g cgs gs' Hg Hrest]; subst. simpl in Hg.
    apply summarize_group_Return in Hg as (Hid & Hnum & Hids).
    destruct (IH gs' Hrest) as [IH1 IH2]; [intros c' Hc'; apply Hin; right; exact Hc'|].
    split; [simpl; congruence|]. constructor; [|exact IH2].
    rewrite Hnum, Hids, Hid. unfold labelled_with. fold df.
    split; [apply join_article_df_members|].
    split; [|rewrite length_map; reflexivity].
    rewrite join_article_df_members.
    destruct (Hin c) as [i Hi]; [left|].
    intros Hnil. apply fmap_nil_inv in Hnil.
    assert ((i, Some c) ∈ filter (fun p : Z * option Z => snd p = Some c) df) as Hmem
      by (apply list_elem_of_filter; split; [reflexivity | exact Hi]).
    rewrite Hnil in Hmem. inversion Hmem.
Qed.

Lemma elem_of_unique_strings (l : list string) (x : string) :
  x ∈ unique_in_order String.eqb l <-> x ∈ l.
Proof.
  induction l as [|a l IH]; simpl; [reflexivity|].
  rewrite !elem_of_cons, list_elem_of_filter, IH.
  destruct (String.eqb_spec a x) as [->|Hne]; simpl; intuition congruence.
Qed.

Lemma NoDup_unique_strings (l : list string) : NoDup (unique_in_order String.eqb l).
Proof.
  induction l as [|a l IH]; simpl; constructor.
  - rewrite list_elem_of_filter. intros [Hne _]. rewrite String.eqb_refl in Hne. discriminate.
  - apply NoDup_filter, IH.
Qed.

Lemma elem_of_recurring_terms (all_terms : list string) (t : string) :
  t ∈ recurring_terms all_terms -> 1 < count_of String.eqb t all_terms.
Proof.
  unfold recurring_terms. intros Ht.
  apply list_elem_of_fmap in Ht as ([t' n] & -> & Ht).
  apply list_elem_of_filter in Ht as [Hn Ht]. simpl in *.
  apply list_elem_of_fmap in Ht as (c & [= -> ->] & _). apply Z.ltb_lt. exact Hn.
Qed.

Lemma NoDup_recurring_terms (all_terms : list string) : NoDup (recurring_terms all_terms).
Proof.
  unfold recurring_terms.
  assert (Hfst : forall l : list string,
             map fst (filter (fun cn : string * Z => Z.ltb 1 (snd cn) = true)
                             (map (fun c => (c, count_of String.eqb c all_terms)) l))
             = filter (fun c => Z.ltb 1 (count_of String.eqb c all_terms) = true) l).
  { induction l as [|c l IH]; [reflexivity|]. simpl. rewrite !filter_cons. simpl.
    destruct (decide (Z.ltb 1 (count_of String.eqb c all_terms) = true)); simpl; rewrite IH;
      reflexivity. }
  rewrite Hfst. apply NoDup_filter, NoDup_unique_strings.
Qed.

Lemma summarize_group_top_terms (params : ArticleGroupParams) (cluster : Z)
    (cluster_articles : list article_row) (g : ArticleGroup) (all_terms : list string) :
  chain_summary_terms cluster_articles = Return all_terms ->
  summarize_group params cluster cluster_articles = Return g ->
  exists distances : list (string * float),
    map fst distances `prefix_of` recurring_terms all_terms /\
    top_terms g = take (Z.to_nat (Z.max 1 (num_terms params)))
                       (map fst (sorted (fun a b => float_lt (snd a) (snd b)) distances)).
Proof.
  intros Hterms. unfold summarize_group. rewrite Hterms. simpl mbind.
  fold (recurring_terms all_terms). intros [= <-]. simpl top_terms.
  destruct (recurring_terms all_terms) as [|c cs] eqn:Hc.
  - exists []. split; [reflexivity|]. simpl. rewrite take_nil. reflexivity.
  - eexists. split; [|rewrite take_top_terms_from by lia; rewrite Z.sub_0_r; reflexivity].
    generalize (embed (c :: cs)). generalize (c :: cs). clear.
    induction l as [|t l IH]; intros [|e es]; simpl; try apply prefix_nil.
    apply prefix_cons, IH.
Qed.

(** X13. The representative terms of a group are terms that occur more than
    once among the summary terms of its articles; no term is listed twice,
    and at most [max(1, num_terms)] are listed. *)
Theorem top_terms_recur (params : ArticleGroupParams) (cluster : Z)
    (cluster_articles : list article_row) (g : ArticleGroup) (all_terms : list string) :
  chain_summary_terms cluster_articles = Return all_terms ->
  summarize_group params cluster cluster_articles = Return g ->
  (forall t, t ∈ top_terms g -> 1 < count_of String.eqb t all_terms) /\
  NoDup (top_terms g) /\
  Z.of_nat (length (top_terms g)) <= Z.max 1 (num_terms params).
Proof.
  intros Hterms Hg.
  destruct (summarize_group_top_terms _ _ _ _ _ Hterms Hg) as (distances & Hpre & ->).
  assert (Hperm : map fst (sorted (fun a b => float_lt (snd a) (snd b)) distances)
                  ≡ₚ map fst distances) by (rewrite sorted_Permutation; reflexivity).
  assert (Hnd : NoDup (map fst distances)).
  { destruct Hpre as [k Hk]. pose proof (NoDup_recurring_terms all_terms) as Hn.
    rewrite Hk in Hn. apply NoDup_app in Hn as [Hn _]. exact Hn. }
  split; [|split].
  - intros t Ht. apply elem_of_recurring_terms.
    apply elem_of_take in Ht as (i & Ht & _). apply list_elem_of_lookup_2 in Ht.
    rewrite Hperm in Ht. destruct Hpre as [k ->]. apply elem_of_app. left. exact Ht.
  - eapply sublist_NoDup; [|apply sublist_take]. rewrite Hperm. exact Hnd.
  - rewrite length_take. lia.
Qed.
End GroupingRuns.

Section JobProperties.
Context `{PyHash} `{Pydantic} `{Colorcet} `{Database} `{Numeric} `{TextModels}
        `{JobCodec} `{PyStr}.

Lemma find_job_hset (kv : Redis) (j : Job) (id : string) :
  find_job (hset kv JOBS_HASH_KEY id (Job_json j)) id = Job_parse_raw (Job_json j).
Proof. unfold find_job. rewrite hget_hset. reflexivity. Qed.

Lemma find_job_hset_ne (kv : Redis) (name key value id : string) :
  (JOBS_HASH_KEY, id) <> (name, key) ->
  find_job (hset kv name key value) id = find_job kv id.
Proof. intros Hne. unfold find_job. rewrite hget_hset_ne by exact Hne. reflexivity. Qed.

Lemma save_job_OfJob (j : Job) (kv : Redis) :
  save_job (OfJob j) kv = Some (hset kv JOBS_HASH_KEY (job_id j) (Job_json j), Return j).
Proof. reflexivity. Qed.

Lemma save_job_OfJobCreate (fields : JobCreate) (uuid : string) (kv : Redis) :
  save_job (OfJobCreate fields uuid) kv =
    match status fields, result_url fields with
    | SUCCESS, None =>
      Some (kv, Raise (ValidationError "successful jobs must have a result_url"))
    | _, _ =>
      Some (hset kv JOBS_HASH_KEY uuid (Job_json {| job_base := fields; job_id := uuid |}),
            Return {| job_base := fields; job_id := uuid |})
    end.
Proof.
  destruct fields as [s d u]. destruct s, u; reflexivity.
Qed.

(** X14. A saved job is found again under its id, as it was saved: a new job
    under the id drawn for it, with the fields it was created with, an
    existing job under the id it has; no other job changes. *)
Theorem saved_job_is_found (job : job_arg) (kv kv' : Redis) (saved : Job) :
  save_job job kv = Some (kv', Return saved) ->
  Job_parse_raw (Job_json saved) = Return saved ->
  find_job kv' (job_id saved) = Return saved /\
  (forall id, id <> job_id saved -> find_job kv' id = find_job kv id) /\
  match job with
  | OfJobCreate fields uuid => saved = {| job_base := fields; job_id := uuid |}
  | OfJob j => saved = j
  end.
Proof.
  intros Hsave Hcodec.
  assert (kv' = hset kv JOBS_HASH_KEY (job_id saved) (Job_json saved) /\
          match job with
          | OfJobCreate fields uuid => saved = {| job_base := fields; job_id := uuid |}
          | OfJob j => saved = j
          end) as [-> Hsaved].
  { destruct job as [fields uuid | j].
    - rewrite save_job_OfJobCreate in Hsave.
      destruct (status fields), (result_url fields); simplify_eq; auto.
    - rewrite save_job_OfJob in Hsave. simplify_eq. auto. }
  split; [rewrite find_job_hset; exact Hcodec|]. split; [|exact Hsaved].
  intros id Hne. apply find_job_hset_ne. congruence.
Qed.

(** X15. A new job that claims success without a result URL is refused and
    nothing is written; every other new job is saved with its fields
    unchanged.  A job that already has an id is written as it is, whatever
    its fields. *)
Theorem new_successful_job_needs_url (fields : JobCreate) (uuid : string) (j : Job)
    (kv : Redis) :
  (status fields = SUCCESS -> result_url fields = None ->
   save_job (OfJobCreate fields uuid) kv
     = Some (kv, Raise (ValidationError "successful jobs must have a result_url"))) /\
  (status fields <> SUCCESS \/ result_url fields <> None ->
   save_job (OfJobCreate fields uuid) kv
     = Some (hset kv JOBS_HASH_KEY uuid (Job_json {| job_base := fields; job_id := uuid |}),
             Return {| job_base := fields; job_id := uuid |})) /\
  save_job (OfJob j) kv = Some (hset kv JOBS_HASH_KEY (job_id j) (Job_json j), Return j).
Proof.
  rewrite save_job_OfJobCreate. split; [|split; [|reflexivity]].
  - intros -> ->. reflexivity.
  - intros [Hs | Hu]; destruct (status fields), (result_url fields); try reflexivity;
      contradiction.
Qed.

(** [worker_context] in one equation. *)
Lemma worker_context_eq {A : Type} (body : taskM A) (job : Job) (kv : Redis) :
  worker_context body job kv =
    match body job kv with
    | Some (job', kv', Raise e) =>
      if Exception_or_Shutdown e
      then Some (failed job' e,
                 hset kv' JOBS_HASH_KEY (job_id job') (Job_json (failed job' e)), Raise e)
      else Some (job', kv', Raise e)
    | r => r
    end.
Proof.
  unfold worker_context. destruct (body job kv) as [[[job' kv'] [a|e]]|]; reflexivity.
Qed.

Lemma Exception_or_Shutdown_true (e : exn) :
  is_Exception e = true \/ e = Shutdown -> Exception_or_Shutdown e = true.
Proof.
  unfold Exception_or_Shutdown. intros [-> | ->]; [reflexivity | apply orb_true_r].
Qed.

Lemma find_resource_hash_hset_jobs (kv : Redis) (id value : string) (cls : resource_cls)
    (params_hash : string) :
  find_resource_hash (hset kv JOBS_HASH_KEY id value) cls params_hash
    = find_resource_hash kv cls params_hash.
Proof.
  unfold find_resource_hash. destruct cls; simpl; rewrite hget_hset_ne by discriminate;
    reflexivity.
Qed.

(** X16. When the body of a task raises an [Exception] or a [Shutdown], the
    job is saved as failed, with the text of the exception as its detail, and
    the exception is raised again; no resource entry changes in the handler.
    Another [BaseException] leaves the job as the body left it. *)
Theorem failed_task_is_recorded {A : Type} (body : taskM A) (job : Job) (kv : Redis)
    (job' : Job) (kv' : Redis) (e : exn) :
  body job kv = Some (job', kv', Raise e) ->
  (is_Exception e = true \/ e = Shutdown ->
   exists kv'',
     worker_context body job kv = Some (failed job' e, kv'', Raise e) /\
     hget kv'' JOBS_HASH_KEY (job_id job') = Some (Job_json (failed job' e)) /\
     (Job_parse_raw (Job_json (failed job' e)) = Return (failed job' e) ->
      find_job kv'' (job_id job') = Return (failed job' e)) /\
     forall cls params_hash,
       find_resource_hash kv'' cls params_hash = find_resource_hash kv' cls params_hash) /\
  (is_Exception e = false -> e <> Shutdown ->
   worker_context body job kv = Some (job', kv', Raise e)).
Proof.
  intros Hbody. rewrite worker_context_eq, Hbody. split.
  - intros He. rewrite (Exception_or_Shutdown_true e He).
    eexists. split; [reflexivity|]. split; [apply hget_hset|]. split.
    + intros Hcodec. rewrite find_job_hset. exact Hcodec.
    + intros cls params_hash. apply find_resource_hash_hset_jobs.
  - intros He Hne. unfold Exception_or_Shutdown. rewrite He.
    destruct e; try reflexivity; contradiction.
Qed.

Lemma finish_eq (url : string) (job : Job) (kv : Redis) :
  finish url job kv
    = Some (succeeded job url,
            hset kv JOBS_HASH_KEY (job_id job) (Job_json (succeeded job url)), Return tt).
Proof. reflexivity. Qed.

Lemma stage_eq (fuel : nat) (db : Session) (detail : string) (params : HashableBaseModel)
    (force : bool) (job : Job) (kv : Redis) :
  stage fuel db detail params force job kv =
    match make_resource fuel db params force
            (hset kv JOBS_HASH_KEY (job_id job) (Job_json (working job detail))) with
    | None => None
    | Some (kv', o) => Some (working job detail, kv', o)
    end.
Proof.
  unfold stage. unfold mbind, taskM_bind. simpl.
  unfold with_kv. destruct (make_resource _ _ _ _ _) as [[kv' o]|]; reflexivity.
Qed.

(** A stage whose reservation is granted and whose creation function
    returns. *)
Lemma stage_created (fuel : nat) (db : Session) (detail : string) (params : HashableBaseModel)
    (force : bool) (job : Job) (kv : Redis) (hash_key : string) (func : creation_func)
    (r : BaseModel) :
  get_resource_hash_key (class_of params) = Return hash_key ->
  get_resource_creation_func (class_of params) = Return func ->
  force = true \/ hget kv hash_key (params_hash_of params) = None ->
  hash_key <> JOBS_HASH_KEY ->
  func fuel db
       (hset (hset kv JOBS_HASH_KEY (job_id job) (Job_json (working job detail)))
             hash_key (params_hash_of params) IN_PROGRESS_VAL)
       params = Some (Return r) ->
  stage fuel db detail params force job kv
    = Some (working job detail,
            hset (hset (hset kv JOBS_HASH_KEY (job_id job) (Job_json (working job detail)))
                       hash_key (params_hash_of params) IN_PROGRESS_VAL)
                 hash_key (params_hash_of params) (json r),
            Return tt).
Proof.
  intros Hk Hf Hg Hne Hr. rewrite stage_eq.
  rewrite (make_resource_eq fuel db params force _ hash_key func Hk Hf).
  rewrite hget_hset_ne by congruence.
  assert (force || bool_decide (hget kv hash_key (params_hash_of params) = None) = true) as ->.
  { destruct Hg as [-> | ->]; [reflexivity|].
    rewrite bool_decide_eq_true_2 by reflexivity. apply orb_true_r. }
  rewrite Hr. reflexivity.
Qed.

(** A stage whose entry is already there. *)
Lemma stage_skipped (fuel : nat) (db : Session) (detail : string) (params : HashableBaseModel)
    (job : Job) (kv : Redis) (hash_key val : string) :
  get_resource_hash_key (class_of params) = Return hash_key ->
  hget kv hash_key (params_hash_of params) = Some val ->
  hash_key <> JOBS_HASH_KEY ->
  stage fuel db detail params false job kv
    = Some (working job detail,
            hset kv JOBS_HASH_KEY (job_id job) (Job_json (working job detail)), Return tt).
Proof.
  intros Hk Hval Hne. rewrite stage_eq.
  destruct (creation_func_registered (class_of params)) as [func Hf].
  rewrite (make_resource_eq fuel db params false _ hash_key func Hk Hf).
  rewrite hget_hset_ne by congruence. rewrite Hval.
  rewrite bool_decide_eq_false_2 by discriminate. reflexivity.
Qed.

Lemma find_resource_hash_stored (kv : Redis) (cls : resource_cls) (hash_key : string)
    (rc : result_cls) (params_hash : string) (r : BaseModel) :
  get_resource_hash_key cls = Return hash_key ->
  get_resource_result_cls cls = Return rc ->
  hget kv hash_key params_hash = Some (json r) ->
  String.length (json r) <> 0%nat ->
  parse_raw rc (json r) = Return r ->
  find_resource_hash kv cls params_hash = Return r.
Proof.
  intros Hk Hrc Hval Hlen Hparse. unfold find_resource_hash. rewrite Hk, Hrc. simpl.
  rewrite Hval. simpl. apply Nat.eqb_neq in Hlen. rewrite Hlen. exact Hparse.
Qed.

Lemma find_resource_stored (kv : Redis) (params : HashableBaseModel) (hash_key : string)
    (rc : result_cls) (r : BaseModel) :
  get_resource_hash_key (class_of params) = Return hash_key ->
  get_resource_result_cls (class_of params) = Return rc ->
  hget kv hash_key (params_hash_of params) = Some (json r) ->
  String.length (json r) <> 0%nat ->
  parse_raw rc (json r) = Return r ->
  find_resource kv params = Return r.
Proof.
  intros Hk Hrc Hval Hlen Hparse. unfold find_resource.
  rewrite (find_resource_hash_stored kv _ hash_key rc _ r Hk Hrc Hval Hlen Hparse).
  reflexivity.
Qed.

(** The run of the filter-set task when the reservation is granted. *)
Lemma make_filter_set_created (fuel : nat) (db : Session) (params : FilterSetParams)
    (force : bool) (job : Job) (kv : Redis) :
  let params_hash := pretty (hash (OfFilterSetParams params)) in
  let url := "/literature/filter_set/" +:+ params_hash in
  force = true \/ hget kv "filter_sets" params_hash = None ->
  make_filter_set fuel db params force job kv
    = Some (succeeded job url,
            hset (hset (hset (hset kv JOBS_HASH_KEY (job_id job)
                                   (Job_json (working job "Creating filter set")))
                             "filter_sets" params_hash IN_PROGRESS_VAL)
                       "filter_sets" params_hash
                       (json (OfFilterSetResult (filter_set_of db params))))
                 JOBS_HASH_KEY (job_id job) (Job_json (succeeded job url)),
            Return tt).
Proof.
  intros params_hash url Hg.
  unfold make_filter_set. rewrite worker_context_eq.
  unfold mbind at 1. unfold taskM_bind.
  rewrite (stage_created fuel db _ (OfFilterSetParams params) force job kv "filter_sets"
             call_make_filter_set (OfFilterSetResult (filter_set_of db params))
             eq_refl eq_refl Hg ltac:(discriminate) eq_refl).
  rewrite finish_eq. reflexivity.
Qed.

(** X17. The filter-set task, started on a store where the entry is absent
    (or with [force]), ends with the job saved as successful, its result URL
    naming the hash of the parameters, and the filter set readable under
    that hash: the job lookup answers the successful job and the filter-set
    lookup answers the ids the query returned. *)
Theorem filter_set_task_succeeds (fuel : nat) (db : Session) (params : FilterSetParams)
    (force : bool) (job : Job) (kv : Redis) :
  let params_hash := pretty (hash (OfFilterSetParams params)) in
  let url := "/literature/filter_set/" +:+ params_hash in
  let r := OfFilterSetResult (filter_set_of db params) in
  force = true \/ hget kv "filter_sets" params_hash = None ->
  String.length (json r) <> 0%nat ->
  parse_raw FilterSetResult_cls (json r) = Return r ->
  Job_parse_raw (Job_json (succeeded job url)) = Return (succeeded job url) ->
  exists kv',
    make_filter_set fuel db params force job kv = Some (succeeded job url, kv', Return tt) /\
    get_job (job_id job) kv' = Body (succeeded job url) /\
    get_filter_set params_hash kv' = Body r.
Proof.
  intros params_hash url r Hg Hlen Hparse Hjob.
  eexists. split; [apply (make_filter_set_created fuel db params force job kv Hg)|]. split.
  - unfold get_job. rewrite find_job_hset. fold params_hash. fold url.
    rewrite Hjob. reflexivity.
  - unfold get_filter_set, _get_filter_set.
    rewrite (find_resource_hash_stored _ FilterSetParams_cls "filter_sets" FilterSetResult_cls
               params_hash r eq_refl eq_refl); try assumption; [reflexivity|].
    rewrite hget_hset_ne by discriminate. apply hget_hset.
Qed.

(** X18. The task does not wait for a creation in progress elsewhere: when
    the entry holds the sentinel and [force] is off, the task still ends with
    the job saved as successful, while the lookup its result URL names
    answers 409. *)
Theorem filter_set_task_does_not_wait (fuel : nat) (db : Session) (params : FilterSetParams)
    (job : Job) (kv : Redis) :
  let params_hash := pretty (hash (OfFilterSetParams params)) in
  let url := "/literature/filter_set/" +:+ params_hash in
  hget kv "filter_sets" params_hash = Some IN_PROGRESS_VAL ->
  Job_parse_raw (Job_json (succeeded job url)) = Return (succeeded job url) ->
  exists kv',
    make_filter_set fuel db params false job kv = Some (succeeded job url, kv', Return tt) /\
    get_job (job_id job) kv' = Body (succeeded job url) /\
    get_filter_set params_hash kv' = HTTPException 409 "Filter set creation is in progress".
Proof.
  intros params_hash url Hval Hjob.
  exists (hset (hset kv JOBS_HASH_KEY (job_id job)
                     (Job_json (working job "Creating filter set")))
               JOBS_HASH_KEY (job_id job) (Job_json (succeeded job url))).
  split; [|split].
  - unfold make_filter_set. rewrite worker_context_eq.
    unfold mbind at 1. unfold taskM_bind.
    rewrite (stage_skipped fuel db _ (OfFilterSetParams params) job kv "filter_sets"
               IN_PROGRESS_VAL eq_refl Hval ltac:(discriminate)).
    rewrite finish_eq. reflexivity.
  - unfold get_job. rewrite find_job_hset, Hjob. reflexivity.
  - unfold get_filter_set, _get_filter_set, find_resource_hash. simpl.
    rewrite !hget_hset_ne by discriminate. fold params_hash. rewrite Hval. reflexivity.
Qed.
End JobProperties.

Section TaskProperties.
Context `{PyHash} `{Pydantic} `{Colorcet} `{Database} `{Numeric} `{TextModels}
        `{JobCodec} `{PyStr}.

Lemma call_make_clustering_found (fuel : nat) (db : Session) (kv : Redis)
    (params : ClusteringParams) (found : FilterSetResult) :
  hget kv "filter_sets" (pretty (hash (OfFilterSetParams (filter_set params))))
    = Some (json (OfFilterSetResult found)) ->
  String.length (json (OfFilterSetResult found)) <> 0%nat ->
  parse_raw FilterSetResult_cls (json (OfFilterSetResult found))
    = Return (OfFilterSetResult found) ->
  call_make_clustering (S fuel) db kv (OfClusteringParams params)
    = Some (OfClusteringResult
              <$> cluster_filtered_articles db params (filter_set_article_ids found)).
Proof.
  intros Hval Hlen Hparse. unfold call_make_clustering, _make_clustering.
  rewrite (poll_resource_found fuel kv _ _
             (find_resource_stored kv (OfFilterSetParams (filter_set params)) "filter_sets"
                FilterSetResult_cls _ eq_refl eq_refl Hval Hlen Hparse)).
  reflexivity.
Qed.

Lemma call_make_article_groups_found (fuel : nat) (db : Session) (kv : Redis)
    (params : ArticleGroupParams) (found : ClusteringResult) :
  hget kv "clusterings" (pretty (hash (OfClusteringParams (clustering params))))
    = Some (json (OfClusteringResult found)) ->
  String.length (json (OfClusteringResult found)) <> 0%nat ->
  parse_raw ClusteringResult_cls (json (OfClusteringResult found))
    = Return (OfClusteringResult found) ->
  call_make_article_groups (S fuel) db kv (OfArticleGroupParams params)
    = Some (OfArticleGroupResult <$> group_clustered_articles db params found).
Proof.
  intros Hval Hlen Hparse. unfold call_make_article_groups, _make_article_groups.
  rewrite (poll_resource_found fuel kv _ _
             (find_resource_stored kv (OfClusteringParams (clustering params)) "clusterings"
                ClusteringResult_cls _ eq_refl eq_refl Hval Hlen Hparse)).
  reflexivity.
Qed.

Lemma granted_later (force : bool) (kv kv' : Redis) (hash_key params_hash : string) :
  force = true \/ hget kv hash_key params_hash = None ->
  hget kv' hash_key params_hash = hget kv hash_key params_hash ->
  force = true \/ hget kv' hash_key params_hash = None.
Proof. intros [-> | Hn] E; [left; reflexivity | right; congruence]. Qed.

Lemma filter_set_stage (fuel : nat) (db : Session) (params : FilterSetParams) (force : bool)
    (job : Job) (kv : Redis) :
  force = true \/ hget kv "filter_sets" (pretty (hash (OfFilterSetParams params))) = None ->
  stage fuel db "Creating filter set" (OfFilterSetParams params) force job kv
    = Some (working job "Creating filter set", filter_set_made db params job kv, Return tt).
Proof.
  intros Hg.
  apply (stage_created fuel db _ (OfFilterSetParams params) force job kv "filter_sets"
           call_make_filter_set (OfFilterSetResult (filter_set_of db params))
           eq_refl eq_refl Hg ltac:(discriminate) eq_refl).
Qed.

Lemma clustering_planted_filter_set (db : Session) (params : ClusteringParams) (job : Job)
    (kv : Redis) :
  hget (clustering_planted db params job kv) "filter_sets"
       (pretty (hash (OfFilterSetParams (filter_set params))))
    = Some (json (OfFilterSetResult (filter_set_of db (filter_set params)))).
Proof.
  unfold clustering_planted, filter_set_made.
  rewrite !hget_hset_ne by discriminate. apply hget_hset.
Qed.

Lemma filter_set_made_clusterings (db : Session) (params : FilterSetParams) (job : Job)
    (kv : Redis) (name key : string) :
  name <> "filter_sets" -> name <> JOBS_HASH_KEY ->
  hget (filter_set_made db params job kv) name key = hget kv name key.
Proof.
  intros H1' H2'. unfold filter_set_made. rewrite !hget_hset_ne by congruence. reflexivity.
Qed.

(** The second stage of the clustering task, by how the clustering ends. *)
Lemma clustering_stage (fuel : nat) (db : Session) (params : ClusteringParams) (force : bool)
    (job : Job) (kv : Redis) :
  let fs := OfFilterSetResult (filter_set_of db (filter_set params)) in
  let params_hash := pretty (hash (OfClusteringParams params)) in
  force = true \/ hget kv "clusterings" params_hash = None ->
  String.length (json fs) <> 0%nat ->
  parse_raw FilterSetResult_cls (json fs) = Return fs ->
  stage (S fuel) db "Clustering" (OfClusteringParams params) force
        (working job "Creating filter set") (filter_set_made db (filter_set params) job kv)
    = match cluster_filtered_articles db params
              (filter_set_article_ids (filter_set_of db (filter_set params))) with
      | Return r =>
        Some (working job "Clustering",
              hset (clustering_planted db params job kv) "clusterings" params_hash
                   (json (OfClusteringResult r)),
              Return tt)
      | Raise e =>
        if Exception_or_Shutdown e
        then Some (working job "Clustering",
                   hdel (clustering_planted db params job kv) "clusterings" params_hash,
                   if absorbed e then Return tt else Raise e)
        else Some (working job "Clustering", clustering_planted db params job kv, Raise e)
      end.
Proof.
  intros fs params_hash Hg Hlen Hparse. rewrite stage_eq.
  rewrite (make_resource_eq (S fuel) db (OfClusteringParams params) force _ "clusterings"
             call_make_clustering eq_refl eq_refl).
  change (params_hash_of (OfClusteringParams params)) with params_hash.
  rewrite hget_hset_ne by discriminate.
  rewrite filter_set_made_clusterings by discriminate.
  assert (force || bool_decide (hget kv "clusterings" params_hash = None) = true) as ->.
  { destruct Hg as [-> | ->]; [reflexivity|].
    rewrite bool_decide_eq_true_2 by reflexivity. apply orb_true_r. }
  change (hset (hset (filter_set_made db (filter_set params) job kv) JOBS_HASH_KEY
                     (job_id (working job "Creating filter set"))
                     (Job_json (working (working job "Creating filter set") "Clustering")))
               "clusterings" params_hash IN_PROGRESS_VAL)
    with (clustering_planted db params job kv).
  rewrite (call_make_clustering_found fuel db _ params (filter_set_of db (filter_set params))
             (clustering_planted_filter_set db params job kv) Hlen Hparse).
  destruct (cluster_filtered_articles db params _) as [r|e]; simpl; [reflexivity|].
  destruct (Exception_or_Shutdown e); reflexivity.
Qed.

(** X19. The clustering task on a store that holds neither the filter set
    nor the clustering (or with [force]): the first stage makes the filter
    set, the second finds it at its first poll and clusters it.  When the
    clustering returns [r], the job is saved as successful, and the lookups
    of the job, of the filter set and of the clustering under the hash in
    the result URL answer the job, the query's ids and [r]. *)
Theorem clustering_task_succeeds (fuel : nat) (db : Session) (params : ClusteringParams)
    (force : bool) (job : Job) (kv : Redis) (r : ClusteringResult) :
  let fs := OfFilterSetResult (filter_set_of db (filter_set params)) in
  let fs_hash := pretty (hash (OfFilterSetParams (filter_set params))) in
  let params_hash := pretty (hash (OfClusteringParams params)) in
  let url := "/literature/clustering/" +:+ params_hash in
  force = true \/
    (hget kv "filter_sets" fs_hash = None /\ hget kv "clusterings" params_hash = None) ->
  String.length (json fs) <> 0%nat ->
  parse_raw FilterSetResult_cls (json fs) = Return fs ->
  cluster_filtered_articles db params
    (query_filter_articles db (full_text_search_query (filter_set params))
       (limit (filter_set params))) = Return r ->
  String.length (json (OfClusteringResult r)) <> 0%nat ->
  parse_raw ClusteringResult_cls (json (OfClusteringResult r)) = Return (OfClusteringResult r) ->
  Job_parse_raw (Job_json (succeeded job url)) = Return (succeeded job url) ->
  exists kv',
    make_clustering (S fuel) db params force job kv = Some (succeeded job url, kv', Return tt) /\
    get_job (job_id job) kv' = Body (succeeded job url) /\
    get_filter_set fs_hash kv' = Body fs /\
    get_clustering params_hash kv' = Body (OfClusteringResult r).
Proof.
  intros fs fs_hash params_hash url Hg Hlen Hparse Hr Hlen' Hparse' Hjob.
  assert (Hg1 : force = true \/ hget kv "filter_sets" fs_hash = None) by tauto.
  assert (Hg2 : force = true \/ hget kv "clusterings" params_hash = None) by tauto.
  exists (hset (hset (clustering_planted db params job kv) "clusterings" params_hash
                     (json (OfClusteringResult r)))
               JOBS_HASH_KEY (job_id job) (Job_json (succeeded job url))).
  split; [|split; [|split]].
  - unfold make_clustering. rewrite worker_context_eq.
    unfold mbind, taskM_bind.
    rewrite (filter_set_stage (S fuel) db (filter_set params) force job kv Hg1).
    cbv beta iota.
    rewrite (clustering_stage fuel db params force job kv Hg2 Hlen Hparse).
    change (filter_set_article_ids (filter_set_of db (filter_set params)))
      with (query_filter_articles db (full_text_search_query (filter_set params))
              (limit (filter_set params))).
    rewrite Hr. cbv beta iota. rewrite finish_eq. reflexivity.
  - unfold get_job. rewrite find_job_hset, Hjob. reflexivity.
  - unfold get_filter_set, _get_filter_set.
    rewrite (find_resource_hash_stored _ FilterSetParams_cls "filter_sets" FilterSetResult_cls
               fs_hash fs eq_refl eq_refl); try assumption; [reflexivity|].
    rewrite !hget_hset_ne by discriminate. apply clustering_planted_filter_set.
  - unfold get_clustering.
    rewrite (find_resource_hash_stored _ ClusteringParams_cls "clusterings" ClusteringResult_cls
               params_hash (OfClusteringResult r) eq_refl eq_refl); try assumption;
      [reflexivity|].
    rewrite hget_hset_ne by discriminate. apply hget_hset.
Qed.

(** X20. The same task when the clustering raises [e] (an [Exception] other
    than the two [make_resource] absorbs): the task raises [e], the job is
    saved as failed with the text of [e], the clustering entry is removed,
    so its lookup answers 404 and not 409, and the filter set made by the
    first stage stays. *)
Theorem clustering_task_fails (fuel : nat) (db : Session) (params : ClusteringParams)
    (force : bool) (job : Job) (kv : Redis) (e : exn) :
  let fs := OfFilterSetResult (filter_set_of db (filter_set params)) in
  let fs_hash := pretty (hash (OfFilterSetParams (filter_set params))) in
  let params_hash := pretty (hash (OfClusteringParams params)) in
  force = true \/
    (hget kv "filter_sets" fs_hash = None /\ hget kv "clusterings" params_hash = None) ->
  String.length (json fs) <> 0%nat ->
  parse_raw FilterSetResult_cls (json fs) = Return fs ->
  cluster_filtered_articles db params
    (query_filter_articles db (full_text_search_query (filter_set params))
       (limit (filter_set params))) = Raise e ->
  is_Exception e = true ->
  absorbed e = false ->
  Job_parse_raw (Job_json (failed job e)) = Return (failed job e) ->
  exists kv',
    make_clustering (S fuel) db params force job kv = Some (failed job e, kv', Raise e) /\
    get_job (job_id job) kv' = Body (failed job e) /\
    get_filter_set fs_hash kv' = Body fs /\
    get_clustering params_hash kv'
      = HTTPException 404 ("Clustering does not exist with hash " +:+ params_hash).
Proof.
  intros fs fs_hash params_hash Hg Hlen Hparse Hr He Ha Hjob.
  assert (Hg1 : force = true \/ hget kv "filter_sets" fs_hash = None) by tauto.
  assert (Hg2 : force = true \/ hget kv "clusterings" params_hash = None) by tauto.
  exists (hset (hdel (clustering_planted db params job kv) "clusterings" params_hash)
               JOBS_HASH_KEY (job_id job) (Job_json (failed job e))).
  split; [|split; [|split]].
  - unfold make_clustering. rewrite worker_context_eq.
    unfold mbind, taskM_bind.
    rewrite (filter_set_stage (S fuel) db (filter_set params) force job kv Hg1).
    cbv beta iota.
    rewrite (clustering_stage fuel db params force job kv Hg2 Hlen Hparse).
    change (filter_set_article_ids (filter_set_of db (filter_set params)))
      with (query_filter_articles db (full_text_search_query (filter_set params))
              (limit (filter_set params))).
    rewrite Hr. cbv beta iota.
    rewrite !(Exception_or_Shutdown_true e (or_introl He)), Ha. cbv beta iota.
    rewrite ?(Exception_or_Shutdown_true e (or_introl He)). reflexivity.
  - unfold get_job. rewrite find_job_hset, Hjob. reflexivity.
  - unfold get_filter_set, _get_filter_set.
    rewrite (find_resource_hash_stored _ FilterSetParams_cls "filter_sets" FilterSetResult_cls
               fs_hash fs eq_refl eq_refl); try assumption; [reflexivity|].
    rewrite hget_hset_ne, hget_hdel_ne by discriminate.
    apply clustering_planted_filter_set.
  - unfold get_clustering, find_resource_hash. simpl.
    rewrite hget_hset_ne by discriminate. fold params_hash. rewrite hget_hdel. reflexivity.
Qed.
End TaskProperties.

Section PipelineProperties.
Context `{PyHash} `{Pydantic} `{Colorcet} `{Database} `{Numeric} `{TextModels}
        `{JobCodec} `{PyStr}.

(** X21. The article-group task on a store that holds none of the three
    resources (or with [force]) makes them in turn, each stage finding at its
    first poll what the stage before stored: when the clustering returns [r]
    and the grouping of [r] returns [g], the job is saved as successful and
    the lookups of the job, of the clustering and of the article groups under
    the hash in the result URL answer the job, [r] and [g]. *)
Theorem article_group_task_succeeds (fuel : nat) (db : Session) (params : ArticleGroupParams)
    (force : bool) (job : Job) (kv : Redis) (r : ClusteringResult) (g : ArticleGroupResult) :
  let fs := OfFilterSetResult (filter_set_of db (filter_set (clustering params))) in
  let fs_hash := pretty (hash (OfFilterSetParams (filter_set (clustering params)))) in
  let clustering_hash := pretty (hash (OfClusteringParams (clustering params))) in
  let params_hash := pretty (hash (OfArticleGroupParams params)) in
  let url := "/literature/article_group/" +:+ params_hash in
  force = true \/
    (hget kv "filter_sets" fs_hash = None /\
     hget kv "clusterings" clustering_hash = None /\
     hget kv "article_groups" params_hash = None) ->
  String.length (json fs) <> 0%nat ->
  parse_raw FilterSetResult_cls (json fs) = Return fs ->
  cluster_filtered_articles db (clustering params)
    (query_filter_articles db (full_text_search_query (filter_set (clustering params)))
       (limit (filter_set (clustering params)))) = Return r ->
  String.length (json (OfClusteringResult r)) <> 0%nat ->
  parse_raw ClusteringResult_cls (json (OfClusteringResult r)) = Return (OfClusteringResult r) ->
  group_clustered_articles db params r = Return g ->
  String.length (json (OfArticleGroupResult g)) <> 0%nat ->
  parse_raw ArticleGroupResult_cls (json (OfArticleGroupResult g))
    = Return (OfArticleGroupResult g) ->
  Job_parse_raw (Job_json (succeeded job url)) = Return (succeeded job url) ->
  exists kv',
    make_article_group (S fuel) db params force job kv
      = Some (succeeded job url, kv', Return tt) /\
    get_job (job_id job) kv' = Body (succeeded job url) /\
    get_clustering clustering_hash kv' = Body (OfClusteringResult r) /\
    get_article_group params_hash kv' = Body (OfArticleGroupResult g).
Proof.
  intros fs fs_hash clustering_hash params_hash url Hg Hlen Hparse Hr Hlen' Hparse'
    Hgr Hlen'' Hparse'' Hjob.
  assert (Hg1 : force = true \/ hget kv "filter_sets" fs_hash = None) by tauto.
  assert (Hg2 : force = true \/ hget kv "clusterings" clustering_hash = None) by tauto.
  assert (Hg3 : force = true \/ hget kv "article_groups" params_hash = None) by tauto.
  exists (hset (hset (groups_planted db params job kv r) "article_groups" params_hash
                     (json (OfArticleGroupResult g)))
               JOBS_HASH_KEY (job_id job) (Job_json (succeeded job url))).
  split; [|split; [|split]].
  - unfold make_article_group. rewrite worker_context_eq.
    unfold mbind, taskM_bind.
    rewrite (filter_set_stage (S fuel) db (filter_set (clustering params)) force job kv Hg1).
    cbv beta iota.
    rewrite (clustering_stage fuel db (clustering params) force job kv Hg2 Hlen Hparse).
    change (filter_set_article_ids (filter_set_of db (filter_set (clustering params))))
      with (query_filter_articles db (full_text_search_query (filter_set (clustering params)))
              (limit (filter_set (clustering params)))).
    rewrite Hr. cbv beta iota.
    rewrite (stage_created (S fuel) db _ (OfArticleGroupParams params) force
               (working job "Clustering") _ "article_groups" call_make_article_groups
               (OfArticleGroupResult g) eq_refl eq_refl).
    + rewrite finish_eq. reflexivity.
    + apply (granted_later force kv _ _ _ Hg3).
      unfold clustering_planted, filter_set_made.
      rewrite !hget_hset_ne by discriminate. reflexivity.
    + discriminate.
    + rewrite (call_make_article_groups_found fuel db _ params r); try assumption.
      * rewrite Hgr. reflexivity.
      * rewrite !hget_hset_ne by discriminate. apply hget_hset.
  - unfold get_job. rewrite find_job_hset, Hjob. reflexivity.
  - unfold get_clustering.
    rewrite (find_resource_hash_stored _ ClusteringParams_cls "clusterings" ClusteringResult_cls
               clustering_hash (OfClusteringResult r) eq_refl eq_refl); try assumption;
      [reflexivity|].
    unfold groups_planted. rewrite !hget_hset_ne by discriminate. apply hget_hset.
  - unfold get_article_group.
    rewrite (find_resource_hash_stored _ ArticleGroupParams_cls "article_groups"
               ArticleGroupResult_cls params_hash (OfArticleGroupResult g) eq_refl eq_refl);
      try assumption; [reflexivity|].
    rewrite hget_hset_ne by discriminate. apply hget_hset.
Qed.

Lemma find_resource_hash_cases (kv : Redis) (cls : resource_cls) (hash_key : string)
    (rc : result_cls) (params_hash : string) :
  get_resource_hash_key cls = Return hash_key ->
  get_resource_result_cls cls = Return rc ->
  find_resource_hash kv cls params_hash =
    match hget kv hash_key params_hash with
    | None => Raise (ResourceDoesNotExist (str_cls cls +:+ " with hash " +:+ params_hash))
    | Some val =>
      if Nat.eqb (String.length val) 0
      then Raise (ResourceCreationInProgress (str_cls cls +:+ " with hash " +:+ params_hash))
      else parse_raw rc val
    end.
Proof.
  intros Hk Hrc. unfold find_resource_hash. rewrite Hk, Hrc. simpl.
  destruct (hget kv hash_key params_hash); reflexivity.
Qed.

(** X22. The three resource lookups of the API answer by the state of the
    entry: 404, with the hash in the detail, when there is no entry; 409
    when the entry holds the in-progress sentinel; and the stored result when
    the entry holds a text the result class parses. *)
Theorem resource_lookups_answer (params_hash : string) (kv : Redis) :
  (hget kv "filter_sets" params_hash = None ->
   get_filter_set params_hash kv
     = HTTPException 404 ("Filter set does not exist with hash " +:+ params_hash)) /\
  (hget kv "filter_sets" params_hash = Some IN_PROGRESS_VAL ->
   get_filter_set params_hash kv = HTTPException 409 "Filter set creation is in progress") /\
  (forall val r,
      hget kv "filter_sets" params_hash = Some val -> String.length val <> 0%nat ->
      FilterSetResult_parse_raw val = Return r ->
      get_filter_set params_hash kv = Body (OfFilterSetResult r)) /\
  (hget kv "clusterings" params_hash = None ->
   get_clustering params_hash kv
     = HTTPException 404 ("Clustering does not exist with hash " +:+ params_hash)) /\
  (hget kv "clusterings" params_hash = Some IN_PROGRESS_VAL ->
   get_clustering params_hash kv = HTTPException 409 "Clustering creation is in progress") /\
  (forall val r,
      hget kv "clusterings" params_hash = Some val -> String.length val <> 0%nat ->
      ClusteringResult_parse_raw val = Return r ->
      get_clustering params_hash kv = Body (OfClusteringResult r)) /\
  (hget kv "article_groups" params_hash = None ->
   get_article_group params_hash kv
     = HTTPException 404 ("Article group does not exist with hash " +:+ params_hash)) /\
  (hget kv "article_groups" params_hash = Some IN_PROGRESS_VAL ->
   get_article_group params_hash kv
     = HTTPException 409 "Article group creation is in progress") /\
  (forall val r,
      hget kv "article_groups" params_hash = Some val -> String.length val <> 0%nat ->
      ArticleGroupResult_parse_raw val = Return r ->
      get_article_group params_hash kv = Body (OfArticleGroupResult r)).
Proof.
  unfold get_filter_set, _get_filter_set, get_clustering, get_article_group.
  rewrite (find_resource_hash_cases kv FilterSetParams_cls "filter_sets" FilterSetResult_cls
             params_hash eq_refl eq_refl).
  rewrite (find_resource_hash_cases kv ClusteringParams_cls "clusterings" ClusteringResult_cls
             params_hash eq_refl eq_refl).
  rewrite (find_resource_hash_cases kv ArticleGroupParams_cls "article_groups"
             ArticleGroupResult_cls params_hash eq_refl eq_refl).
  repeat split.
  all: try (intros ->; reflexivity).
  all: intros val r -> Hlen Hparse; apply Nat.eqb_neq in Hlen; rewrite Hlen; simpl;
    rewrite Hparse; reflexivity.
Qed.

(** X23. The job [start_task] saves and returns is in progress, with the
    detail Starting and no result URL, and it is what the job lookup answers
    under the id drawn for it; the lookup of an id the store does not hold
    answers 404. *)
Theorem started_job_is_in_progress (uuid : string) (kv : Redis) :
  let job := {| job_base := {| status := IN_PROGRESS; status_detail := Some "Starting";
                               result_url := None |};
                job_id := uuid |} in
  exists kv',
    start_task uuid kv = Some (kv', Return job) /\
    (Job_parse_raw (Job_json job) = Return job -> get_job uuid kv' = Body job) /\
    (forall id, id <> uuid -> hget kv JOBS_HASH_KEY id = None ->
                get_job id kv' = HTTPException 404 ("No job found for ID: " +:+ id)).
Proof.
  intros job. exists (hset kv JOBS_HASH_KEY uuid (Job_json job)).
  split; [reflexivity|]. split.
  - intros Hcodec. unfold get_job. rewrite find_job_hset, Hcodec. reflexivity.
  - intros id Hne Hnone. unfold get_job.
    rewrite find_job_hset_ne by congruence. unfold find_job. rewrite Hnone. reflexivity.
Qed.

(** X24. Jobs and resources do not meet in the store: saving a job changes
    the answer of no resource lookup, and [make_resource] changes the answer
    of no job lookup. *)
Theorem jobs_and_resources_are_apart (job : job_arg) (fuel : nat) (db : Session)
    (params : HashableBaseModel) (force : bool) (kv kv1 kv2 : Redis)
    (o1 : outcome Job) (o2 : outcome unit) :
  save_job job kv = Some (kv1, o1) ->
  make_resource fuel db params force kv = Some (kv2, o2) ->
  (forall cls params_hash,
      find_resource_hash kv1 cls params_hash = find_resource_hash kv cls params_hash) /\
  (forall other, find_resource kv1 other = find_resource kv other) /\
  (forall id, find_job kv2 id = find_job kv id).
Proof.
  intros Hsave Hmake.
  assert (Hres : forall cls params_hash,
             find_resource_hash kv1 cls params_hash = find_resource_hash kv cls params_hash).
  { destruct job as [fields uuid | j].
    - rewrite save_job_OfJobCreate in Hsave.
      destruct (status fields), (result_url fields); simplify_eq; intros cls params_hash;
        try reflexivity; apply find_resource_hash_hset_jobs.
    - rewrite save_job_OfJob in Hsave. simplify_eq. intros cls params_hash.
      apply find_resource_hash_hset_jobs. }
  split; [exact Hres|]. split.
  - intros other. unfold find_resource. rewrite Hres. reflexivity.
  - intros id. unfold find_job.
    destruct (hash_key_registered (class_of params)) as [hash_key Hk].
    rewrite (make_resource_frame fuel db params force kv kv2 o2 hash_key Hk Hmake);
      [reflexivity|].
    intros [= <- _]. destruct params; vm_compute in Hk; discriminate.
Qed.
End PipelineProperties.

(** * The code run on the small world *)

Section Scenarios.
Local Existing Instance test_PyHash.
Local Existing Instance test_Pydantic.
Local Existing Instance test_Colorcet.
Local Existing Instance test_Database.
Local Existing Instance test_Numeric.
Local Existing Instance test_TextModels.

(** C8, as the code has it.  The loop that fills [top_terms] appends before
    it tests the count, so a request for no terms (or one) keeps the closest
    term of every cluster that has a candidate: articles 1 and 2 share the
    MeSH term Humans, and with [num_terms=0] their group comes back with
    that term. *)
Theorem zero_terms_returns_a_term :
  (forall term rest, take_top_terms 0 0 (term :: rest) = [term]) /\
  exists groups,
    _make_article_groups 1 tt kv_with_clustering zero_terms = Some (Return groups) /\
    num_terms zero_terms = 0 /\
    map group_article_ids (result groups) = [[1; 2]] /\
    map top_terms (result groups) = [["Humans"]].
Proof.
  split.
  - intros term rest. apply take_top_terms_one. lia.
  - eexists. split; [vm_compute; reflexivity|]. repeat split.
Qed.


(** The stand-in float hash respects [==]. *)
Lemma test_hash_float_eq (x y : float) :
  float_eq x y = true -> test_hash_float x = test_hash_float y.
Proof.
  unfold float_eq, SFeqb, SFcompare.
  destruct x as [sx|sx| |sx mx ex], y as [sy|sy| |sy my ey]; simpl; intros E;
    try discriminate E; try reflexivity;
    try (destruct sx; discriminate E); try (destruct sy; discriminate E).
  - destruct sx, sy; try discriminate E; reflexivity.
  - destruct sx, sy; try discriminate E;
      destruct (Z.compare ex ey) eqn:Ez; try discriminate E;
      apply Z.compare_eq in Ez; subst ey;
      destruct (Pos.compare_cont Eq mx my) eqn:Em; simpl in E; try discriminate E;
      apply Pcompare_Eq_eq in Em; subst my; reflexivity.
Qed.


(** C4 at work: the filter set made on an empty store is found again. *)
Lemma find_resource_after_make_resource_witness :
  hget ∅ "filter_sets" (params_hash_of (OfFilterSetParams all_articles)) = None /\
  call_make_filter_set 1%nat tt
      (hset ∅ "filter_sets" (params_hash_of (OfFilterSetParams all_articles)) IN_PROGRESS_VAL)
      (OfFilterSetParams all_articles)
    = Some (Return (OfFilterSetResult seven_articles)) /\
  json (OfFilterSetResult seven_articles) = "{article_ids: [1, 2, 3, 4, 5, 6, 7]}" /\
  exists kv',
    make_resource 1 tt (OfFilterSetParams all_articles) false ∅ = Some (kv', Return tt) /\
    hget kv' "filter_sets" (params_hash_of (OfFilterSetParams all_articles))
      = Some (json (OfFilterSetResult seven_articles)) /\
    find_resource kv' (OfFilterSetParams all_articles)
      = Return (OfFilterSetResult seven_articles).
Proof.
  split; [reflexivity|]. split; [reflexivity|]. split; [reflexivity|].
  refine (find_resource_after_make_resource 1 tt (OfFilterSetParams all_articles) false ∅
            "filter_sets" FilterSetResult_cls call_make_filter_set
            (OfFilterSetResult seven_articles) eq_refl eq_refl eq_refl (or_introl _) _ _ _);
    try reflexivity.
  discriminate.
Defined.

(** The stand-in HDBSCAN labels are -1 or a cluster index. *)
Lemma test_Numeric_labels (a b : Z) (c : float) (data : list (float * float))
    (fitted : clusterer) :
  HDBSCAN_fit a b c data = Return fitted ->
  Forall (Z.le (-1)) (labels_ fitted) /\
  forall eps n l, get_clusters fitted eps n = Return l -> Forall (Z.le (-1)) l.
Proof.
  simpl. destruct (Nat.eqb (length data) 7); [|discriminate].
  intros [= <-].
  assert (Forall (Z.le (-1)) [0; 0; 0; 1; 1; 1; -1]) by (repeat constructor; lia).
  split; [assumption|]. intros eps n l [= <-]. assumption.
Qed.

(** C6 at work: the seven articles. *)
Lemma clustering_result_invariant_witness :
  exists r,
    _make_clustering 1 tt kv_with_filter_set (default_clustering all_articles)
      = Some (Return r) /\
    labels r = [Some 0; Some 0; Some 0; Some 1; Some 1; Some 1; None] /\
    num_clusters r = 2 /\
    length (article_ids r) = length (labels r) /\
    length (labels r) = length (coords r) /\
    num_clusters r = match max_non_null_label (labels r) with
                     | Some m => m + 1
                     | None => 0
                     end.
Proof.
  eexists. split; [vm_compute; reflexivity|].
  split; [reflexivity|]. split; [reflexivity|].
  refine (clustering_result_invariant 1 tt kv_with_filter_set
            (default_clustering all_articles) _ test_Numeric_labels _).
  vm_compute. reflexivity.
Defined.

(** C7, as the spec has it, fails on the seven articles: two clusters and an
    outlier give three rows in each cluster-level list. *)
Lemma cluster_arrays_count_the_outliers :
  exists r,
    _make_clustering 1 tt kv_with_filter_set (default_clustering all_articles)
      = Some (Return r) /\
    labels r = [Some 0; Some 0; Some 0; Some 1; Some 1; Some 1; None] /\
    distinct_non_null_labels (labels r) = 2%nat /\
    n_per_cluster (label_info r) = [1; 3; 3] /\
    length (n_per_cluster (label_info r)) <> distinct_non_null_labels (labels r) /\
    length (cluster_center_coords (label_info r)) <> distinct_non_null_labels (labels r) /\
    length (cluster_validity_indices (label_info r)) <> distinct_non_null_labels (labels r).
Proof.
  eexists. split; [vm_compute; reflexivity|].
  repeat split; vm_compute; discriminate.
Qed.

(** C7 at work, as the code has it: three rows for two clusters and the outliers. *)
Lemma cluster_arrays_lengths_witness :
  exists r,
    _make_clustering 1 tt kv_with_filter_set (default_clustering all_articles)
      = Some (Return r) /\
    has_outliers (labels r) = true /\
    length (n_per_cluster (label_info r)) = 3%nat /\
    length (cluster_center_coords (label_info r)) = 3%nat /\
    length (cluster_validity_indices (label_info r)) = 3%nat.
Proof.
  eexists. split; [vm_compute; reflexivity|]. split; [reflexivity|].
  refine (cluster_arrays_lengths 1 tt kv_with_filter_set
            (default_clustering all_articles) _ _).
  vm_compute. reflexivity.
Defined.

(** C9 at work: the score is 1.0 and the field is [None]. *)
Lemma silhouette_is_never_reported_witness :
  exists r,
    _make_clustering 1 tt kv_with_filter_set (default_clustering all_articles)
      = Some (Return r) /\
    silhouette_score (coords r) [0; 0; 0; 1; 1; 1; -1] = Return (float_of_Z 1) /\
    silhoutte_coefficient (metrics r) = None.
Proof.
  eexists. split; [vm_compute; reflexivity|]. split; [reflexivity|].
  refine (proj1 (silhouette_is_never_reported 1 tt kv_with_filter_set
                   (default_clustering all_articles) _ _)).
  vm_compute. reflexivity.
Defined.

(** C10 at work: forcing over the stored filter set, with a scope that fails. *)
Lemma forced_reservation_overwrites_result_witness :
  hget kv_with_filter_set "filter_sets" (params_hash_of (OfFilterSetParams all_articles))
    = Some "{article_ids: [1, 2, 3, 4, 5, 6, 7]}" /\
  find_resource kv_with_filter_set (OfFilterSetParams all_articles)
    = Return (OfFilterSetResult seven_articles) /\
  find_resource
      (hset kv_with_filter_set "filter_sets"
            (params_hash_of (OfFilterSetParams all_articles)) IN_PROGRESS_VAL)
      (OfFilterSetParams all_articles)
    = Raise (ResourceCreationInProgress (repr (OfFilterSetParams all_articles))) /\
  exists kv3,
    reserve_resource (OfFilterSetParams all_articles) true
        (raise (A:=unit) (OtherException "RuntimeError")) kv_with_filter_set
      = Some (kv3, Raise (OtherException "RuntimeError")) /\
    hget kv3 "filter_sets" (params_hash_of (OfFilterSetParams all_articles)) = None.
Proof.
  split; [reflexivity|].
  pose proof (forced_reservation_overwrites_result (OfFilterSetParams all_articles)
                (raise (A:=unit) (OtherException "RuntimeError")) kv_with_filter_set
                "filter_sets" FilterSetResult_cls "{article_ids: [1, 2, 3, 4, 5, 6, 7]}"
                (OfFilterSetResult seven_articles)
                eq_refl eq_refl eq_refl (fun E => O_S _ (eq_sym E)) eq_refl)
    as (Hfound & _ & _ & Hprogress & Hfail).
  split; [exact Hfound|]. split; [exact Hprogress|].
  apply (Hfail _ (OtherException "RuntimeError") eq_refl (or_introl eq_refl)).
Defined.

(** The steps of the repository's [test_reserve_resource] and
    [test_find_resource] on the filter set. *)
Example reserve_existing_raises :
  reserve_resource (OfFilterSetParams all_articles) false (mret tt) kv_with_filter_set
    = Some (kv_with_filter_set, Raise (ResourceExists "resource already created for params ...")).
Proof. reflexivity. Qed.

Example reserve_in_progress_raises :
  let kv := hset ∅ "filter_sets" (params_hash_of (OfFilterSetParams all_articles))
                 IN_PROGRESS_VAL in
  reserve_resource (OfFilterSetParams all_articles) false (mret tt) kv
    = Some (kv, Raise (ResourceCreationInProgress
                         "resource creation in-progress for params ...")).
Proof. reflexivity. Qed.

Example reserve_fresh_marks_in_progress :
  exists kv,
    reserve_resource (OfFilterSetParams all_articles) false (mret tt) ∅ = Some (kv, Return tt) /\
    is_in_progress (hget kv "filter_sets" (params_hash_of (OfFilterSetParams all_articles)))
      = true.
Proof. eexists. split; [vm_compute; reflexivity | reflexivity]. Qed.

Example find_absent_raises :
  find_resource ∅ (OfFilterSetParams all_articles)
    = Raise (ResourceDoesNotExist "FilterSetParams(...)").
Proof. reflexivity. Qed.

Example find_stored_returns :
  find_resource kv_with_filter_set (OfFilterSetParams all_articles)
    = Return (OfFilterSetResult seven_articles).
Proof. reflexivity. Qed.
End Scenarios.

(** * The creation functions run on the small world *)

Section CreationScenarios.
Local Existing Instance test_PyHash.
Local Existing Instance test_Pydantic.
Local Existing Instance test_Colorcet.
Local Existing Instance test_Database.
Local Existing Instance test_Numeric.
Local Existing Instance test_TextModels.

(** X1 at work: the stored filter set is left alone. *)
Lemma make_resource_leaves_present_entry_witness :
  hget kv_with_filter_set "filter_sets" (params_hash_of (OfFilterSetParams all_articles))
    = Some "{article_ids: [1, 2, 3, 4, 5, 6, 7]}" /\
  make_resource 1 tt (OfFilterSetParams all_articles) false kv_with_filter_set
    = Some (kv_with_filter_set, Return tt).
Proof.
  split; [reflexivity|].
  refine (make_resource_leaves_present_entry 1 tt (OfFilterSetParams all_articles)
            kv_with_filter_set "filter_sets" "{article_ids: [1, 2, 3, 4, 5, 6, 7]}" eq_refl _).
  reflexivity.
Defined.

(** X2 at work: a clustering asked for on an empty store fails, because its
    filter set does not exist, and leaves no entry behind. *)
Lemma make_resource_failure_cleans_up_witness :
  call_make_clustering 1%nat tt
      (hset ∅ "clusterings"
            (params_hash_of (OfClusteringParams (default_clustering all_articles)))
            IN_PROGRESS_VAL)
      (OfClusteringParams (default_clustering all_articles))
    = Some (Raise (ResourceDoesNotExist "FilterSetParams(...)")) /\
  exists kv',
    make_resource 1 tt (OfClusteringParams (default_clustering all_articles)) false ∅
      = Some (kv', Raise (ResourceDoesNotExist "FilterSetParams(...)")) /\
    hget kv' "clusterings" (params_hash_of (OfClusteringParams (default_clustering all_articles)))
      = None /\
    find_resource kv' (OfClusteringParams (default_clustering all_articles))
      = Raise (ResourceDoesNotExist "ClusteringParams(...)").
Proof.
  split; [reflexivity|].
  refine (make_resource_failure_cleans_up 1 tt
            (OfClusteringParams (default_clustering all_articles)) false ∅ "clusterings"
            call_make_clustering (ResourceDoesNotExist "FilterSetParams(...)")
            eq_refl eq_refl (or_introl _) _ (or_introl _));
    reflexivity.
Defined.

(** The store after the filter set of [all_articles] has been made on
    [kv_with_clustering]. *)
Lemma make_filter_set_beside_clustering :
  make_resource 1 tt (OfFilterSetParams all_articles) false kv_with_clustering
    = Some (hset (hset kv_with_clustering "filter_sets"
                       (params_hash_of (OfFilterSetParams all_articles)) IN_PROGRESS_VAL)
                 "filter_sets" (params_hash_of (OfFilterSetParams all_articles))
                 (json (OfFilterSetResult seven_articles)),
            Return tt).
Proof. reflexivity. Defined.

(** X3 at work: making the filter set on a store that holds a clustering
    leaves the clustering as it was. *)
Lemma make_resource_touches_one_entry_witness :
  exists kv',
    make_resource 1 tt (OfFilterSetParams all_articles) false kv_with_clustering
      = Some (kv', Return tt) /\
    exists hash_key,
      get_resource_hash_key FilterSetParams_cls = Return hash_key /\
      (forall name key,
          (name, key) <> (hash_key, params_hash_of (OfFilterSetParams all_articles)) ->
          hget kv' name key = hget kv_with_clustering name key) /\
      (forall other,
          class_of other <> FilterSetParams_cls \/
          hash other <> hash (OfFilterSetParams all_articles) ->
          find_resource kv' other = find_resource kv_with_clustering other).
Proof.
  eexists. split; [exact make_filter_set_beside_clustering|].
  exact (make_resource_touches_one_entry 1 tt (OfFilterSetParams all_articles) false
           kv_with_clustering _ (Return tt) make_filter_set_beside_clustering).
Defined.

(** X5 at work: a filter set in progress, and no filter set. *)
Lemma clustering_waits_for_filter_set_witness :
  _make_clustering 1000 tt
      (hset ∅ "filter_sets" (params_hash_of (OfFilterSetParams all_articles)) IN_PROGRESS_VAL)
      (default_clustering all_articles) = None /\
  _make_clustering 1 tt ∅ (default_clustering all_articles)
    = Some (Raise (ResourceDoesNotExist "FilterSetParams(...)")).
Proof.
  split.
  - refine (proj1 (clustering_waits_for_filter_set tt
                     (hset ∅ "filter_sets" (params_hash_of (OfFilterSetParams all_articles))
                           IN_PROGRESS_VAL)
                     (default_clustering all_articles)) _ 1000%nat).
    reflexivity.
  - refine (proj2 (clustering_waits_for_filter_set tt ∅ (default_clustering all_articles))
              _ 0%nat).
    reflexivity.
Defined.

(** X6 at work: two temporary articles are too few for the stand-in HDBSCAN. *)
Lemma clustering_failure_is_translated_witness :
  ids_to_cluster (default_clustering two_temporary) [] = [8; 9] /\
  HDBSCAN_fit 3 3 (S754_zero false) [(float_of_Z 8, float_of_Z 2); (float_of_Z 9, float_of_Z 0)]
    = Raise (ValueError "k must be less than or equal to the number of training points") /\
  cluster_filtered_articles tt (default_clustering two_temporary) []
    = Raise (ValueError clustering_failed).
Proof.
  split; [reflexivity|]. split; [reflexivity|].
  refine (clustering_failure_is_translated tt (default_clustering two_temporary) []
            [(float_of_Z 8, float_of_Z 2); (float_of_Z 9, float_of_Z 0)]
            (ValueError "k must be less than or equal to the number of training points")
            _ _ _ _);
    try reflexivity; discriminate.
Defined.

(** X7 at work: one outlier, three and three articles: seven. *)
Lemma cluster_counts_add_up_witness :
  exists r,
    _make_clustering 1 tt kv_with_filter_set (default_clustering all_articles)
      = Some (Return r) /\
    n_per_cluster (label_info r) = [1; 3; 3] /\
    total (n_per_cluster (label_info r)) = Z.of_nat (length (article_ids r)).
Proof.
  eexists. split; [vm_compute; reflexivity|]. split; [reflexivity|].
  refine (cluster_counts_add_up 1 tt kv_with_filter_set (default_clustering all_articles) _ _).
  vm_compute. reflexivity.
Defined.

(** X8 at work: the seven articles have clusters 0 and 1. *)
Lemma nonempty_clustering_has_a_cluster_witness :
  exists r,
    _make_clustering 1 tt kv_with_filter_set (default_clustering all_articles)
      = Some (Return r) /\
    article_ids r = [1; 2; 3; 4; 5; 6; 7] /\
    exists c, Some c ∈ labels r /\ c <> -1.
Proof.
  eexists. split; [vm_compute; reflexivity|]. split; [reflexivity|].
  refine (nonempty_clustering_has_a_cluster 1 tt kv_with_filter_set
            (default_clustering all_articles) _ _ _);
    [vm_compute; reflexivity | discriminate].
Defined.

(** X11 at work: the stored clustering of articles 1 and 2 gives one group. *)
Lemma article_groups_follow_labels_witness :
  exists res,
    _make_article_groups 1 tt kv_with_clustering zero_terms = Some (Return res) /\
    map group_id (result res) = [0] /\
    exists cr,
      find_resource kv_with_clustering (OfClusteringParams (clustering zero_terms))
        = Return (OfClusteringResult cr) /\
      (article_ids cr <> [] ->
       map group_id (result res) = unique_in_order Z.eqb (non_null_labels (labels cr)) /\
       Forall (fun g =>
                 group_article_ids g = labelled_with (group_id g) (article_ids cr) (labels cr) /\
                 group_article_ids g <> [] /\
                 num_articles g = Z.of_nat (length (group_article_ids g)))
              (result res)).
Proof.
  eexists. split; [vm_compute; reflexivity|]. split; [reflexivity|].
  refine (article_groups_follow_labels 1 tt kv_with_clustering zero_terms _ _).
  vm_compute. reflexivity.
Defined.

(** X13 at work: Humans occurs twice among the terms of articles 1 and 2,
    Mice once. *)
Lemma top_terms_recur_witness :
  chain_summary_terms two_mesh_rows = Return ["Humans"; "Mice"; "Humans"] /\
  exists g,
    summarize_group zero_terms 0 two_mesh_rows = Return g /\
    top_terms g = ["Humans"] /\
    (forall t, t ∈ top_terms g -> 1 < count_of String.eqb t ["Humans"; "Mice"; "Humans"]) /\
    NoDup (top_terms g) /\
    Z.of_nat (length (top_terms g)) <= Z.max 1 (num_terms zero_terms).
Proof.
  split; [reflexivity|].
  eexists. split; [vm_compute; reflexivity|]. split; [reflexivity|].
  refine (top_terms_recur zero_terms 0 two_mesh_rows _ ["Humans"; "Mice"; "Humans"] _ _);
    vm_compute; reflexivity.
Defined.
End CreationScenarios.

Section BlankScenarios.
Local Existing Instance test_PyHash.
Local Existing Instance blank_Pydantic.
Local Existing Instance test_Colorcet.
Local Existing Instance test_Database.
Local Existing Instance test_Numeric.
Local Existing Instance test_TextModels.

(** X4 at work: the empty filter set. *)
Lemma empty_filter_set_gives_blank_clustering_witness :
  find_resource kv_with_empty_filter_set (OfFilterSetParams all_articles)
    = Return (OfFilterSetResult {| filter_set_article_ids := [] |}) /\
  _make_clustering 1 tt kv_with_empty_filter_set (default_clustering all_articles)
    = Some (Return blank_clustering_result).
Proof.
  split; [reflexivity|].
  refine (empty_filter_set_gives_blank_clustering 0 tt kv_with_empty_filter_set
            (default_clustering all_articles) {| filter_set_article_ids := [] |} _ _);
    reflexivity.
Defined.

(** X9 at work: with a minimum cluster size of 2, the empty filter set. *)
Lemma skipped_validity_returns_only_blank_witness :
  hdbscan_min_cluster_size small_clusters = 2 /\
  exists r,
    _make_clustering 1 tt kv_with_empty_filter_set small_clusters = Some (Return r) /\
    r = blank_clustering_result.
Proof.
  split; [reflexivity|].
  eexists. split; [vm_compute; reflexivity|].
  refine (skipped_validity_returns_only_blank 1 tt kv_with_empty_filter_set small_clusters
            _ (or_introl _) _);
    [vm_compute; discriminate | vm_compute; reflexivity].
Defined.

(** X12 at work: the blank clustering. *)
Lemma empty_clustering_gives_blank_groups_witness :
  find_resource kv_with_blank_clustering (OfClusteringParams (clustering zero_terms))
    = Return (OfClusteringResult blank_clustering_result) /\
  _make_article_groups 1 tt kv_with_blank_clustering zero_terms
    = Some (Return blank_article_group_result).
Proof.
  split; [reflexivity|].
  refine (empty_clustering_gives_blank_groups 0 tt kv_with_blank_clustering zero_terms
            blank_clustering_result _ _);
    reflexivity.
Defined.
End BlankScenarios.

(** * The tasks run on the small world *)

Section TaskScenarios.
Local Existing Instance test_PyHash.
Local Existing Instance pipeline_Pydantic.
Local Existing Instance test_Colorcet.
Local Existing Instance test_Database.
Local Existing Instance test_Numeric.
Local Existing Instance test_TextModels.
Local Existing Instance test_JobCodec.
Local Existing Instance test_PyStr.

(** X14 at work: a new job, found under the id drawn for it. *)
Lemma saved_job_is_found_witness :
  save_job (OfJobCreate (job_base started) "7f3a") ∅
    = Some (hset ∅ JOBS_HASH_KEY "7f3a" (Job_json started), Return started) /\
  find_job (hset ∅ JOBS_HASH_KEY "7f3a" (Job_json started)) "7f3a" = Return started.
Proof.
  split; [reflexivity|].
  refine (proj1 (saved_job_is_found (OfJobCreate (job_base started) "7f3a") ∅
                   (hset ∅ JOBS_HASH_KEY "7f3a" (Job_json started)) started _ _));
    reflexivity.
Defined.

(** X15 at work: success without a URL is refused; in progress is saved. *)
Lemma new_successful_job_needs_url_witness :
  save_job (OfJobCreate {| status := SUCCESS; status_detail := None; result_url := None |}
                        "7f3a") ∅
    = Some (∅, Raise (ValidationError "successful jobs must have a result_url")) /\
  save_job (OfJobCreate (job_base started) "7f3a") ∅
    = Some (hset ∅ JOBS_HASH_KEY "7f3a" (Job_json started), Return started).
Proof.
  split.
  - refine (proj1 (new_successful_job_needs_url
                     {| status := SUCCESS; status_detail := None; result_url := None |}
                     "7f3a" started ∅) _ _); reflexivity.
  - refine (proj1 (proj2 (new_successful_job_needs_url (job_base started) "7f3a" started ∅))
              (or_introl _)).
    discriminate.
Defined.

(** X16 at work: a body that raises [ValueError]. *)
Lemma failed_task_is_recorded_witness :
  exists kv'',
    worker_context (with_kv (raise (A:=unit) (ValueError "bad input"))) started ∅
      = Some (failed started (ValueError "bad input"), kv'', Raise (ValueError "bad input")) /\
    status_detail (job_base (failed started (ValueError "bad input"))) = Some "bad input" /\
    find_job kv'' "7f3a" = Return (failed started (ValueError "bad input")).
Proof.
  destruct (proj1 (failed_task_is_recorded
                     (with_kv (raise (A:=unit) (ValueError "bad input"))) started ∅
                     started ∅ (ValueError "bad input") eq_refl) (or_introl eq_refl))
    as (kv'' & Hrun & _ & Hfind & _).
  exists kv''. split; [exact Hrun|]. split; [reflexivity|]. apply Hfind. reflexivity.
Defined.

(** X17 at work: the filter-set task on an empty store. *)
Lemma filter_set_task_succeeds_witness :
  exists kv',
    make_filter_set 1 tt all_articles false started ∅
      = Some (succeeded started
                ("/literature/filter_set/" +:+ pretty (hash (OfFilterSetParams all_articles))),
              kv', Return tt) /\
    get_job "7f3a" kv'
      = Body (succeeded started
                ("/literature/filter_set/" +:+ pretty (hash (OfFilterSetParams all_articles)))) /\
    get_filter_set (pretty (hash (OfFilterSetParams all_articles))) kv'
      = Body (OfFilterSetResult seven_articles).
Proof.
  refine (filter_set_task_succeeds 1 tt all_articles false started ∅ (or_intror _) _ _ _);
    try reflexivity.
  discriminate.
Defined.

(** X18 at work: the entry is in progress, and the job succeeds. *)
Lemma filter_set_task_does_not_wait_witness :
  exists kv',
    make_filter_set 1 tt all_articles false started
        (hset ∅ "filter_sets" (pretty (hash (OfFilterSetParams all_articles))) IN_PROGRESS_VAL)
      = Some (succeeded started
                ("/literature/filter_set/" +:+ pretty (hash (OfFilterSetParams all_articles))),
              kv', Return tt) /\
    get_job "7f3a" kv'
      = Body (succeeded started
                ("/literature/filter_set/" +:+ pretty (hash (OfFilterSetParams all_articles)))) /\
    get_filter_set (pretty (hash (OfFilterSetParams all_articles))) kv'
      = HTTPException 409 "Filter set creation is in progress".
Proof.
  refine (filter_set_task_does_not_wait 1 tt all_articles started
            (hset ∅ "filter_sets" (pretty (hash (OfFilterSetParams all_articles)))
                  IN_PROGRESS_VAL) _ _);
    reflexivity.
Defined.

(** The clustering and the grouping of the seven articles return. *)
Lemma seven_clustered_eq :
  cluster_filtered_articles tt (default_clustering all_articles) [1; 2; 3; 4; 5; 6; 7]
    = Return seven_clustered.
Proof. vm_compute. reflexivity. Defined.

Lemma seven_grouped_eq :
  group_clustered_articles tt five_terms seven_clustered = Return seven_grouped.
Proof. vm_compute. reflexivity. Defined.

(** X19 at work: the clustering task on an empty store. *)
Lemma clustering_task_succeeds_witness :
  labels seven_clustered = [Some 0; Some 0; Some 0; Some 1; Some 1; Some 1; None] /\
  exists kv',
    make_clustering 1 tt (default_clustering all_articles) false started ∅
      = Some (succeeded started
                ("/literature/clustering/"
                   +:+ pretty (hash (OfClusteringParams (default_clustering all_articles)))),
              kv', Return tt) /\
    get_job "7f3a" kv'
      = Body (succeeded started
                ("/literature/clustering/"
                   +:+ pretty (hash (OfClusteringParams (default_clustering all_articles))))) /\
    get_filter_set (pretty (hash (OfFilterSetParams all_articles))) kv'
      = Body (OfFilterSetResult seven_articles) /\
    get_clustering (pretty (hash (OfClusteringParams (default_clustering all_articles)))) kv'
      = Body (OfClusteringResult seven_clustered).
Proof.
  split; [vm_compute; reflexivity|].
  refine (clustering_task_succeeds 0 tt (default_clustering all_articles) false started ∅
            seven_clustered (or_intror (conj _ _)) _ _ seven_clustered_eq _ _ _);
    try reflexivity; discriminate.
Defined.

(** X20 at work: two temporary articles are too few to cluster. *)
Lemma clustering_task_fails_witness :
  exists kv',
    make_clustering 1 tt (default_clustering two_temporary) false started ∅
      = Some (failed started (ValueError clustering_failed), kv',
              Raise (ValueError clustering_failed)) /\
    get_job "7f3a" kv' = Body (failed started (ValueError clustering_failed)) /\
    get_filter_set (pretty (hash (OfFilterSetParams two_temporary))) kv'
      = Body (OfFilterSetResult seven_articles) /\
    get_clustering (pretty (hash (OfClusteringParams (default_clustering two_temporary)))) kv'
      = HTTPException 404
          ("Clustering does not exist with hash "
             +:+ pretty (hash (OfClusteringParams (default_clustering two_temporary)))).
Proof.
  refine (clustering_task_fails 0 tt (default_clustering two_temporary) false started ∅
            (ValueError clustering_failed) (or_intror (conj _ _)) _ _ _ _ _ _);
    try reflexivity; discriminate.
Defined.

(** X21 at work: the article-group task on an empty store. *)
Lemma article_group_task_succeeds_witness :
  map group_article_ids (result seven_grouped) = [[1; 2; 3]; [4; 5; 6]] /\
  map top_terms (result seven_grouped) = [["Humans"]; ["Humans"]] /\
  exists kv',
    make_article_group 1 tt five_terms false started ∅
      = Some (succeeded started
                ("/literature/article_group/"
                   +:+ pretty (hash (OfArticleGroupParams five_terms))),
              kv', Return tt) /\
    get_job "7f3a" kv'
      = Body (succeeded started
                ("/literature/article_group/"
                   +:+ pretty (hash (OfArticleGroupParams five_terms)))) /\
    get_clustering (pretty (hash (OfClusteringParams (default_clustering all_articles)))) kv'
      = Body (OfClusteringResult seven_clustered) /\
    get_article_group (pretty (hash (OfArticleGroupParams five_terms))) kv'
      = Body (OfArticleGroupResult seven_grouped).
Proof.
  split; [vm_compute; reflexivity|]. split; [vm_compute; reflexivity|].
  refine (article_group_task_succeeds 0 tt five_terms false started ∅
            seven_clustered seven_grouped (or_intror (conj _ (conj _ _))) _ _
            seven_clustered_eq _ _ seven_grouped_eq _ _ _);
    try reflexivity; try discriminate; vm_compute; try reflexivity; discriminate.
Defined.

(** X22 at work: the three states of the filter-set entry. *)
Lemma resource_lookups_answer_witness :
  get_filter_set (pretty (hash (OfFilterSetParams all_articles))) ∅
    = HTTPException 404
        ("Filter set does not exist with hash "
           +:+ pretty (hash (OfFilterSetParams all_articles))) /\
  get_filter_set (pretty (hash (OfFilterSetParams all_articles)))
      (hset ∅ "filter_sets" (pretty (hash (OfFilterSetParams all_articles))) IN_PROGRESS_VAL)
    = HTTPException 409 "Filter set creation is in progress" /\
  get_filter_set (pretty (hash (OfFilterSetParams all_articles))) kv_with_filter_set
    = Body (OfFilterSetResult seven_articles).
Proof.
  split; [|split].
  - refine (proj1 (resource_lookups_answer _ ∅) _). reflexivity.
  - refine (proj1 (proj2 (resource_lookups_answer _ _)) _). reflexivity.
  - refine (proj1 (proj2 (proj2 (resource_lookups_answer _ kv_with_filter_set)))
              "{article_ids: [1, 2, 3, 4, 5, 6, 7]}" seven_articles _ _ _);
      try reflexivity.
    discriminate.
Defined.

(** X23 at work: the job started on an empty store. *)
Lemma started_job_is_in_progress_witness :
  exists kv',
    start_task "7f3a" ∅ = Some (kv', Return started) /\
    get_job "7f3a" kv' = Body started /\
    get_job "0000" kv' = HTTPException 404 "No job found for ID: 0000".
Proof.
  destruct (started_job_is_in_progress "7f3a" ∅) as (kv' & Hrun & Hfound & Hother).
  exists kv'. split; [exact Hrun|]. split.
  - apply Hfound. reflexivity.
  - apply Hother; [discriminate | reflexivity].
Defined.

(** The filter set of [all_articles] made on an empty store. *)
Lemma make_filter_set_on_empty :
  make_resource 1 tt (OfFilterSetParams all_articles) false ∅
    = Some (hset (hset ∅ "filter_sets" (params_hash_of (OfFilterSetParams all_articles))
                       IN_PROGRESS_VAL)
                 "filter_sets" (params_hash_of (OfFilterSetParams all_articles))
                 (json (OfFilterSetResult seven_articles)),
            Return tt).
Proof. reflexivity. Defined.

(** X24 at work: a job saved and a filter set made on the empty store. *)
Lemma jobs_and_resources_are_apart_witness :
  find_resource (hset ∅ JOBS_HASH_KEY "7f3a" (Job_json started)) (OfFilterSetParams all_articles)
    = find_resource ∅ (OfFilterSetParams all_articles) /\
  find_job (hset (hset ∅ "filter_sets" (params_hash_of (OfFilterSetParams all_articles))
                       IN_PROGRESS_VAL)
                 "filter_sets" (params_hash_of (OfFilterSetParams all_articles))
                 (json (OfFilterSetResult seven_articles)))
           "7f3a"
    = find_job ∅ "7f3a".
Proof.
  split.
  - refine (proj1 (proj2 (jobs_and_resources_are_apart (OfJob started) 1 tt
                            (OfFilterSetParams all_articles) false ∅ _ _ _ _
                            eq_refl make_filter_set_on_empty)) _).
  - refine (proj2 (proj2 (jobs_and_resources_are_apart (OfJob started) 1 tt
                            (OfFilterSetParams all_articles) false ∅ _ _ _ _
                            eq_refl make_filter_set_on_empty)) _).
Defined.
End TaskScenarios.
